(** * Session/context lifecycle manager of the janitor skill

    A shallow embedding of the session monitor, pruner, archiver,
    emergency cleanup, context watcher, configuration manager and
    session analyzer, followed by the properties established about them.

    Conventions of the embedding:
    - instants and durations are integers ([Z]) in milliseconds, as
      [Date.now()] and [getTime()] return them; a call reads the clock
      once ([now]);
    - other JavaScript numbers that are not plain counters (hours, scores,
      percentages, fractions) are rationals ([Q]); the utilization and
      the prune score, which are compared after several roundings, are
      computed as the doubles JavaScript computes ([fadd], [fmul],
      [fdiv]), the other ones exactly;
    - the settings of a configuration that count tokens, sessions, days,
      hours, minutes or percents are whole numbers ([Z]), as their
      defaults are; the code takes any number for them, and a setting
      with a fraction is outside what is established here;
    - JavaScript strings are [string]s, a character standing for the code
      unit of the same number;
    - the session directory is a finite map from file names to files;
    - a thrown exception is a [None] or an [Err] result, and state is
      passed explicitly. *)

From Stdlib Require Import ZArith QArith Qround String Ascii List Bool Lia Lqa Sorted.
From stdpp Require Import base option list gmap strings.
Import ListNotations.

Set Warnings "-register-all".
Close Scope Q_scope.
Local Open Scope Z_scope.

(** ** JavaScript helpers *)

Module JS.

(** [a < b] on numbers. *)
Definition Qltb (a b : Q) : bool := negb (Qle_bool b a).

(** [Math.ceil] of a rational. *)
Definition Math_ceil (x : Q) : Z := Qceiling x.

(** [Math.round]: the nearest integer, halves going up. *)
Definition Math_round (x : Q) : Z := Qfloor (x + (1 # 2))%Q.

Definition Math_min (a b : Q) : Q := if Qle_bool a b then a else b.
Definition Math_max (a b : Q) : Q := if Qle_bool a b then b else a.

(** [Array.prototype.sort] with a comparator, of which [lt a b] tells
    whether it is negative at [(a, b)]. The sort is stable: an element
    is placed after the earlier elements that are not greater. *)
Section Sort.
Context {A : Type} (lt : A -> A -> bool).

Fixpoint insert_sorted (x : A) (l : list A) : list A :=
  match l with
  | [] => [x]
  | y :: l' => if lt x y then x :: y :: l' else y :: insert_sorted x l'
  end.

Definition sort (l : list A) : list A :=
  fold_left (fun acc x => insert_sorted x acc) l [].
End Sort.

(** *** Doubles

    JavaScript numbers are IEEE 754 doubles. A double is
    [mant * 2 ^ expo]; the result of an operation is the exact result
    rounded to 53 bits, ties to even. Overflow and subnormal numbers,
    which the numbers of this program do not reach, are left out. *)
Record Double : Type := mkDouble { mant : Z; expo : Z }.

Definition round53 (m e : Z) : Double :=
  let extra := Z.log2 m + 1 - 53 in
  if extra <=? 0 then {| mant := m; expo := e |}
  else
    let q := Z.shiftr m extra in
    let r := Z.land m (Z.ones extra) in
    let half := Z.shiftl 1 (extra - 1) in
    let up := (half <? r) || ((r =? half) && Z.odd q) in
    {| mant := if up then q + 1 else q; expo := e + extra |}.

(** [n * c] for a length [n]. *)
Definition timesDouble (n : Z) (c : Double) : Double :=
  round53 (n * mant c) (expo c).

(** [Math.ceil] of a double that is not negative. *)
Definition ceilDouble (d : Double) : Z :=
  if 0 <=? expo d then Z.shiftl (mant d) (expo d)
  else - ((- mant d) / 2 ^ (- expo d)).

(** The value of a double. *)
Definition valueOf (d : Double) : Q :=
  if 0 <=? expo d then inject_Z (mant d * 2 ^ expo d)
  else mant d # Z.to_pos (2 ^ (- expo d)).

(** The double nearest to [a / b], for [a] positive: the quotient is
    taken with 56 bits or more, followed by a bit that tells whether the
    division left a remainder, and rounded to 53 bits. *)
Definition nearest (a : Z) (b : positive) : Double :=
  let k := Z.max 0 (56 + Z.log2 (Zpos b) - Z.log2 a) in
  let n := a * 2 ^ k in
  let q := n / Zpos b in
  let sticky := if n mod Zpos b =? 0 then 0 else 1 in
  round53 (2 * q + sticky) (- k - 1).

(** The double an exact result is rounded to. *)
Definition toDouble (x : Q) : Q :=
  match Qnum x with
  | Z0 => 0%Q
  | Zpos _ => Qred (valueOf (nearest (Qnum x) (Qden x)))
  | Zneg p => Qred (- valueOf (nearest (Zpos p) (Qden x)))
  end.

(** [x + y], [x - y], [x * y] and [x / y] on doubles, for a [y] that is
    not 0 in the last. *)
Definition fadd (x y : Q) : Q := toDouble (x + y).
Definition fsub (x y : Q) : Q := toDouble (x - y).
Definition fmul (x y : Q) : Q := toDouble (x * y).
Definition fdiv (x y : Q) : Q := toDouble (x / y).

(** The doubles nearest to 0.25, 0.35, 0.5 and 0.7. *)
Definition d025 : Double := {| mant := 1; expo := -2 |}.
Definition d035 : Double := {| mant := 6305039478318694; expo := -54 |}.
Definition d050 : Double := {| mant := 1; expo := -1 |}.
Definition d070 : Double := {| mant := 6305039478318694; expo := -53 |}.

(** Whether the double count and the rational one agree on the [steps]
    lengths from [n] on. *)
Fixpoint countsAgree (c : Double) (f : Q) (steps : nat) (n : Z) : bool :=
  match steps with
  | O => true
  | S steps' =>
      (ceilDouble (timesDouble n c) =? Math_ceil (inject_Z n * f))
      && countsAgree c f steps' (n + 1)
  end.

(** [arr.slice(0, n)]; a negative [n] counts from the end. *)
Definition slice0 {A} (n : Z) (l : list A) : list A :=
  if 0 <=? n then firstn (Z.to_nat n) l
  else firstn (Z.to_nat (Z.of_nat (length l) + n)) l.

(** The outcome of a call that may throw. *)
Inductive Result (A : Type) : Type :=
| Ok (a : A)
| Err (message : string).
Arguments Ok {A} a.
Arguments Err {A} message.

End JS.

(** ** JSON values, as [JSON.parse] returns them *)

Module Json.

(** A number carries the text JavaScript prints for it; an object lists
    its own properties, each name once. *)
Inductive json : Type :=
| JNull
| JBool (b : bool)
| JNum (repr : string)
| JStr (s : string)
| JArr (items : list json)
| JObj (fields : list (string * json)).

(** The value of an own property; [None] when the object has none. *)
Fixpoint field (k : string) (fs : list (string * json)) : option json :=
  match fs with
  | [] => None
  | (k', v) :: fs' => if String.eqb k k' then Some v else field k fs'
  end.

(** [v.k] for a property name that no prototype defines: the outer
    [None] is the [TypeError] of reading a property of [null], the
    inner [None] is [undefined]. *)
Definition get (k : string) (v : json) : option (option json) :=
  match v with
  | JNull => None
  | JObj fs => Some (field k fs)
  | _ => Some None
  end.

(** Truthiness of a possibly undefined value. *)
Definition truthy (v : option json) : bool :=
  match v with
  | None => false
  | Some JNull => false
  | Some (JBool b) => b
  | Some (JNum r) => negb (String.eqb r "0")
  | Some (JStr s) => negb (String.eqb s EmptyString)
  | Some (JArr _) => true
  | Some (JObj _) => true
  end.

Definition hex_digit (n : N) : ascii :=
  ascii_of_N (if (n <? 10)%N then 48 + n else 87 + n).

(** The text [JSON.stringify] writes for one character of a string. *)
Definition escape_char (c : ascii) : string :=
  let n := N_of_ascii c in
  if (n =? 34)%N then String (ascii_of_N 92) (String c EmptyString)
  else if (n =? 92)%N then "\\"
  else if (n =? 8)%N then "\b"
  else if (n =? 12)%N then "\f"
  else if (n =? 10)%N then "\n"
  else if (n =? 13)%N then "\r"
  else if (n =? 9)%N then "\t"
  else if (n <? 32)%N then
    "\u00" +:+ String (hex_digit (n / 16))
                        (String (hex_digit (n mod 16)) EmptyString)
  else String c EmptyString.

Fixpoint escape (s : string) : string :=
  match s with
  | EmptyString => EmptyString
  | String c s' => escape_char c +:+ escape s'
  end.

Definition quote (s : string) : string :=
  String (ascii_of_N 34) (escape s) +:+ String (ascii_of_N 34) EmptyString.

Definition join_comma (parts : list string) : string :=
  match parts with
  | [] => EmptyString
  | p :: ps => fold_left (fun acc q => acc +:+ "," +:+ q) ps p
  end.

(** [JSON.stringify(v)] without indentation. *)
Fixpoint stringify (v : json) : string :=
  match v with
  | JNull => "null"
  | JBool true => "true"
  | JBool false => "false"
  | JNum r => r
  | JStr s => quote s
  | JArr items => "[" +:+ join_comma (map stringify items) +:+ "]"
  | JObj fields =>
      "{" +:+ join_comma
                (map (fun kv => quote (fst kv) +:+ ":" +:+ stringify (snd kv))
                     fields)
          +:+ "}"
  end.

(** [s.length]. *)
Definition strlen (s : string) : Z := Z.of_nat (String.length s).

(** The whole number that a text of digits prints, with its sign; [None]
    for any other text. *)
Fixpoint digits (acc : Z) (s : string) : option Z :=
  match s with
  | EmptyString => Some acc
  | String c s' =>
      let n := N_of_ascii c in
      if ((48 <=? n) && (n <=? 57))%N then digits (10 * acc + Z.of_N (n - 48)) s'
      else None
  end.

Definition wholeNumber (repr : string) : option Z :=
  match repr with
  | EmptyString => None
  | String c rest =>
      if (N_of_ascii c =? 45)%N then
        match rest with
        | EmptyString => None
        | _ => option_map Z.opp (digits 0 rest)
        end
      else digits 0 repr
  end.

End Json.

(** ** Session monitor *)

Module Monitor.
Import JS Json.

Inductive Priority : Type := High | Medium | Low.

Inductive Level : Type := CRITICAL | WARNING | MODERATE | OK.

(** An entry of [usage.sessions]. *)
Record Session : Type := mkSession {
  sessionId : string;
  path : string;
  tokenCount : Z;
  messageCount : Z;
  lastActive : Z;
  priority : Priority
}.

(** A file of the session directory: modification time, size in bytes,
    and what [JSON.parse] makes of its text ([None] when it throws). *)
Record SessionFile : Type := mkFile {
  mtime : Z;
  size : Z;
  parsed : option json
}.

(** The configuration of the monitor: a budget of tokens, and two
    thresholds that are whole numbers of percents. *)
Record Config : Type := mkConfig {
  maxTokens : Z;
  alertThreshold : Z;
  emergencyThreshold : Z
}.

Definition defaultConfig : Config :=
  {| maxTokens := 200000; alertThreshold := 80; emergencyThreshold := 95 |}.

Record Usage : Type := mkUsage {
  currentTokens : Z;
  utilizationPercent : Q;
  sessions : list Session;
  status : Level
}.

(** [JSON.stringify(v).length], for a value that is there. *)
Definition stringifiedLength (v : option json) : Z :=
  match v with
  | Some j => strlen (stringify j)
  | None => 0
  end.

(** One turn of the loop of [countSessionTokens] over the messages;
    [None] when reading a property throws. *)
Definition countMessage (totalChars : Z) (message : json) : option Z :=
  content ← get "content" message;
  let totalChars :=
    if truthy content then
      totalChars + match content with
                   | Some (JStr s) => strlen s
                   | _ => stringifiedLength content
                   end
    else totalChars in
  tool_calls ← get "tool_calls" message;
  let totalChars :=
    if truthy tool_calls then totalChars + stringifiedLength tool_calls
    else totalChars in
  tool_results ← get "tool_results" message;
  let totalChars :=
    if truthy tool_results then totalChars + stringifiedLength tool_results
    else totalChars in
  Some totalChars.

Fixpoint countMessages (totalChars : Z) (messages : list json) : option Z :=
  match messages with
  | [] => Some totalChars
  | message :: rest =>
      totalChars' ← countMessage totalChars message;
      countMessages totalChars' rest
  end.

(** The body of the [try] of [countSessionTokens] after the parse. *)
Definition countChars (session : json) : option Z :=
  messages ← get "messages" session;
  match messages with
  | Some (JArr items) => countMessages 0 items
  | _ => Some 0
  end.

Definition countSessionTokens (dir : gmap string SessionFile)
    (sessionPath : string) : Z :=
  let fromSize :=
    match dir !! sessionPath with
    | Some f => Math_ceil (inject_Z (size f) / 4)
    | None => 0
    end in
  match dir !! sessionPath with
  | Some f =>
      match parsed f ≫= countChars with
      | Some totalChars => Math_ceil (inject_Z totalChars / 4)
      | None => fromSize
      end
  | None => fromSize
  end.

(** [session.messages ? session.messages.length : 0]. An array and a
    string have their length, an object the [length] it holds. The count
    of a session is a whole number here: a truthy [messages] whose
    [length] is [undefined] or not a whole number is outside the sessions
    covered, and its count is read as 0. *)
Definition getMessageCount (dir : gmap string SessionFile)
    (sessionPath : string) : Z :=
  match dir !! sessionPath with
  | Some f =>
      match parsed f ≫= get "messages" with
      | Some (Some (JArr items)) => Z.of_nat (length items)
      | Some (Some (JStr s)) => strlen s
      | Some (Some (JObj fields)) =>
          match field "length" fields with
          | Some (JNum r) => default 0 (wholeNumber r)
          | _ => 0
          end
      | _ => 0
      end
  | None => 0
  end.

Definition endsWith (s suffix : string) : bool :=
  let n := String.length s in
  let k := String.length suffix in
  (k <=? n)%nat && String.eqb (String.substring (n - k) k s) suffix.

(** [s.replace(pat, '')]: the first occurrence of [pat] is removed. *)
Fixpoint removeFirst (pat s : string) : string :=
  if String.prefix pat s then
    String.substring (String.length pat) (String.length s - String.length pat) s
  else
    match s with
    | EmptyString => EmptyString
    | String c s' => String c (removeFirst pat s')
    end.

(** What [getAllSessions] records of a file. A path is given by the
    file name, the session directory being fixed. *)
Record FileInfo : Type := mkInfo {
  id : string;
  filePath : string;
  lastModified : Z
}.

Definition infoOf (file : string) (stats : SessionFile) : FileInfo :=
  {| id := removeFirst ".json" file;
     filePath := file;
     lastModified := mtime stats |}.

Definition getAllSessions (dir : gmap string SessionFile) : list FileInfo :=
  omap (fun entry : string * SessionFile =>
          let (file, stats) := entry in
          if endsWith file ".json" then Some (infoOf file stats) else None)
       (map_to_list dir).

Definition ageHours (now lastModified : Z) : Q :=
  inject_Z (now - lastModified) / 3600000.

Definition calculatePriority (now : Z) (messages lastModified : Z) : Priority :=
  let ageHours := ageHours now lastModified in
  if Qltb ageHours 24 && (10 <? messages) then High
  else if Qltb ageHours 168 || (5 <? messages) then Medium
  else Low.

Definition getStatus (cfg : Config) (utilizationPercent : Q) : Level :=
  if Qle_bool (inject_Z (emergencyThreshold cfg)) utilizationPercent then CRITICAL
  else if Qle_bool (inject_Z (alertThreshold cfg)) utilizationPercent then WARNING
  else if Qle_bool 60 utilizationPercent then MODERATE
  else OK.

Definition sessionInfo (now : Z) (dir : gmap string SessionFile)
    (session : FileInfo) : Session :=
  let tokens := countSessionTokens dir (filePath session) in
  let messages := getMessageCount dir (filePath session) in
  {| sessionId := id session;
     path := filePath session;
     tokenCount := tokens;
     messageCount := messages;
     lastActive := lastModified session;
     priority := calculatePriority now messages (lastModified session) |}.

(** [getContextUsage()], for a budget [maxTokens] that is positive. The
    token counts are whole numbers under [2 ^ 53], which doubles add
    exactly; the percentage and its rounding to two decimals are computed
    on doubles: [(totalTokens / maxTokens) * 100] and
    [Math.round(utilizationPercent * 100) / 100]. *)
Definition getContextUsage (cfg : Config) (now : Z)
    (dir : gmap string SessionFile) : Usage :=
  let infos := map (sessionInfo now dir) (getAllSessions dir) in
  let totalTokens := fold_left (fun acc s => acc + tokenCount s) infos 0 in
  let utilizationPercent :=
    fmul (fdiv (inject_Z totalTokens) (inject_Z (maxTokens cfg))) 100 in
  {| currentTokens := totalTokens;
     utilizationPercent :=
       fdiv (inject_Z (Math_round (fmul utilizationPercent 100))) 100;
     sessions := sort (fun a b => tokenCount b <? tokenCount a) infos;
     status := getStatus cfg utilizationPercent |}.

End Monitor.

(** ** The host: files, archives and what was done to them *)

Module Host.
Import Monitor.

(** What the file system did, in order: a bundle written by a successful
    [archiveSessions] with the paths it holds, and a file removed by a
    successful [unlink]. *)
Inductive Event : Type :=
| EvArchive (reason : string) (paths : list string)
| EvUnlink (path : string).

(** An entry of the archive index. *)
Record IndexEntry : Type := mkEntry {
  archiveName : string;
  timestamp : Z;
  sessionCount : Z;
  reason : string;
  archived : list (string * Z * Z)    (* id, tokens, messages *)
}.

Record World : Type := mkWorld {
  live : gmap string SessionFile;                   (* the session directory *)
  bundles : gmap string (gmap string SessionFile);   (* the archive directory *)
  index : list IndexEntry;                           (* index.json *)
  trace : list Event
}.

(** The failures the host may answer with: a file that cannot be removed
    or copied, a compression or an index write that fails. *)
Record Faults : Type := mkFaults {
  unlink_fails : string -> bool;
  copy_fails : string -> bool;
  tar_fails : bool;
  untar_fails : bool;
  index_write_fails : bool
}.

Definition noFaults : Faults :=
  {| unlink_fails := fun _ => false;
     copy_fails := fun _ => false;
     tar_fails := false;
     untar_fails := false;
     index_write_fails := false |}.

(** [fs.promises.unlink(path)]; [None] when it throws. *)
Definition unlink (faults : Faults) (p : string) (w : World) : option World :=
  if unlink_fails faults p then None
  else match live w !! p with
       | Some _ =>
           Some {| live := delete p (live w);
                   bundles := bundles w;
                   index := index w;
                   trace := trace w ++ [EvUnlink p] |}
       | None => None
       end.

(** [fs.promises.copyFile]: the copy is a new file, last modified when
    it is written. *)
Definition copyOf (now : Z) (f : SessionFile) : SessionFile :=
  {| mtime := now; size := size f; parsed := parsed f |}.

(** Archive-then-delete on a trace: every removed path was held by a
    bundle written earlier; [bundled] are the paths archived so far. *)
Fixpoint archivedFirst (bundled : list string) (events : list Event) : bool :=
  match events with
  | [] => true
  | EvArchive _ paths :: rest => archivedFirst (paths ++ bundled) rest
  | EvUnlink p :: rest =>
      existsb (String.eqb p) bundled && archivedFirst bundled rest
  end.

End Host.

(** ** Session pruner *)

Module Pruner.
Import JS Monitor Host.

(** The configuration of the pruner. The code takes any number for
    [maxSessionAge] and [keepRecentHours]; a [Config] holds whole numbers
    of days and of hours, as the defaults are, and what is established
    about the pruner is established for such settings. *)
Record Config : Type := mkConfig {
  maxSessionAge : Z;            (* days *)
  maxContextTokens : Z;
  keepRecentHours : Z;
  keepMinimumSessions : Z;
  minMessagesForImportant : Z;
  preservePinned : bool;
  preserveHighEngagement : bool
}.

Definition defaultConfig : Config :=
  {| maxSessionAge := 7;
     maxContextTokens := 160000;
     keepRecentHours := 24;
     keepMinimumSessions := 5;
     minMessagesForImportant := 10;
     preservePinned := true;
     preserveHighEngagement := true |}.

Section Selection.
Variable config : Config.
Variable now : Z.

Definition _isProtected (session : Session) : bool :=
  let ageHours := (inject_Z (now - lastActive session) / 3600000)%Q in
  if Qltb ageHours (inject_Z (keepRecentHours config)) then true
  else if preserveHighEngagement config
          && (minMessagesForImportant config <=? messageCount session)
  then true
  else false.

Definition _conservativePrune (sessions : list Session) : list Session :=
  let maxAgeMs := maxSessionAge config * 24 * 60 * 60 * 1000 in
  List.filter (fun session =>
                 let age := now - lastActive session in
                 maxAgeMs <? age)
              sessions.

(** The score is a sum of rounded products: it is computed on doubles,
    [0.4], [0.3] and [0.2] being the doubles nearest to them. *)
Definition _calculatePruneScore (session : Session) : Q :=
  let score := 0%Q in
  let ageHours := fdiv (inject_Z (now - lastActive session)) 3600000 in
  let recencyScore := Math_max 0 (fsub 100 ageHours) in
  let score := fadd score (fmul recencyScore (toDouble (4 # 10))) in
  let messageScore := Math_min 100 (inject_Z (messageCount session * 5)) in
  let score := fadd score (fmul messageScore (toDouble (3 # 10))) in
  let tokenScore :=
    Math_min 100 (fmul (fdiv (inject_Z (tokenCount session)) 10000) 100) in
  let score := fadd score (fmul tokenScore (toDouble (2 # 10))) in
  let score := match priority session with High => fadd score 50 | _ => score end in
  let score := match priority session with Medium => fadd score 25 | _ => score end in
  score.

(** The sessions in the order of their prune score, lowest first; the
    score itself, which the callers do not read, is not kept. *)
Definition _sortByPruneScore (sessions : list Session) : list Session :=
  sort (fun a b => Qltb (_calculatePruneScore a) (_calculatePruneScore b))
       sessions.

(** The loops [for (i = 0; i < pruneCount; i++)] over [sortedByScore]
    below never leave the array ([pruneCount] is at most its length),
    so they visit its first [pruneCount] elements. *)
Definition _moderatePrune (sessions : list Session) (utilizationPercent : Q)
  : list Session :=
  let targets := _conservativePrune sessions in
  if Qltb 80 utilizationPercent then
    let sortedByScore := _sortByPruneScore sessions in
    let pruneCount :=
      Math_ceil (inject_Z (Z.of_nat (length sortedByScore)) * (25 # 100)) in
    fold_left
      (fun targets s =>
         if existsb (fun t => String.eqb (sessionId t) (sessionId s)) targets
         then targets else targets ++ [s])
      (firstn (Z.to_nat pruneCount) sortedByScore) targets
  else targets.

Definition prunePercent (utilizationPercent : Q) : Q :=
  if Qltb 95 utilizationPercent then (70 # 100)
  else if Qltb 90 utilizationPercent then (50 # 100)
  else if Qltb 80 utilizationPercent then (35 # 100)
  else (25 # 100).

Definition _aggressivePrune (sessions : list Session) (utilizationPercent : Q)
  : list Session :=
  let sortedByScore := _sortByPruneScore sessions in
  let pruneCount :=
    Math_ceil (inject_Z (Z.of_nat (length sortedByScore))
               * prunePercent utilizationPercent) in
  firstn (Z.to_nat pruneCount) sortedByScore.

Definition _emergencyPrune (sessions : list Session) : list Session :=
  let keepRecentMs := keepRecentHours config * 60 * 60 * 1000 in
  List.filter (fun session =>
                 let age := now - lastActive session in
                 keepRecentMs <? age)
              sessions.

Definition _selectPruneTargets (sessions : list Session) (strategy : string)
    (utilizationPercent : Q) : list Session :=
  let prunableSessions :=
    List.filter (fun s => negb (_isProtected s)) sessions in
  match prunableSessions with
  | [] => []
  | _ =>
      if String.eqb strategy "conservative" then
        _conservativePrune prunableSessions
      else if String.eqb strategy "moderate" then
        _moderatePrune prunableSessions utilizationPercent
      else if String.eqb strategy "aggressive" then
        _aggressivePrune prunableSessions utilizationPercent
      else if String.eqb strategy "emergency" then
        _emergencyPrune prunableSessions
      else _moderatePrune prunableSessions utilizationPercent
  end.

End Selection.

Definition getRecommendedStrategy (utilizationPercent : Q) : string :=
  if Qle_bool 95 utilizationPercent then "emergency"
  else if Qle_bool 85 utilizationPercent then "aggressive"
  else if Qle_bool 75 utilizationPercent then "moderate"
  else "conservative".

Record PrunedEntry : Type := mkPruned {
  pruned_id : string;
  pruned_tokens : Z;
  pruned_messages : Z
}.

(** The result of [prune]; the age text of a pruned entry and the prune
    log, which nothing else reads, are not kept. *)
Record Results : Type := mkResults {
  strategy : string;
  sessionsPruned : Z;
  tokensFreed : Z;
  sessionsPreserved : Z;
  prunedSessions : list PrunedEntry
}.

(** One turn of the loop of [prune] over the targets: a failed [unlink]
    is logged and the loop goes on. *)
Definition pruneOne (faults : Faults) (acc : Results * World) (session : Session)
  : Results * World :=
  let (results, w) := acc in
  match unlink faults (path session) w with
  | Some w' =>
      ({| strategy := strategy results;
          sessionsPruned := sessionsPruned results + 1;
          tokensFreed := tokensFreed results + tokenCount session;
          sessionsPreserved := sessionsPreserved results;
          prunedSessions :=
            prunedSessions results ++
              [ {| pruned_id := sessionId session;
                   pruned_tokens := tokenCount session;
                   pruned_messages := messageCount session |} ] |}, w')
  | None => (results, w)
  end.

Definition prune (faults : Faults) (mcfg : Monitor.Config) (config : Config)
    (now : Z) (strategy : string) (w : World) : Results * World :=
  let usage := getContextUsage mcfg now (live w) in
  let sessions := Monitor.sessions usage in
  let pruneTargets :=
    _selectPruneTargets config now sessions strategy (utilizationPercent usage) in
  let results :=
    {| strategy := strategy;
       sessionsPruned := 0;
       tokensFreed := 0;
       sessionsPreserved :=
         Z.of_nat (length sessions) - Z.of_nat (length pruneTargets);
       prunedSessions := [] |} in
  fold_left (pruneOne faults) pruneTargets (results, w).

End Pruner.

(** ** Session archiver *)

Module Archiver.
Import JS Monitor Host.

(** The configuration of the archiver, with a whole number of days. *)
Record Config : Type := mkConfig {
  retentionDays : Z;
  compression : bool
}.

Definition defaultConfig : Config :=
  {| retentionDays := 30; compression := true |}.

Record ArchiveResult : Type := mkArchived {
  archivedCount : Z;
  archivedAs : option string     (* [archiveName], absent when nothing was archived *)
}.

(** The loop that copies the sessions into the temporary directory;
    [None] when a copy throws. *)
Fixpoint copySessions (faults : Faults) (now : Z) (dir : gmap string SessionFile)
    (sessions : list Session) (tempDir : gmap string SessionFile)
  : option (gmap string SessionFile) :=
  match sessions with
  | [] => Some tempDir
  | session :: rest =>
      if copy_fails faults (path session) then None
      else match dir !! path session with
           | Some f =>
               copySessions faults now dir rest
                            (<[path session := copyOf now f]> tempDir)
           | None => None
           end
  end.

(** [_createTarGz] writes, or overwrites, the bundle; [_createDirectory]
    copies the files into the directory of the bundle. *)
Definition writeBundle (faults : Faults) (config : Config) (archiveName : string)
    (tempDir : gmap string SessionFile)
    (store : gmap string (gmap string SessionFile))
  : option (gmap string (gmap string SessionFile)) :=
  if compression config then
    if tar_fails faults then None
    else Some (<[archiveName := tempDir]> store)
  else
    let archiveDir := removeFirst ".tar.gz" archiveName in
    Some (<[archiveDir := tempDir ∪ default ∅ (store !! archiveDir)]> store).

(** [archiveSessions(sessions, reason)] on the day [date] (the text
    [YYYY-MM-DD] of [_getTimestamp]). *)
Definition archiveSessions (faults : Faults) (config : Config) (now : Z)
    (date : string) (sessions : list Session) (reason : string) (w : World)
  : Result ArchiveResult * World :=
  match sessions with
  | [] => (Ok {| archivedCount := 0; archivedAs := None |}, w)
  | _ =>
      let archiveName := "sessions-" +:+ date +:+ ".tar.gz" in
      match copySessions faults now (live w) sessions ∅ with
      | None => (Err "Archive failed", w)
      | Some tempDir =>
          match writeBundle faults config archiveName tempDir (bundles w) with
          | None => (Err "Archive failed", w)
          | Some store =>
              if index_write_fails faults then
                (Err "Archive failed",
                 {| live := live w; bundles := store;
                    index := index w; trace := trace w |})
              else
                (Ok {| archivedCount := Z.of_nat (length sessions);
                       archivedAs := Some archiveName |},
                 {| live := live w;
                    bundles := store;
                    index :=
                      index w ++
                        [ {| archiveName := archiveName;
                             timestamp := now;
                             sessionCount := Z.of_nat (length sessions);
                             reason := reason;
                             archived :=
                               map (fun s => (sessionId s, tokenCount s, messageCount s))
                                   sessions |} ];
                    trace := trace w ++ [EvArchive reason (map path sessions)] |})
          end
      end
  end.

Record RestoreReport : Type := mkRestored {
  restored : Z;
  skipped : Z
}.

(** Whether the name of a file of a bundle is taken in the directory
    restored into. *)
Definition existsLive (target : gmap string SessionFile)
    (entry : string * SessionFile) : bool :=
  match target !! fst entry with
  | Some _ => true
  | None => false
  end.

(** The loop of [restore] that copies the files of a bundle back:
    [sessions] is the listing of the bundle, [target] the directory
    restored into. The result is the directory and the count of files
    copied; a copy that throws ends the loop with what was copied. *)
Fixpoint copyBack (faults : Faults) (now : Z)
    (sessions : list (string * SessionFile))
    (target : gmap string SessionFile) (restoredCount : Z)
  : Result Z * gmap string SessionFile :=
  match sessions with
  | [] => (Ok restoredCount, target)
  | (session, f) :: rest =>
      match target !! session with
      | Some _ => copyBack faults now rest target restoredCount
      | None =>
          if copy_fails faults session then (Err "Restore failed", target)
          else copyBack faults now rest
                        (<[session := copyOf now f]> target) (restoredCount + 1)
      end
  end.

(** [restore(archiveName, targetPath)] into the directory [target]. *)
Definition restoreInto (faults : Faults) (now : Z) (archiveName : string)
    (store : gmap string (gmap string SessionFile))
    (target : gmap string SessionFile)
  : Result RestoreReport * gmap string SessionFile :=
  match store !! archiveName with
  | None => (Err "Archive not found", target)
  | Some bundle =>
      if endsWith archiveName ".tar.gz" && untar_fails faults then
        (Err "Restore failed", target)
      else
        let sessions := map_to_list bundle in
        match copyBack faults now sessions target 0 with
        | (Ok restoredCount, target') =>
            (Ok {| restored := restoredCount;
                   skipped := Z.of_nat (length sessions) - restoredCount |},
             target')
        | (Err message, target') => (Err message, target')
        end
  end.

(** [restore(archiveName)]: the target is the session directory. *)
Definition restore (faults : Faults) (now : Z) (archiveName : string) (w : World)
  : Result RestoreReport * World :=
  let (r, target') := restoreInto faults now archiveName (bundles w) (live w) in
  (r, {| live := target'; bundles := bundles w;
         index := index w; trace := trace w |}).

End Archiver.

(** ** Emergency cleanup *)

Module Emergency.
Import JS Monitor Host.

(** The configuration of the emergency cleanup, with a whole number of
    hours and of percents. *)
Record Config : Type := mkConfig {
  keepRecentHours : Z;
  keepMinimumSessions : Z;
  emergencyThreshold : Z
}.

Definition defaultConfig : Config :=
  {| keepRecentHours := 6; keepMinimumSessions := 3; emergencyThreshold := 95 |}.

Record Report : Type := mkReport {
  success : bool;
  error : option string;
  beforeSessions : Z;
  deleted : Z;
  kept : Z;
  tokensFreed : Z;
  afterSessions : option Z
}.

(** Step 2 of [execute]: the sessions to keep. *)
Definition sessionsToKeep (config : Config) (now : Z) (sessions : list Session)
  : list Session :=
  let keepRecentMs := keepRecentHours config * 60 * 60 * 1000 in
  slice0 (keepMinimumSessions config)
         (sort (fun a b => lastActive b <? lastActive a)
               (List.filter (fun s =>
                               let age := now - lastActive s in
                               age <? keepRecentMs)
                            sessions)).

(** One turn of the loop of step 3. *)
Definition deleteOther (faults : Faults) (toKeep : list Session)
    (acc : Z * Z * World) (session : Session) : Z * Z * World :=
  let '(deletedCount, tokensFreed, w) := acc in
  let shouldKeep :=
    existsb (fun s => String.eqb (sessionId s) (sessionId session)) toKeep in
  if shouldKeep then acc
  else match unlink faults (path session) w with
       | Some w' => (deletedCount + 1, tokensFreed + tokenCount session, w')
       | None => acc
       end.

(** [execute()]. The report is written with the name of the bundle, so
    sending it throws when nothing was archived; that error, like any
    other, ends in the [catch] of [execute]. *)
Definition execute (faults : Faults) (mcfg : Monitor.Config)
    (acfg : Archiver.Config) (config : Config) (now : Z) (date : string)
    (w : World) : Report * World :=
  let beforeUsage := getContextUsage mcfg now (live w) in
  let before := Z.of_nat (length (sessions beforeUsage)) in
  match Archiver.archiveSessions faults acfg now date (sessions beforeUsage)
                                 "emergency-cleanup" w with
  | (Err message, w1) =>
      ({| success := false; error := Some message; beforeSessions := before;
          deleted := 0; kept := 0; tokensFreed := 0; afterSessions := None |},
       w1)
  | (Ok archiveResult, w1) =>
      let toKeep := sessionsToKeep config now (sessions beforeUsage) in
      let '(deletedCount, freed, w2) :=
        fold_left (deleteOther faults toKeep) (sessions beforeUsage) (0, 0, w1) in
      let afterUsage := getContextUsage mcfg now (live w2) in
      let ok :=
        Qltb (utilizationPercent afterUsage) (inject_Z (emergencyThreshold config)) in
      match Archiver.archivedAs archiveResult with
      | Some _ =>
          ({| success := ok; error := None; beforeSessions := before;
              deleted := deletedCount; kept := Z.of_nat (length toKeep);
              tokensFreed := freed;
              afterSessions := Some (Z.of_nat (length (sessions afterUsage))) |},
           w2)
      | None =>
          ({| success := false; error := Some "TypeError"; beforeSessions := before;
              deleted := deletedCount; kept := Z.of_nat (length toKeep);
              tokensFreed := freed;
              afterSessions := Some (Z.of_nat (length (sessions afterUsage))) |},
           w2)
      end
  end.

End Emergency.

(** ** Context watcher *)

Module Watcher.
Import JS Monitor Host.

Record Config : Type := mkConfig {
  enabled : bool;
  intervalMinutes : Z;
  alertThreshold : Z;
  emergencyThreshold : Z;
  autoCleanup : bool
}.

Definition defaultConfig : Config :=
  {| enabled := true; intervalMinutes := 5; alertThreshold := 80;
     emergencyThreshold := 95; autoCleanup := true |}.

(** The fields of a watcher. *)
Record State : Type := mkState {
  isRunning : bool;
  intervalId : option nat;
  checkCount : Z;
  cleanupCount : Z;
  lastCheck : option Z;
  lastCleanup : option Z
}.

Definition initial : State :=
  {| isRunning := false; intervalId := None; checkCount := 0;
     cleanupCount := 0; lastCheck := None; lastCleanup := None |}.

(** The collaborators' configurations. *)
Record Setup : Type := mkSetup {
  monitorConfig : Monitor.Config;
  prunerConfig : Pruner.Config;
  archiverConfig : Archiver.Config;
  emergencyConfig : Emergency.Config
}.

Definition _isProtected (now : Z) (session : Session) : bool :=
  let ageHours := (inject_Z (now - lastActive session) / 3600000)%Q in
  if Qltb ageHours 24 then true
  else if 10 <=? messageCount session then true
  else match priority session with High => true | _ => false end.

Definition cleaned (now : Z) (st : State) : State :=
  {| isRunning := isRunning st; intervalId := intervalId st;
     checkCount := checkCount st; cleanupCount := cleanupCount st + 1;
     lastCheck := lastCheck st; lastCleanup := Some now |}.

(** The sessions [_triggerRoutineCleanup] hands to the archiver. *)
Definition toPrune (now : Z) (sessions : list Session) (utilizationPercent : Q)
  : list Session :=
  let sessionsToPrune :=
    sort (fun a b => lastActive a <? lastActive b)
         (List.filter (fun s => negb (_isProtected now s)) sessions) in
  let n := inject_Z (Z.of_nat (length sessionsToPrune)) in
  let pruneCount :=
    if Qltb 90 utilizationPercent then Math_ceil (n * (5 # 10))
    else if Qltb 85 utilizationPercent then Math_ceil (n * (35 # 100))
    else Math_ceil (n * (25 # 100)) in
  slice0 pruneCount sessionsToPrune.

Definition _triggerRoutineCleanup (faults : Faults) (setup : Setup) (now : Z)
    (date : string) (utilizationPercent : Q) (st : State) (w : World)
  : State * World :=
  let strategy := Pruner.getRecommendedStrategy utilizationPercent in
  let usage := getContextUsage (monitorConfig setup) now (live w) in
  let toPrune := toPrune now (sessions usage) utilizationPercent in
  match toPrune with
  | [] => (st, w)
  | _ =>
      match Archiver.archiveSessions faults (archiverConfig setup) now date
                                     toPrune "auto-cleanup" w with
      | (Err _, w1) => (st, w1)
      | (Ok archiveResult, w1) =>
          let (pruneResult, w2) :=
            Pruner.prune faults (monitorConfig setup) (prunerConfig setup)
                         now strategy w1 in
          (cleaned now st, w2)
      end
  end.

Definition _triggerEmergencyCleanup (faults : Faults) (setup : Setup) (now : Z)
    (date : string) (st : State) (w : World) : State * World :=
  let (result, w') :=
    Emergency.execute faults (monitorConfig setup) (archiverConfig setup)
                      (emergencyConfig setup) now date w in
  (cleaned now st, w').

(** The start of [_performCheck], up to its first [await]. *)
Definition checkStarted (now : Z) (st : State) : State :=
  {| isRunning := isRunning st; intervalId := intervalId st;
     checkCount := checkCount st + 1; cleanupCount := cleanupCount st;
     lastCheck := Some now; lastCleanup := lastCleanup st |}.

(** [_performCheck()], run to its end with nothing in between. *)
Definition _performCheck (faults : Faults) (config : Config) (setup : Setup)
    (now : Z) (date : string) (st : State) (w : World) : State * World :=
  let st := checkStarted now st in
  let usage := getContextUsage (monitorConfig setup) now (live w) in
  if Qle_bool (inject_Z (emergencyThreshold config)) (utilizationPercent usage) then
    if autoCleanup config then _triggerEmergencyCleanup faults setup now date st w
    else (st, w)
  else if Qle_bool (inject_Z (alertThreshold config)) (utilizationPercent usage) then
    if autoCleanup config then
      _triggerRoutineCleanup faults setup now date (utilizationPercent usage) st w
    else (st, w)
  else (st, w).

(** *** The watcher under the timers of the runtime

    [timers] are the interval timers the runtime holds, [inFlight] the
    calls of [_performCheck] that have started and not yet settled. What
    a check does to the sessions between its start and its end is that of
    [_performCheck] above and is not repeated here. *)
Record Runtime : Type := mkRuntime {
  watcher : State;
  timers : list nat;
  nextTimer : nat;
  inFlight : nat
}.

Definition boot : Runtime :=
  {| watcher := initial; timers := []; nextTimer := 1; inFlight := 0 |}.

Inductive Action : Type :=
| CallStart (now : Z)          (* [start()] *)
| CallStop                     (* [stop()] *)
| TimerFires (id : nat) (now : Z)   (* the runtime runs the callback of a timer *)
| CheckSettles.                (* a call of [_performCheck] comes to its end *)

Definition start (config : Config) (now : Z) (rt : Runtime) : Runtime :=
  if isRunning (watcher rt) then rt
  else if negb (enabled config) then rt
  else
    let st := checkStarted now (watcher rt) in
    {| watcher :=
         {| isRunning := true; intervalId := Some (nextTimer rt);
            checkCount := checkCount st; cleanupCount := cleanupCount st;
            lastCheck := lastCheck st; lastCleanup := lastCleanup st |};
       timers := nextTimer rt :: timers rt;
       nextTimer := S (nextTimer rt);
       inFlight := S (inFlight rt) |}.

Definition stop (rt : Runtime) : Runtime :=
  if negb (isRunning (watcher rt)) then rt
  else
    let st := watcher rt in
    {| watcher :=
         {| isRunning := false; intervalId := None;
            checkCount := checkCount st; cleanupCount := cleanupCount st;
            lastCheck := lastCheck st; lastCleanup := lastCleanup st |};
       timers :=
         match intervalId st with
         | Some id => List.filter (fun t => negb (Nat.eqb t id)) (timers rt)
         | None => timers rt
         end;
       nextTimer := nextTimer rt;
       inFlight := inFlight rt |}.

(** What an action makes of the runtime; [None] when it cannot happen. *)
Definition react (config : Config) (a : Action) (rt : Runtime) : option Runtime :=
  match a with
  | CallStart now => Some (start config now rt)
  | CallStop => Some (stop rt)
  | TimerFires id now =>
      if existsb (Nat.eqb id) (timers rt) then
        Some {| watcher := checkStarted now (watcher rt);
                timers := timers rt;
                nextTimer := nextTimer rt;
                inFlight := S (inFlight rt) |}
      else None
  | CheckSettles =>
      match inFlight rt with
      | O => None
      | S n => Some {| watcher := watcher rt; timers := timers rt;
                       nextTimer := nextTimer rt; inFlight := n |}
      end
  end.

Fixpoint run (config : Config) (actions : list Action) (rt : Runtime)
  : option Runtime :=
  match actions with
  | [] => Some rt
  | a :: rest => rt' ← react config a rt; run config rest rt'
  end.

(** A single timer: the runtime holds the timer of [intervalId] and no
    other, and there is one exactly while the watcher is running. *)
Definition singleTimer (rt : Runtime) : Prop :=
  timers rt = match intervalId (watcher rt) with
              | Some id => [id]
              | None => []
              end
  /\ (isRunning (watcher rt) = true <-> intervalId (watcher rt) <> None).

End Watcher.

(** ** Configuration manager *)

Module ConfigManager.
Import JS.

(** A value read by [get]: a number, or [undefined] for a missing key. *)
Inductive Value : Type :=
| Undefined
| Num (q : Q).

(** The keys of [sessionManagement.monitoring], which [validate] reads. *)
Record Config : Type := mkConfig {
  intervalMinutes : Value;
  alertThreshold : Value;
  emergencyThreshold : Value
}.

Definition _getDefaultConfig : Config :=
  {| intervalMinutes := Num 5;
     alertThreshold := Num 80;
     emergencyThreshold := Num 95 |}.

(** The configuration file: missing, unreadable as JSON, or a document. *)
Inductive ConfigFile : Type :=
| Missing
| Unparsable
| Document (c : Config).

Definition _loadConfig (file : ConfigFile) : Config :=
  match file with
  | Missing => _getDefaultConfig
  | Unparsable => _getDefaultConfig
  | Document c => c
  end.

(** [new ConfigManager()]: the constructor has no path on which it
    throws. *)
Definition constructor (file : ConfigFile) : Result Config :=
  Ok (_loadConfig file).

(** [a < b] and [a <= b]; a comparison with [undefined] is false. *)
Definition lt (a b : Value) : bool :=
  match a, b with
  | Num x, Num y => Qltb x y
  | _, _ => false
  end.

Definition le (a b : Value) : bool :=
  match a, b with
  | Num x, Num y => Qle_bool x y
  | _, _ => false
  end.

Record Validation : Type := mkValidation {
  valid : bool;
  errors : list string
}.

Definition push (cond : bool) (message : string) (errors : list string)
  : list string :=
  if cond then errors ++ [message] else errors.

Definition validate (config : Config) : Validation :=
  let errors := [] in
  let alertThreshold := alertThreshold config in
  let errors :=
    push (lt alertThreshold (Num 0) || lt (Num 100) alertThreshold)
         "alertThreshold must be between 0 and 100" errors in
  let emergencyThreshold := emergencyThreshold config in
  let errors :=
    push (lt emergencyThreshold (Num 0) || lt (Num 100) emergencyThreshold)
         "emergencyThreshold must be between 0 and 100" errors in
  let errors :=
    push (le emergencyThreshold alertThreshold)
         "emergencyThreshold must be greater than alertThreshold" errors in
  let intervalMinutes := intervalMinutes config in
  let errors :=
    push (le intervalMinutes (Num 0)) "intervalMinutes must be positive" errors in
  {| valid := match errors with [] => true | _ => false end;
     errors := errors |}.

End ConfigManager.

(** ** Session analyzer: error rate and importance score *)

Module Analyzer.
Import JS Json.

Record Config : Type := mkConfig {
  toolUsageWeight : Q;
  conversationDepthWeight : Q;
  recencyWeight : Q;
  engagementWeight : Q
}.

Definition defaultConfig : Config :=
  {| toolUsageWeight := 3 # 10;
     conversationDepthWeight := 25 # 100;
     recencyWeight := 25 # 100;
     engagementWeight := 2 # 10 |}.

Record Factors : Type := mkFactors {
  recency : Q;
  engagement : Q;
  toolUsage : Q;
  conversationDepth : Q;
  complexity : Q;
  errorRate : Q;
  uniqueness : Q
}.

(** [toLowerCase] on the code units below 256. *)
Definition lowerChar (c : ascii) : ascii :=
  let n := N_of_ascii c in
  if ((65 <=? n) && (n <=? 90))%N then ascii_of_N (n + 32)
  else if ((192 <=? n) && (n <=? 222) && negb (n =? 215))%N then ascii_of_N (n + 32)
  else c.

Fixpoint toLowerCase (s : string) : string :=
  match s with
  | EmptyString => EmptyString
  | String c s' => String (lowerChar c) (toLowerCase s')
  end.

Fixpoint includes (hay needle : string) : bool :=
  String.prefix needle hay
  || match hay with
     | EmptyString => false
     | String _ hay' => includes hay' needle
     end.

(** The text [_calculateErrorRate] searches: the content itself when it
    is a string, else what [JSON.stringify] makes of it, which is
    [undefined] for a missing content; reading that throws. *)
Definition contentText (message : json) : option string :=
  content ← get "content" message;
  match content with
  | Some (JStr s) => Some s
  | Some v => Some (stringify v)
  | None => None
  end.

(** [result.is_error || result.error] for the entries of [tool_results];
    the entries of a string are its characters, which have neither. *)
Fixpoint failedResults (results : list json) : option Z :=
  match results with
  | [] => Some 0
  | result :: rest =>
      is_error ← get "is_error" result;
      error ← get "error" result;
      n ← failedResults rest;
      Some (if truthy is_error || truthy error then n + 1 else n)
  end.

(** One turn of the loop over the messages: the errors it adds. *)
Definition messageErrors (message : json) : option Z :=
  content ← contentText message;
  let lower := toLowerCase content in
  let textual :=
    if includes lower "error:" || includes lower "failed"
       || includes lower "exception" then 1 else 0 in
  tool_results ← get "tool_results" message;
  if truthy tool_results then
    match tool_results with
    | Some (JArr results) => n ← failedResults results; Some (textual + n)
    | Some (JStr _) => Some textual
    | _ => None
    end
  else Some textual.

Fixpoint countErrors (errorCount : Z) (messages : list json) : option Z :=
  match messages with
  | [] => Some errorCount
  | message :: rest =>
      n ← messageErrors message;
      countErrors (errorCount + n) rest
  end.

(** [_calculateErrorRate(sessionData)]; [None] when it throws. *)
Definition _calculateErrorRate (sessionData : json) : option Q :=
  messages ← get "messages" sessionData;
  if negb (truthy messages) then Some 0%Q
  else match messages with
       | Some (JArr []) => Some 0%Q
       | Some (JArr items) =>
           errorCount ← countErrors 0 items;
           Some (inject_Z errorCount / inject_Z (Z.of_nat (length items)))%Q
       | Some (JObj fields) =>
           match field "length" fields with
           | Some (JNum "0") => Some 0%Q
           | _ => None
           end
       | _ => None
       end.

Definition _calculateImportanceScore (config : Config) (factors : Factors) : Q :=
  let score := 0%Q in
  let score := (score + recency factors * recencyWeight config)%Q in
  let score := (score + engagement factors * engagementWeight config)%Q in
  let score := (score + toolUsage factors * toolUsageWeight config)%Q in
  let score :=
    (score + conversationDepth factors * conversationDepthWeight config)%Q in
  let score := (score + complexity factors * (15 # 100))%Q in
  let score := (score + uniqueness factors * (1 # 10))%Q in
  let score := (score * (1 - errorRate factors * (5 # 10)))%Q in
  Math_min 100 (Math_max 0 score).

(** Whether [for (const call of message.tool_calls)] with its
    [call.function?.name] goes through, as [_calculateToolUsageScore] and
    [_calculateUniquenessScore] have it: a [tool_calls] that is falsy is
    not read; an array is gone through unless one of its calls is
    [null]; the calls of a string are its characters; nothing else can
    be iterated. *)
Definition callsRead (tool_calls : option json) : bool :=
  if truthy tool_calls then
    match tool_calls with
    | Some (JArr calls) =>
        forallb (fun call => match call with JNull => false | _ => true end) calls
    | Some (JStr _) => true
    | _ => false
    end
  else true.

Definition toolCallsRead (message : json) : bool :=
  match get "tool_calls" message with
  | Some tool_calls => callsRead tool_calls
  | None => false
  end.

(** The importance score of [analyzeSession], as it depends on the
    session data: [measured] holds the factors other than the error
    rate, as their functions return them. An analysis that throws answers
    with a score of 0. It throws when [_calculateErrorRate] does, which
    reads the messages, their contents and their tool results as the
    functions of the other factors read them; when the tool calls of a
    message cannot be read; when [messages] is truthy and not an array,
    which has no [filter] or cannot be iterated; and when the details
    read [sessionData.messages.length] of a session whose [messages] is
    [undefined] or [null]. *)
Definition importanceScore (config : Config) (measured : Factors)
    (sessionData : json) : Q :=
  match _calculateErrorRate sessionData with
  | Some rate =>
      let score :=
        _calculateImportanceScore config
          {| recency := recency measured;
             engagement := engagement measured;
             toolUsage := toolUsage measured;
             conversationDepth := conversationDepth measured;
             complexity := complexity measured;
             errorRate := rate;
             uniqueness := uniqueness measured |} in
      match get "messages" sessionData with
      | Some (Some JNull) | Some None | None => 0
      | Some (Some (JArr items)) =>
          if forallb toolCallsRead items then score else 0
      | Some (Some messages) =>
          if truthy (Some messages) then 0 else score
      end
  | None => 0
  end.

End Analyzer.

(** ** The eviction bands as the specification words them *)

Module Spec.
Import JS.

(** "25% at >80%, 35% at >90%, 50% at >90%, 70% at >95%": a lower bound
    on the utilization and the fraction evicted above it. *)
Definition bands : list (Q * Q) :=
  [ (80, 25 # 100); (90, 35 # 100); (90, 50 # 100); (95, 70 # 100) ]%Q.

(** "Overlapping bands are resolved by taking the highest applicable
    fraction"; no band applies at 80% or under. *)
Definition fraction (utilizationPercent : Q) : option Q :=
  fold_left
    (fun best band =>
       if Qltb (fst band) utilizationPercent then
         match best with
         | Some f => Some (Math_max f (snd band))
         | None => Some (snd band)
         end
       else best)
    bands None.

(** *** The cost of a session as the specification words it

    "Summing the character length of all message payloads (including any
    embedded tool-call/tool-result payloads), then dividing by 4 and
    rounding up; if content cannot be parsed, an estimate derived from raw
    file size using the same ratio." A payload is the value a message
    holds under [content], [tool_calls] or [tool_results], [null] standing
    for none; the character length of a text is its length, that of any
    other value the length of its JSON text. *)

Definition payloadChars (payload : option Json.json) : Z :=
  match payload with
  | None | Some Json.JNull => 0
  | Some (Json.JStr s) => Json.strlen s
  | Some v => Json.strlen (Json.stringify v)
  end.

Definition property (k : string) (v : Json.json) : option Json.json :=
  match v with
  | Json.JObj fields => Json.field k fields
  | _ => None
  end.

Definition messageChars (message : Json.json) : Z :=
  payloadChars (property "content" message)
  + payloadChars (property "tool_calls" message)
  + payloadChars (property "tool_results" message).

Definition messagesOf (session : Json.json) : list Json.json :=
  match property "messages" session with
  | Some (Json.JArr items) => items
  | _ => []
  end.

Definition totalChars (session : Json.json) : Z :=
  fold_right Z.add 0 (map messageChars (messagesOf session)).

(** The estimated cost of a file. *)
Definition cost (f : Monitor.SessionFile) : Z :=
  match Monitor.parsed f with
  | Some session => Math_ceil (inject_Z (totalChars session) / 4)
  | None => Math_ceil (inject_Z (Monitor.size f) / 4)
  end.

End Spec.

(** ** The cost of a session as the code counts it

    What the loop of [countSessionTokens] adds for the payloads of a
    message when no read throws: nothing for a payload that is falsy
    (absent, [null], [false], [0] or the empty string); the length of a
    content that is a string; the length of the JSON text of any other
    payload, a tool payload that is a string included. *)

Module Counted.
Import Json.

Definition contentLength (payload : option json) : Z :=
  match payload with
  | None | Some JNull | Some (JBool false) => 0
  | Some (JStr s) => strlen s
  | Some (JNum r) => if String.eqb r "0" then 0 else strlen r
  | Some v => strlen (stringify v)
  end.

Definition payloadLength (payload : option json) : Z :=
  match payload with
  | None | Some JNull | Some (JBool false) => 0
  | Some (JStr s) =>
      if String.eqb s EmptyString then 0 else strlen (stringify (JStr s))
  | Some (JNum r) => if String.eqb r "0" then 0 else strlen r
  | Some v => strlen (stringify v)
  end.

Definition messageLength (message : json) : Z :=
  contentLength (Spec.property "content" message)
  + payloadLength (Spec.property "tool_calls" message)
  + payloadLength (Spec.property "tool_results" message).

Definition totalLength (session : json) : Z :=
  fold_right Z.add 0 (map messageLength (Spec.messagesOf session)).

Definition isNull (v : json) : bool :=
  match v with
  | JNull => true
  | _ => false
  end.

(** The sessions on which a read throws: reading a property of [null],
    the session itself or one of its messages. *)
Definition unreadable (session : json) : bool :=
  isNull session || existsb isNull (Spec.messagesOf session).

(** The payloads the code and the specification count alike: all but
    [false] and [0], and for a tool payload all but a text that is not
    empty, of which the code counts the quotes and the escapes. *)
Definition plainContent (payload : option json) : bool :=
  match payload with
  | Some (JBool false) => false
  | Some (JNum r) => negb (String.eqb r "0")
  | _ => true
  end.

Definition plainTool (payload : option json) : bool :=
  match payload with
  | Some (JBool false) => false
  | Some (JNum r) => negb (String.eqb r "0")
  | Some (JStr s) => String.eqb s EmptyString
  | _ => true
  end.

Definition plainMessage (message : json) : bool :=
  plainContent (Spec.property "content" message)
  && plainTool (Spec.property "tool_calls" message)
  && plainTool (Spec.property "tool_results" message).

Definition plain (session : json) : bool :=
  forallb plainMessage (Spec.messagesOf session).

End Counted.

(** ** Sessions and stores used as examples *)

Module Examples.
Import Json Monitor Host.

Definition hour : Z := 3600000.
Definition day : Z := 24 * hour.
Definition now0 : Z := 100 * day.

Definition aged (name : string) (age : Z) (tokens messages : Z) : Session :=
  {| sessionId := name;
     path := name +:+ ".json";
     tokenCount := tokens;
     messageCount := messages;
     lastActive := now0 - age;
     priority := calculatePriority now0 messages (now0 - age) |}.

(** Four sessions, two days old, with two messages each. *)
Definition four : list Session :=
  [ aged "a" (2 * day) 42500 2; aged "b" (2 * day + 1) 42500 2;
    aged "c" (2 * day + 2) 42500 2; aged "d" (2 * day + 3) 42500 2 ].

(** A session with 15 messages, ten days old. *)
Definition busyOld : Session := aged "busy" (10 * day) 1000 15.

Definition engagementOff : Pruner.Config :=
  {| Pruner.maxSessionAge := 7;
     Pruner.maxContextTokens := 160000;
     Pruner.keepRecentHours := 24;
     Pruner.keepMinimumSessions := 5;
     Pruner.minMessagesForImportant := 10;
     Pruner.preservePinned := true;
     Pruner.preserveHighEngagement := false |}.

(** A file that does not parse: its cost is its size over 4. *)
Definition rawFile (age : Z) (bytes : Z) : SessionFile :=
  {| mtime := now0 - age; size := bytes; parsed := None |}.

Definition storeOf (files : list (string * SessionFile)) : World :=
  {| live := list_to_map files; bundles := ∅; index := []; trace := [] |}.

(** Four sessions of 42,500 tokens, two days old: 85% of 200,000. *)
Definition at85 : World :=
  storeOf [ ("a.json", rawFile (2 * day) 170000);
            ("b.json", rawFile (2 * day + 1) 170000);
            ("c.json", rawFile (2 * day + 2) 170000);
            ("d.json", rawFile (2 * day + 3) 170000) ].

(** Ten sessions of 25,000 tokens, ten hours old: 125% of 200,000. *)
Definition tenOld : World :=
  storeOf (map (fun name => (name +:+ ".json", rawFile (10 * hour) 100000))
               ["s0"; "s1"; "s2"; "s3"; "s4"; "s5"; "s6"; "s7"; "s8"; "s9"]).

Definition keepFive : Emergency.Config :=
  {| Emergency.keepRecentHours := 6;
     Emergency.keepMinimumSessions := 5;
     Emergency.emergencyThreshold := 95 |}.

Definition setup : Watcher.Setup :=
  {| Watcher.monitorConfig := Monitor.defaultConfig;
     Watcher.prunerConfig := Pruner.defaultConfig;
     Watcher.archiverConfig := Archiver.defaultConfig;
     Watcher.emergencyConfig := keepFive |}.

Definition today : string := "2026-01-01".

(** A live session [S.json], and a bundle that holds an older [S.json]
    and a [T.json]. *)
Definition liveS : gmap string SessionFile :=
  {[ "S.json" := rawFile hour 800 ]}.

Definition archiveST : gmap string (gmap string SessionFile) :=
  {[ "sessions-2026-01-01.tar.gz" :=
       {[ "S.json" := rawFile (3 * day) 500; "T.json" := rawFile (3 * day) 600 ]} ]}.

(** A configuration whose emergency threshold is under its alert
    threshold. *)
Definition inverted : ConfigManager.Config :=
  {| ConfigManager.intervalMinutes := ConfigManager.Num 5;
     ConfigManager.alertThreshold := ConfigManager.Num 90;
     ConfigManager.emergencyThreshold := ConfigManager.Num 80 |}.

(** One message that reports a failure and carries two failed tool
    results. *)
Definition noisy : json :=
  JObj [("messages",
         JArr [ JObj [ ("role", JStr "assistant");
                       ("content", JStr "Build FAILED");
                       ("tool_results",
                        JArr [ JObj [("is_error", JBool true)];
                               JObj [("error", JStr "timeout")] ]) ] ])].

Definition fifties : Analyzer.Factors :=
  {| Analyzer.recency := 50; Analyzer.engagement := 50;
     Analyzer.toolUsage := 50; Analyzer.conversationDepth := 50;
     Analyzer.complexity := 50; Analyzer.errorRate := 0;
     Analyzer.uniqueness := 50 |}.

(** A session file with a text content, a structured content and tool
    payloads, and a file that does not parse. *)
Definition chatty : SessionFile :=
  {| mtime := now0 - hour; size := 260;
     parsed :=
       Some (JObj [("messages",
                    JArr [ JObj [("role", JStr "user"); ("content", JStr "hello")];
                           JObj [("role", JStr "assistant");
                                 ("content", JArr [JStr "ok"; JNum "1"]);
                                 ("tool_calls", JArr [JObj [("id", JStr "t1")]]);
                                 ("tool_results", JNull)] ])]) |}.

Definition chats : gmap string SessionFile :=
  {[ "chat.json" := chatty; "raw.json" := rawFile hour 1001 ]}.

(** A file that parses and has [null] for its first message, and one
    whose message has [false] for its content; their sizes are those of
    their texts. *)
Definition fileOf (session : json) : SessionFile :=
  {| mtime := now0 - hour; size := strlen (stringify session);
     parsed := Some session |}.

Definition nullFirst : SessionFile :=
  fileOf (JObj [("messages",
                 JArr [JNull; JObj [("content", JStr "hello")]])]).

Definition falseContent : SessionFile :=
  fileOf (JObj [("messages", JArr [JObj [("content", JBool false)]])]).


Definition oddFiles : gmap string SessionFile :=
  {[ "null.json" := nullFirst; "false.json" := falseContent ]}.

(** A session that has expired, one that is recent, and one that has
    expired but is kept for its 12 messages. *)
Definition mixed : World :=
  storeOf [ ("old.json", rawFile (10 * day) 4000);
            ("new.json", rawFile hour 4000);
            ("kept.json",
             {| mtime := now0 - 9 * day; size := 400;
                parsed := Some (JObj [("messages",
                                       JArr (repeat (JObj [("content", JStr "hi")]) 12))]) |}) ].

(** A session that was last active 1.45 days ago. *)
Definition staleSession : Session :=
  {| sessionId := "stale"; path := "stale.json"; tokenCount := 1000;
     messageCount := 4; lastActive := now0 - (day + 38880000);
     priority := Low |}.

End Examples.

(** ** Pruner: preview, reasons and the prune log *)

Module Preview.
Import JS Monitor Host Pruner.

(** The text of [_getAge]: the number it prints and its unit. *)
Inductive Age : Type :=
| Minutes (n : Z)
| Hours (n : Z)
| Days (n : Z).

Definition _getAge (now : Z) (date : Z) : Age :=
  let ageMs := now - date in
  let ageHours := (inject_Z ageMs / 3600000)%Q in
  if Qltb ageHours 1 then Minutes (Math_round (inject_Z ageMs / 60000))
  else if Qltb ageHours 24 then Hours (Math_round ageHours)
  else Days (Math_round (ageHours / 24)).

(** The text of [_getPruneReason]: its case, and the days it prints. *)
Inductive Reason : Type :=
| OldSession (days : Z)
| EmptySession
| LowEngagement
| LowPriorityScore.

(** The body of [_getPruneReason], for a [maxSessionAge] that is any
    number, as the code reads it from its configuration. *)
Definition reasonFor (maxSessionAge : Q) (now : Z) (session : Session) : Reason :=
  let ageHours := (inject_Z (now - lastActive session) / 3600000)%Q in
  let ageDays := (ageHours / 24)%Q in
  if Qltb maxSessionAge ageDays then
    OldSession (Math_round ageDays)
  else if messageCount session =? 0 then EmptySession
  else if messageCount session <? 3 then LowEngagement
  else LowPriorityScore.

Definition _getPruneReason (config : Pruner.Config) (now : Z) (session : Session)
  : Reason :=
  reasonFor (inject_Z (maxSessionAge config)) now session.

Record PreviewEntry : Type := mkPreview {
  preview_id : string;
  preview_tokens : Z;
  preview_messages : Z;
  preview_age : Age;
  preview_priority : Priority;
  preview_reason : Reason
}.

Record DryRun : Type := mkDryRun {
  dry_strategy : string;
  wouldPrune : Z;
  wouldFreeTokens : Z;
  wouldKeep : Z;
  dry_sessions : list PreviewEntry
}.

Definition dryRun (mcfg : Monitor.Config) (config : Pruner.Config) (now : Z)
    (strategy : string) (w : World) : DryRun :=
  let usage := getContextUsage mcfg now (live w) in
  let sessions := Monitor.sessions usage in
  let pruneTargets :=
    _selectPruneTargets config now sessions strategy (utilizationPercent usage) in
  {| dry_strategy := strategy;
     wouldPrune := Z.of_nat (length pruneTargets);
     wouldFreeTokens := fold_left (fun sum s => sum + tokenCount s) pruneTargets 0;
     wouldKeep := Z.of_nat (length sessions) - Z.of_nat (length pruneTargets);
     dry_sessions :=
       map (fun s => {| preview_id := sessionId s;
                        preview_tokens := tokenCount s;
                        preview_messages := messageCount s;
                        preview_age := _getAge now (lastActive s);
                        preview_priority := priority s;
                        preview_reason := _getPruneReason config now s |})
           pruneTargets |}.

(** The entry [prune] records for a session it has removed. *)
Definition entryOf (s : Session) : PrunedEntry :=
  {| pruned_id := sessionId s;
     pruned_tokens := tokenCount s;
     pruned_messages := messageCount s |}.

Record LogEntry : Type := mkLog {
  log_timestamp : Z;
  log_sessionId : string;
  log_tokens : Z;
  log_messages : Z;
  log_age : Age;
  log_strategy : string
}.

Definition logEntry (now : Z) (strategy : string) (session : Session) : LogEntry :=
  {| log_timestamp := now;
     log_sessionId := sessionId session;
     log_tokens := tokenCount session;
     log_messages := messageCount session;
     log_age := _getAge now (lastActive session);
     log_strategy := strategy |}.

(** [_logPrune(session, strategy)] on the log [pruneLog]: [push], then
    [shift] when more than 100 entries are held. *)
Definition _logPrune (now : Z) (strategy : string) (pruneLog : list LogEntry)
    (session : Session) : list LogEntry :=
  let pruneLog := pruneLog ++ [logEntry now strategy session] in
  if (100 <? length pruneLog)%nat then tl pruneLog else pruneLog.

End Preview.

(** ** Monitor: the questions asked of a snapshot *)

Module MonitorQueries.
Import JS Monitor.

Inductive Recommendation : Type :=
| EMERGENCY_CLEANUP
| ROUTINE_CLEANUP
| NO_ACTION.



Definition getSessionsByAge (cfg : Monitor.Config) (now : Z)
    (dir : gmap string SessionFile) : list Session :=
  sort (fun a b => lastActive a <? lastActive b)
       (sessions (getContextUsage cfg now dir)).

End MonitorQueries.

(** ** Emergency cleanup: the dry run *)

Module EmergencyPreview.
Import JS Monitor Host.

Record Simulation : Type := mkSimulation {
  wouldDelete : Z;
  wouldKeep : Z;
  tokensToFree : Z;
  afterTokens : Z;
  afterPercent : Q;
  afterSessions : Z;
  sessionsToDelete : list Session;
  sessionsKept : list Session
}.

Definition simulate (mcfg : Monitor.Config) (config : Emergency.Config) (now : Z)
    (w : World) : Simulation :=
  let usage := getContextUsage mcfg now (live w) in
  let sessionsToKeep := Emergency.sessionsToKeep config now (sessions usage) in
  let sessionsToDelete :=
    List.filter (fun s =>
                   negb (existsb (fun k => String.eqb (sessionId k) (sessionId s))
                                 sessionsToKeep))
                (sessions usage) in
  let tokensToFree := fold_left (fun sum s => sum + tokenCount s) sessionsToDelete 0 in
  let afterTokens := currentTokens usage - tokensToFree in
  {| wouldDelete := Z.of_nat (length sessionsToDelete);
     wouldKeep := Z.of_nat (length sessionsToKeep);
     tokensToFree := tokensToFree;
     afterTokens := afterTokens;
     afterPercent :=
       fmul (fdiv (inject_Z afterTokens) (inject_Z (maxTokens mcfg))) 100;
     afterSessions := Z.of_nat (length sessionsToKeep);
     sessionsToDelete := sessionsToDelete;
     sessionsKept := sessionsToKeep |}.

(** [_logToHistory(result)]: [push], then [shift] over 50 entries. *)
Definition _logToHistory {A} (history : list A) (result : A) : list A :=
  let history := history ++ [result] in
  if (50 <? length history)%nat then tl history else history.

End EmergencyPreview.

(** ** Archiver: the retention sweep *)

Module Retention.
Import JS Monitor Host Archiver.

(** One turn of the loop of [cleanupOldArchives] over the expired
    entries: the bundle is removed when it is there, and the entries of
    its name leave the index; when the removal throws, the turn ends
    there. The name of a bundle stands for its path. *)
Definition sweepOne (faults : Faults)
    (acc : Z * list IndexEntry * gmap string (gmap string SessionFile))
    (archive : IndexEntry)
  : Z * list IndexEntry * gmap string (gmap string SessionFile) :=
  let '(deletedCount, archives, store) := acc in
  let dropped :=
    List.filter (fun a => negb (String.eqb (archiveName a) (archiveName archive)))
                archives in
  match store !! archiveName archive with
  | Some _ =>
      if unlink_fails faults (archiveName archive) then acc
      else (deletedCount + 1, dropped, delete (archiveName archive) store)
  | None => (deletedCount, dropped, store)
  end.

(** [cleanupOldArchives()]: the count of bundles removed, or the error of
    the index that could not be saved. *)
Definition cleanupOldArchives (faults : Faults) (config : Archiver.Config)
    (now : Z) (w : World) : Result Z * World :=
  let maxAgeMs := retentionDays config * 24 * 60 * 60 * 1000 in
  let toDelete :=
    List.filter (fun archive =>
                   let age := now - timestamp archive in
                   maxAgeMs <? age)
                (index w) in
  let '(deletedCount, archives, store) :=
    fold_left (sweepOne faults) toDelete (0, index w, bundles w) in
  if index_write_fails faults then
    (Err "index not saved",
     {| live := live w; bundles := store; index := index w; trace := trace w |})
  else
    (Ok deletedCount,
     {| live := live w; bundles := store; index := archives; trace := trace w |}).

(** [listArchives()]: the index, newest first. *)
Definition listArchives (w : World) : list IndexEntry :=
  sort (fun a b => timestamp b <? timestamp a) (index w).

End Retention.

(** ** Security utilities *)

Module SecurityUtils.
Import JS.

(** A value handed to [validateNumber]. *)
Inductive Value : Type :=
| NotNumber          (* [typeof value !== 'number'] *)
| NaN
| Number (q : Q).

Inductive Refusal : Type :=
| MustBeNumber       (* "... must be a valid number" *)
| OutOfRange         (* "... must be between ..." *)
| Safety.            (* "SAFETY: Refusing to delete ..." *)

Definition validateNumber (value : Value) (min max : Q) : Refusal + bool :=
  match value with
  | NotNumber | NaN => inl MustBeNumber
  | Number v =>
      if Qltb v min || Qltb max v then inl OutOfRange else inr true
  end.

Definition validateDeletionCount (count : Value) (maxLimit : Q) : Refusal + bool :=
  match validateNumber count 0 maxLimit with
  | inl refusal => inl refusal
  | inr _ =>
      match count with
      | Number c => if Qltb maxLimit c then inl Safety else inr true
      | _ => inr true
      end
  end.

Definition isChar (n : N) (c : ascii) : bool := (N_of_ascii c =? n)%N.

(** The characters of the first class replaced: less-than, greater-than,
    colon, double quote, bar, question mark and star. *)
Definition forbidden (c : ascii) : bool :=
  isChar 60 c || isChar 62 c || isChar 58 c || isChar 34 c
  || isChar 124 c || isChar 63 c || isChar 42 c.

Fixpoint removeAll (bad : ascii -> bool) (s : string) : string :=
  match s with
  | EmptyString => EmptyString
  | String c rest => if bad c then removeAll bad rest else String c (removeAll bad rest)
  end.

(** The second replacement removes every pair of dots, met from the
    left. *)
Fixpoint removeDotDot (s : string) : string :=
  match s with
  | EmptyString => EmptyString
  | String c rest =>
      match rest with
      | String d rest' =>
          if isChar 46 c && isChar 46 d then removeDotDot rest'
          else String c (removeDotDot rest)
      | EmptyString => String c EmptyString
      end
  end.

(** The third replacement removes a leading dot. *)
Definition removeLeadingDot (s : string) : string :=
  match s with
  | String c rest => if isChar 46 c then rest else s
  | EmptyString => EmptyString
  end.

Fixpoint replaceAll (old : ascii -> bool) (new : ascii) (s : string) : string :=
  match s with
  | EmptyString => EmptyString
  | String c rest =>
      String (if old c then new else c) (replaceAll old new rest)
  end.

(** [sanitizeFilename(filename)] for a string; [None] when it throws
    (the empty string). *)
Definition sanitizeFilename (filename : string) : option string :=
  match filename with
  | EmptyString => None
  | _ =>
      let s := removeAll forbidden filename in
      let s := removeDotDot s in
      let s := removeLeadingDot s in
      let s := replaceAll (isChar 47) (ascii_of_N 45) s in
      let s := replaceAll (isChar 92) (ascii_of_N 45) s in
      Some (String.substring 0 255 s)
  end.

End SecurityUtils.

(** ** Analyzer: recency, classification and recommendation *)

Module Recommendation.
Import JS Json Analyzer.

Definition _calculateRecencyScore (now lastActive : Z) : Q :=
  let ageMs := now - lastActive in
  let ageHours := (inject_Z ageMs / 3600000)%Q in
  if Qltb ageHours 1 then 100
  else if Qltb ageHours 6 then 90
  else if Qltb ageHours 24 then 80
  else if Qltb ageHours 72 then 60
  else if Qltb ageHours 168 then 40
  else if Qltb ageHours 336 then 20
  else 10.

Definition _classifySession (score : Q) : string :=
  if Qle_bool 80 score then "critical"
  else if Qle_bool 60 score then "important"
  else if Qle_bool 40 score then "moderate"
  else if Qle_bool 20 score then "low"
  else "minimal".

Definition _generateRecommendation (importanceScore : Q) (factors : Factors)
  : string :=
  if Qle_bool 80 importanceScore then "preserve"
  else if Qle_bool 60 importanceScore then "preserve_if_space"
  else if Qltb importanceScore 20 then "safe_to_prune"
  else if Qltb (recency factors) 30 && Qltb (engagement factors) 30
  then "safe_to_prune"
  else if Qltb (5 # 10) (errorRate factors) then "candidate_for_pruning"
  else "evaluate_case_by_case".

(** What [analyzeSession] returns, as far as the lists below read it. *)
Record Analysis : Type := mkAnalysis {
  sessionId : string;
  importanceScore : Q;
  classification : string;
  recommendation : string
}.

(** The analysis of a session whose factors are [factors]. *)
Definition analysisOf (config : Config) (sessionId : string) (factors : Factors)
  : Analysis :=
  let score := _calculateImportanceScore config factors in
  {| sessionId := sessionId;
     importanceScore := score;
     classification := _classifySession score;
     recommendation := _generateRecommendation score factors |}.

(** The analysis returned when anything throws. *)
Definition failedAnalysis (sessionId : string) : Analysis :=
  {| sessionId := sessionId;
     importanceScore := 0;
     classification := "unknown";
     recommendation := "error" |}.

(** [analyzeSessions]: the analyses, highest score first. *)
Definition ranked (analyses : list Analysis) : list Analysis :=
  sort (fun a b => Qltb (importanceScore b) (importanceScore a)) analyses.

Definition getSessionsToPreserve (analyses : list Analysis) : list Analysis :=
  List.filter (fun analysis =>
                 Qle_bool 60 (importanceScore analysis)
                 || String.eqb (classification analysis) "critical"
                 || String.eqb (classification analysis) "important")
              (ranked analyses).

Definition getSessionsToPrune (analyses : list Analysis) : list Analysis :=
  List.filter (fun analysis =>
                 Qltb (importanceScore analysis) 40
                 && negb (String.eqb (classification analysis) "critical")
                 && String.eqb (recommendation analysis) "safe_to_prune")
              (ranked analyses).

End Recommendation.

(** ** Archives used in the examples *)

Module ArchiveExamples.
Import Monitor Host Examples.

Definition uncompressed : Archiver.Config :=
  {| Archiver.retentionDays := 30; Archiver.compression := false |}.

(** The first and the second session of [at85]. *)
Definition batchA : list Session := [aged "a" (2 * day) 42500 2].
Definition batchB : list Session := [aged "b" (2 * day + 1) 42500 2].

Definition entryOf (name : string) (age : Z) : IndexEntry :=
  {| archiveName := name; timestamp := now0 - age; sessionCount := 1;
     reason := "manual"; archived := [("s", 10, 1)] |}.

(** An archive directory with a bundle of 40 days and one of a day. *)
Definition stale : World :=
  {| live := ∅;
     bundles := {[ "sessions-2025-01-01.tar.gz" := {[ "s.json" := rawFile (40 * day) 40 ]};
                   "sessions-2025-02-09.tar.gz" := {[ "s.json" := rawFile day 40 ]} ]};
     index := [ entryOf "sessions-2025-01-01.tar.gz" (40 * day);
                entryOf "sessions-2025-02-09.tar.gz" day ];
     trace := [] |}.

End ArchiveExamples.

(** ** What a sanitized file name is free of *)

Module SecurityProps.
Import SecurityUtils.

Fixpoint allChars (ok : ascii -> bool) (s : string) : bool :=
  match s with
  | EmptyString => true
  | String c rest => ok c && allChars ok rest
  end.

(** Two dots in a row, somewhere. *)
Fixpoint hasDotDot (s : string) : bool :=
  match s with
  | EmptyString => false
  | String c rest =>
      match rest with
      | String d _ => (isChar 46 c && isChar 46 d) || hasDotDot rest
      | EmptyString => false
      end
  end.

Definition startsWithDot (s : string) : bool :=
  match s with
  | String c _ => isChar 46 c
  | EmptyString => false
  end.

(** Neither a character of the forbidden class nor a separator. *)
Definition plain (c : ascii) : bool :=
  negb (forbidden c) && negb (isChar 47 c) && negb (isChar 92 c).

End SecurityProps.

(** ** Analyses used in the examples *)

Module AnalysisExamples.
Import Analyzer Recommendation Examples.

Definition twoAnalyses : list Analysis :=
  [ analysisOf Analyzer.defaultConfig "s" fifties; failedAnalysis "t" ].

End AnalysisExamples.

(** * Properties *)

(** ** Numbers and sorting *)

Module JSFacts.
Import JS.

(** Comparisons of rational constants. *)
Ltac qconst := unfold Qle, Qlt; simpl; lia.

Lemma Qltb_true (a b : Q) : Qltb a b = true <-> (a < b)%Q.
Proof.
  unfold Qltb. rewrite negb_true_iff. split.
  - intros H. apply Qnot_le_lt. intros Hle.
    apply Qle_bool_iff in Hle. congruence.
  - intros H. destruct (Qle_bool b a) eqn:E; [|reflexivity].
    apply Qle_bool_iff in E. exfalso. exact (Qlt_not_le _ _ H E).
Qed.

Lemma Qltb_false (a b : Q) : Qltb a b = false <-> (b <= a)%Q.
Proof.
  unfold Qltb. rewrite negb_false_iff. apply Qle_bool_iff.
Qed.

(** Hours against a whole number of hours: the comparison of the
    quotient is the comparison of the milliseconds. *)
Lemma hours_lt (ms k : Z) :
  Qltb (inject_Z ms / 3600000) (inject_Z k) = true <-> ms < k * 3600000.
Proof.
  rewrite Qltb_true. unfold Qlt, Qdiv, Qmult, Qinv, inject_Z. simpl. lia.
Qed.

Lemma Math_ceil_nonneg (x : Q) : (0 <= x)%Q -> 0 <= Math_ceil x.
Proof.
  intros H. unfold Math_ceil.
  change 0 with (Qceiling 0). apply Qceiling_resp_le. exact H.
Qed.

(** A fraction of a count, rounded up, stays within the count. *)
Lemma Math_ceil_fraction (n : nat) (f : Q) :
  (0 <= f)%Q -> (f <= 1)%Q ->
  0 <= Math_ceil (inject_Z (Z.of_nat n) * f) <= Z.of_nat n.
Proof.
  intros H0 H1. split.
  - apply Math_ceil_nonneg. apply Qmult_le_0_compat; [|exact H0].
    unfold inject_Z. qconst.
  - unfold Math_ceil.
    rewrite <- (Qceiling_Z (Z.of_nat n)) at 2.
    apply Qceiling_resp_le.
    assert (Hn : (0 <= inject_Z (Z.of_nat n))%Q)
      by (unfold inject_Z; qconst).
    pose proof (Qmult_le_compat_nonneg
                  (inject_Z (Z.of_nat n)) (inject_Z (Z.of_nat n)) f 1
                  (conj Hn (Qle_refl _)) (conj H0 H1)) as H.
    rewrite Qmult_1_r in H. exact H.
Qed.

(** For up to 2,000 sessions, the counts computed on rationals are the
    counts [Math.ceil(length * fraction)] computes on doubles. *)
Lemma counts_as_on_doubles :
  countsAgree d025 (25 # 100) 2001 0 = true
  /\ countsAgree d035 (35 # 100) 2001 0 = true
  /\ countsAgree d050 (5 # 10) 2001 0 = true
  /\ countsAgree d070 (70 # 100) 2001 0 = true.
Proof. split; [|split; [|split]]; vm_compute; reflexivity. Qed.

Section SortFacts.
Context {A : Type} (lt : A -> A -> bool).

Lemma insert_sorted_perm (x : A) (l : list A) :
  Permutation (insert_sorted lt x l) (x :: l).
Proof.
  induction l as [|y l IH]; simpl.
  - reflexivity.
  - destruct (lt x y).
    + reflexivity.
    + rewrite IH. apply perm_swap.
Qed.

Lemma fold_insert_perm (l acc : list A) :
  Permutation (fold_left (fun acc x => insert_sorted lt x acc) l acc) (acc ++ l).
Proof.
  revert acc. induction l as [|x l IH]; intros acc; simpl.
  - rewrite app_nil_r. reflexivity.
  - rewrite IH, insert_sorted_perm.
    change (x :: acc) with ([x] ++ acc).
    rewrite (Permutation_app_comm [x] acc), <- app_assoc. reflexivity.
Qed.

Lemma sort_perm (l : list A) : Permutation (sort lt l) l.
Proof. unfold sort. rewrite fold_insert_perm. reflexivity. Qed.

Lemma sort_In (l : list A) (x : A) : In x (sort lt l) <-> In x l.
Proof.
  split; apply Permutation_in; [|symmetry]; apply sort_perm.
Qed.

Lemma sort_length (l : list A) : length (sort lt l) = length l.
Proof. apply Permutation_length, sort_perm. Qed.

(** When the comparator is that of a total preorder [le], the result
    is in order. *)
Variable le : A -> A -> Prop.
Hypothesis le_trans : forall x y z, le x y -> le y z -> le x z.
Hypothesis lt_le : forall x y, lt x y = true -> le x y.
Hypothesis nlt_le : forall x y, lt x y = false -> le y x.

Lemma insert_sorted_sorted (x : A) (l : list A) :
  StronglySorted le l -> StronglySorted le (insert_sorted lt x l).
Proof.
  induction 1 as [|y l Hs IH Hy]; simpl.
  - repeat constructor.
  - destruct (lt x y) eqn:E.
    + constructor; [constructor; assumption|].
      constructor; [auto|].
      eapply Forall_impl; [exact Hy|]. intros z Hz. simpl in Hz. eauto.
    + constructor; [exact IH|].
      apply Forall_forall. intros z Hz.
      apply list_elem_of_In in Hz.
      apply (Permutation_in _ (insert_sorted_perm x l)) in Hz.
      destruct Hz as [<-|Hz]; [auto|].
      rewrite Forall_forall in Hy. apply Hy.
      apply list_elem_of_In. exact Hz.
Qed.

Lemma sort_sorted (l : list A) : StronglySorted le (sort lt l).
Proof.
  unfold sort.
  assert (G : forall acc, StronglySorted le acc ->
            StronglySorted le (fold_left (fun acc x => insert_sorted lt x acc) l acc)).
  { induction l as [|x l IH]; intros acc Hacc; simpl; [exact Hacc|].
    apply IH, insert_sorted_sorted, Hacc. }
  apply G. constructor.
Qed.
End SortFacts.

End JSFacts.

(** ** Pruner: what the strategies select *)

Module PrunerFacts.
Import JS JSFacts Monitor Pruner.

Lemma conservative_subset config now sessions s :
  In s (_conservativePrune config now sessions) -> In s sessions.
Proof. unfold _conservativePrune. intros H. apply filter_In in H. tauto. Qed.

Lemma emergency_subset config now sessions s :
  In s (_emergencyPrune config now sessions) -> In s sessions.
Proof. unfold _emergencyPrune. intros H. apply filter_In in H. tauto. Qed.

Lemma In_firstn {A} (n : nat) (l : list A) (x : A) : In x (firstn n l) -> In x l.
Proof.
  intros H. rewrite <- (firstn_skipn n l). apply in_or_app. left. exact H.
Qed.

Lemma sorted_subset now sessions s :
  In s (_sortByPruneScore now sessions) <-> In s sessions.
Proof. unfold _sortByPruneScore. apply sort_In. Qed.

Lemma aggressive_subset now sessions u s :
  In s (_aggressivePrune now sessions u) -> In s sessions.
Proof.
  unfold _aggressivePrune. intros H.
  apply In_firstn in H. apply sorted_subset in H. exact H.
Qed.

Lemma push_missing_subset (extra targets : list Session) (s : Session) :
  In s (fold_left
          (fun targets s =>
             if existsb (fun t => String.eqb (sessionId t) (sessionId s)) targets
             then targets else targets ++ [s])
          extra targets) ->
  In s targets \/ In s extra.
Proof.
  revert targets. induction extra as [|x extra IH]; intros targets H; simpl in *.
  - left. exact H.
  - apply IH in H. destruct H as [H|H]; [|tauto].
    destruct (existsb _ targets); [tauto|].
    apply in_app_or in H. simpl in H. tauto.
Qed.

Lemma moderate_subset config now sessions u s :
  In s (_moderatePrune config now sessions u) -> In s sessions.
Proof.
  unfold _moderatePrune. destruct (Qltb 80 u).
  - intros H. apply push_missing_subset in H. destruct H as [H|H].
    + eapply conservative_subset, H.
    + apply In_firstn in H. apply sorted_subset in H. exact H.
  - apply conservative_subset.
Qed.

(** Whatever the strategy, a selected session passed the filter of the
    protected ones. *)
Lemma selected_unprotected config now sessions strategy u s :
  In s (_selectPruneTargets config now sessions strategy u) ->
  In s sessions /\ _isProtected config now s = false.
Proof.
  unfold _selectPruneTargets.
  set (prunable := List.filter (fun s => negb (_isProtected config now s)) sessions).
  assert (Hp : In s prunable -> In s sessions /\ _isProtected config now s = false).
  { unfold prunable. intros H. apply filter_In in H.
    destruct H as [H1 H2]. apply negb_true_iff in H2. tauto. }
  clearbody prunable. destruct prunable as [|p ps]; [intros []|].
  destruct (String.eqb strategy "conservative");
    [intros H; apply Hp; exact (conservative_subset _ _ _ _ H)|].
  destruct (String.eqb strategy "moderate");
    [intros H; apply Hp; exact (moderate_subset _ _ _ _ _ H)|].
  destruct (String.eqb strategy "aggressive");
    [intros H; apply Hp; exact (aggressive_subset _ _ _ _ H)|].
  destruct (String.eqb strategy "emergency");
    [intros H; apply Hp; exact (emergency_subset _ _ _ _ H)|].
  intros H; apply Hp; exact (moderate_subset _ _ _ _ _ H).
Qed.

Lemma isProtected_spec config now s :
  _isProtected config now s = true <->
  now - lastActive s < keepRecentHours config * 3600000
  \/ (preserveHighEngagement config = true
      /\ minMessagesForImportant config <= messageCount s).
Proof.
  unfold _isProtected.
  destruct (Qltb _ _) eqn:E.
  - apply hours_lt in E. tauto.
  - assert (~ now - lastActive s < keepRecentHours config * 3600000).
    { intros H. apply hours_lt in H. congruence. }
    destruct (preserveHighEngagement config); simpl.
    + destruct (Z.leb_spec (minMessagesForImportant config) (messageCount s)).
      * tauto.
      * split; [congruence|]. intros [?|[_ ?]]; [tauto|lia].
    + split; [congruence|]. intros [?|[? _]]; [tauto|congruence].
Qed.

End PrunerFacts.

(** ** Pruner: the aggressive bands and the protected sessions *)

Module PrunerClaims.
Import JS JSFacts Monitor Pruner PrunerFacts Examples.

Lemma prunePercent_range (u : Q) :
  (0 <= prunePercent u)%Q /\ (prunePercent u <= 1)%Q.
Proof.
  unfold prunePercent.
  destruct (Qltb 95 u); [|destruct (Qltb 90 u); [|destruct (Qltb 80 u)]];
    split; qconst.
Qed.

(** The loop of [_aggressivePrune] stays inside [sortedByScore]. *)
Lemma aggressive_loop_in_range (now : Z) (sessions : list Session) (u : Q) :
  let sortedByScore := _sortByPruneScore now sessions in
  0 <= Math_ceil (inject_Z (Z.of_nat (length sortedByScore)) * prunePercent u)
    <= Z.of_nat (length sortedByScore).
Proof.
  intros sortedByScore. apply Math_ceil_fraction; apply prunePercent_range.
Qed.

Lemma moderate_loop_in_range (now : Z) (sessions : list Session) :
  let sortedByScore := _sortByPruneScore now sessions in
  0 <= Math_ceil (inject_Z (Z.of_nat (length sortedByScore)) * (25 # 100)%Q)
    <= Z.of_nat (length sortedByScore).
Proof.
  intros sortedByScore. apply Math_ceil_fraction; qconst.
Qed.

Lemma aggressive_length (now : Z) (sessions : list Session) (u : Q) :
  Z.of_nat (length (_aggressivePrune now sessions u)) =
  Math_ceil (inject_Z (Z.of_nat (length sessions)) * prunePercent u).
Proof.
  pose proof (aggressive_loop_in_range now sessions u) as H. simpl in H.
  unfold _aggressivePrune. rewrite length_firstn.
  unfold _sortByPruneScore in *. rewrite sort_length in *. lia.
Qed.

Lemma ranking_sorted (now : Z) (sessions : list Session) :
  StronglySorted
    (fun a b => (_calculatePruneScore now a <= _calculatePruneScore now b)%Q)
    (_sortByPruneScore now sessions).
Proof.
  unfold _sortByPruneScore. apply sort_sorted.
  - intros x y z. apply Qle_trans.
  - intros x y H. apply Qltb_true in H. apply Qlt_le_weak, H.
  - intros x y H. apply Qltb_false in H. exact H.
Qed.

Lemma sorted_app_le {A} (le : A -> A -> Prop) (l1 l2 : list A) :
  StronglySorted le (l1 ++ l2) ->
  forall x y, In x l1 -> In y l2 -> le x y.
Proof.
  induction l1 as [|a l1 IH]; simpl; intros Hs x y Hx Hy; [contradiction|].
  inversion Hs as [|? ? Hs' Ha]; subst.
  destruct Hx as [<-|Hx].
  - rewrite Forall_forall in Ha. apply Ha.
    apply list_elem_of_In, in_or_app. right. exact Hy.
  - eapply IH; eauto.
Qed.

(** C3, as the code has it: the aggressive strategy evicts the
    lowest-ranked [ceil(n * f)] of the [n] eligible sessions, where the
    fraction [f] is 70% when the utilization is above 95, 50% when it is
    above 90 and at most 95, 35% when it is above 80 and at most 90, and
    25% when it is at most 80. *)
Theorem aggressive_evicts_band_fraction :
  forall (now : Z) (sessions : list Session) (u : Q),
    let evicted := _aggressivePrune now sessions u in
    let count := fun f : Q =>
      Math_ceil (inject_Z (Z.of_nat (length sessions)) * f) in
    ((95 < u)%Q -> Z.of_nat (length evicted) = count (70 # 100)%Q) /\
    ((90 < u)%Q -> (u <= 95)%Q -> Z.of_nat (length evicted) = count (50 # 100)%Q) /\
    ((80 < u)%Q -> (u <= 90)%Q -> Z.of_nat (length evicted) = count (35 # 100)%Q) /\
    ((u <= 80)%Q -> Z.of_nat (length evicted) = count (25 # 100)%Q) /\
    exists kept : list Session,
      Permutation (evicted ++ kept) sessions /\
      forall s t, In s evicted -> In t kept ->
        (_calculatePruneScore now s <= _calculatePruneScore now t)%Q.
Proof.
  intros now sessions u evicted count.
  assert (L : Z.of_nat (length evicted) = count (prunePercent u))
    by apply aggressive_length.
  repeat split.
  - intros H. rewrite L. unfold prunePercent.
    apply Qltb_true in H. rewrite H. reflexivity.
  - intros H1 H2. rewrite L. unfold prunePercent.
    apply Qltb_true in H1. apply Qltb_false in H2. rewrite H1, H2. reflexivity.
  - intros H1 H2. rewrite L. unfold prunePercent.
    assert (H3 : Qltb 95 u = false).
    { apply Qltb_false. eapply Qle_trans; [exact H2|]. qconst. }
    apply Qltb_true in H1. apply Qltb_false in H2.
    rewrite H3, H2, H1. reflexivity.
  - intros H. rewrite L. unfold prunePercent.
    assert (H1 : Qltb 80 u = false) by (apply Qltb_false; exact H).
    assert (H2 : Qltb 90 u = false).
    { apply Qltb_false. eapply Qle_trans; [exact H|]. qconst. }
    assert (H3 : Qltb 95 u = false).
    { apply Qltb_false. eapply Qle_trans; [exact H|]. qconst. }
    rewrite H3, H2, H1. reflexivity.
  - set (k := Z.to_nat (Math_ceil (inject_Z (Z.of_nat
               (length (_sortByPruneScore now sessions))) * prunePercent u))).
    exists (skipn k (_sortByPruneScore now sessions)).
    assert (E : evicted = firstn k (_sortByPruneScore now sessions)) by reflexivity.
    split.
    + rewrite E, firstn_skipn. apply sort_perm.
    + rewrite E. apply sorted_app_le. rewrite firstn_skipn. apply ranking_sorted.
Qed.

(** C3, as the specification words its bands, fails: at a utilization of
    85% the only band that applies is the 25% one, and the code evicts
    35%, that is 2 of 4 sessions and not 1. *)
Lemma aggressive_bands_counterexample :
  ~ (forall f : Q,
       Spec.fraction 85 = Some f ->
       Z.of_nat (length (_aggressivePrune now0 four 85)) =
       Math_ceil (inject_Z (Z.of_nat (length four)) * f)).
Proof.
  intros H. specialize (H (25 # 100)%Q eq_refl).
  vm_compute in H. discriminate H.
Qed.

(** C4, as the code has it: a session whose age is under the keep-recent
    floor, or whose message count meets the high-engagement floor while
    [preserveHighEngagement] is on (the default), is selected by no
    strategy at any utilization; with the default configuration a
    session with 15 messages and an age of one hour is never selected. *)
Theorem protected_never_selected :
  forall (config : Config) (now : Z) (sessions : list Session)
         (strategy : string) (u : Q) (s : Session),
    (now - lastActive s < keepRecentHours config * 3600000
     \/ (preserveHighEngagement config = true
         /\ minMessagesForImportant config <= messageCount s) ->
     ~ In s (_selectPruneTargets config now sessions strategy u))
    /\
    (messageCount s = 15 -> now - lastActive s = 3600000 ->
     ~ In s (_selectPruneTargets defaultConfig now sessions strategy u)).
Proof.
  intros config now sessions strategy u s. split.
  - intros Hp Hin. apply selected_unprotected in Hin.
    apply isProtected_spec in Hp. destruct Hin as [_ Hin]. congruence.
  - intros Hm Ha Hin. apply selected_unprotected in Hin.
    destruct Hin as [_ Hin].
    assert (Hp : _isProtected defaultConfig now s = true).
    { apply isProtected_spec. left. simpl. lia. }
    congruence.
Qed.

Lemma protected_never_selected_witness :
  (messageCount (aged "s" hour 4000 15) = 15
   /\ now0 - lastActive (aged "s" hour 4000 15) = 3600000)
  /\ ~ In (aged "s" hour 4000 15)
          (_selectPruneTargets defaultConfig now0
             (aged "s" hour 4000 15 :: four) "aggressive" 96).
Proof.
  split; [split; reflexivity|].
  apply (protected_never_selected defaultConfig now0
           (aged "s" hour 4000 15 :: four) "aggressive" 96
           (aged "s" hour 4000 15)); reflexivity.
Defined.

(** C4, as stated, fails when [preserveHighEngagement] is off: a session
    with 15 messages, above the floor of 10, is selected by the
    conservative strategy once it is older than the maximum age. *)
Lemma engaged_session_selected_counterexample :
  minMessagesForImportant engagementOff <= messageCount busyOld
  /\ In busyOld
        (_selectPruneTargets engagementOff now0 [busyOld] "conservative" 0).
Proof.
  split; [vm_compute; discriminate|].
  vm_compute. left. reflexivity.
Qed.

End PrunerClaims.

(** ** What the cleanups do to the trace *)

Module TraceFacts.
Import JS JSFacts Monitor Host.

(** [archiveSessions] never touches the session directory; it fails
    without a trace, or archives nothing, or writes a bundle of all the
    sessions it was given. *)
Lemma archiveSessions_spec (faults : Faults) (config : Archiver.Config) (now : Z)
    (date : string) (sessions : list Session) (reason : string) (w : World) :
  let result := Archiver.archiveSessions faults config now date sessions reason w in
  live (snd result) = live w
  /\ ((exists message, fst result = Err message) /\ trace (snd result) = trace w
      \/ (exists r, fst result = Ok r) /\ sessions = [] /\ snd result = w
      \/ (exists r, fst result = Ok r)
         /\ trace (snd result) = trace w ++ [EvArchive reason (map path sessions)]).
Proof.
  unfold Archiver.archiveSessions. destruct sessions as [|s rest].
  { simpl. split; [reflexivity|]. right. left. eauto. }
  destruct (Archiver.copySessions faults now (live w) (s :: rest) ∅) as [tempDir|].
  2:{ simpl. split; [reflexivity|]. left. eauto. }
  destruct (Archiver.writeBundle faults config _ tempDir (bundles w)) as [store|].
  2:{ simpl. split; [reflexivity|]. left. eauto. }
  destruct (index_write_fails faults); simpl.
  - split; [reflexivity|]. left. eauto.
  - split; [reflexivity|]. right. right. eauto.
Qed.

(** The loop of the emergency cleanup removes files of the snapshot only,
    and writes nothing else to the trace. *)
Lemma deleteOther_trace (faults : Faults) (toKeep sessions : list Session) :
  forall (acc : Z * Z * World),
    exists removed,
      trace (snd (fold_left (Emergency.deleteOther faults toKeep) sessions acc))
      = trace (snd acc) ++ map EvUnlink removed
      /\ forall p, In p removed -> In p (map path sessions).
Proof.
  induction sessions as [|s sessions IH]; intros [[d t] w].
  - exists []. simpl. rewrite app_nil_r. split; [reflexivity|]. intros p [].
  - cbn [fold_left].
    destruct (Emergency.deleteOther faults toKeep (d, t, w) s) as [[d' t'] w'] eqn:E.
    destruct (IH (d', t', w')) as (removed & Htr & Hin).
    unfold Emergency.deleteOther in E.
    destruct (existsb _ toKeep).
    + inversion E; subst. exists removed. split; [exact Htr|].
      intros p Hp. right. apply Hin, Hp.
    + unfold unlink in E. destruct (unlink_fails faults (path s)).
      * inversion E; subst. exists removed. split; [exact Htr|].
        intros p Hp. right. apply Hin, Hp.
      * destruct (live w !! path s).
        -- inversion E; subst. exists (path s :: removed). split.
           ++ rewrite Htr. simpl. rewrite <- app_assoc. reflexivity.
           ++ intros p [<-|Hp]; [left; reflexivity|right; apply Hin, Hp].
        -- inversion E; subst. exists removed. split; [exact Htr|].
           intros p Hp. right. apply Hin, Hp.
Qed.

Lemma archivedFirst_unlinks (bundled removed : list string) :
  (forall p, In p removed -> In p bundled) ->
  archivedFirst bundled (map EvUnlink removed) = true.
Proof.
  induction removed as [|p removed IH]; intros H; simpl; [reflexivity|].
  rewrite IH by (intros q Hq; apply H; right; exact Hq).
  rewrite andb_true_r. apply existsb_exists. exists p. split.
  - apply H. left. reflexivity.
  - apply String.eqb_refl.
Qed.

Lemma archivedFirst_batch (events : list Event) (reason : string)
    (paths removed : list string) :
  (forall p, In p removed -> In p paths) ->
  forall bundled,
    archivedFirst bundled events = true ->
    archivedFirst bundled (events ++ EvArchive reason paths :: map EvUnlink removed)
    = true.
Proof.
  intros H. induction events as [|e events IH]; intros bundled Hb; simpl.
  - apply archivedFirst_unlinks. intros p Hp. apply in_or_app. left. apply H, Hp.
  - destruct e as [r ps|p]; simpl in Hb.
    + apply IH, Hb.
    + apply andb_true_iff in Hb. destruct Hb as [H1 H2].
      rewrite H1. simpl. apply IH, H2.
Qed.

(** The emergency cleanup keeps the order: it removes only files that the
    bundle it has just written holds. *)
Lemma emergency_archives_first (faults : Faults) (mcfg : Monitor.Config)
    (acfg : Archiver.Config) (config : Emergency.Config) (now : Z) (date : string)
    (w : World) (bundled : list string) :
  archivedFirst bundled (trace w) = true ->
  archivedFirst bundled
    (trace (snd (Emergency.execute faults mcfg acfg config now date w))) = true.
Proof.
  intros Hb. unfold Emergency.execute.
  set (usage := getContextUsage mcfg now (live w)).
  pose proof (archiveSessions_spec faults acfg now date (sessions usage)
                "emergency-cleanup" w) as Ha.
  cbv zeta in Ha.
  destruct (Archiver.archiveSessions faults acfg now date (sessions usage)
              "emergency-cleanup" w) as [[r|message] w1]; cbn [fst snd] in Ha.
  2:{ cbn [snd]. destruct Ha as [_ [[_ Ht]|[[[r Hr] _]|[[r Hr] _]]]];
        try discriminate Hr. rewrite Ht. exact Hb. }
  pose proof (deleteOther_trace faults
                (Emergency.sessionsToKeep config now (sessions usage))
                (sessions usage) (0, 0, w1)) as (removed & Htr & Hin).
  destruct (fold_left _ (sessions usage) (0, 0, w1)) as [[d t] w2].
  cbn [fst snd] in Htr.
  assert (Hgoal : archivedFirst bundled (trace w2) = true).
  { rewrite Htr. destruct Ha as [_ [[[m Hm] _]|[(_ & Hnil & Hw)|[_ Ht]]]].
    - discriminate Hm.
    - rewrite Hnil in Hin. destruct removed as [|p removed];
        [|destruct (Hin p (or_introl eq_refl))].
      simpl. rewrite app_nil_r, Hw. exact Hb.
    - rewrite Ht, <- app_assoc. simpl. apply archivedFirst_batch; assumption. }
  destruct (Archiver.archivedAs r); exact Hgoal.
Qed.

(** When the archive fails, the emergency cleanup removes nothing. *)
Lemma emergency_blocked_by_archive_failure (faults : Faults)
    (mcfg : Monitor.Config) (acfg : Archiver.Config) (config : Emergency.Config)
    (now : Z) (date : string) (w : World) (message : string) :
  fst (Archiver.archiveSessions faults acfg now date
         (sessions (getContextUsage mcfg now (live w))) "emergency-cleanup" w)
  = Err message ->
  let result := Emergency.execute faults mcfg acfg config now date w in
  live (snd result) = live w /\ trace (snd result) = trace w
  /\ Emergency.success (fst result) = false.
Proof.
  intros H. unfold Emergency.execute.
  pose proof (archiveSessions_spec faults acfg now date
                (sessions (getContextUsage mcfg now (live w)))
                "emergency-cleanup" w) as Ha.
  cbv zeta in Ha.
  destruct (Archiver.archiveSessions faults acfg now date
              (sessions (getContextUsage mcfg now (live w)))
              "emergency-cleanup" w) as [[r|m] w1]; cbn [fst snd] in *;
    [discriminate H|].
  destruct Ha as [Hl [[_ Ht]|[[[r Hr] _]|[[r Hr] _]]]]; try discriminate Hr.
  auto.
Qed.

(** When the archive fails, the routine cleanup of the watcher removes
    nothing either. *)
Lemma routine_blocked_by_archive_failure (faults : Faults) (setup : Watcher.Setup)
    (now : Z) (date : string) (u : Q) (st : Watcher.State) (w : World)
    (message : string) :
  fst (Archiver.archiveSessions faults (Watcher.archiverConfig setup) now date
         (Watcher.toPrune now
            (sessions (getContextUsage (Watcher.monitorConfig setup) now (live w))) u)
         "auto-cleanup" w)
  = Err message ->
  let result := Watcher._triggerRoutineCleanup faults setup now date u st w in
  live (snd result) = live w /\ trace (snd result) = trace w.
Proof.
  intros H. unfold Watcher._triggerRoutineCleanup.
  set (batch := Watcher.toPrune now _ u) in *.
  pose proof (archiveSessions_spec faults (Watcher.archiverConfig setup) now date
                batch "auto-cleanup" w) as Ha.
  cbv zeta in Ha.
  destruct batch as [|s rest]; [cbn [snd]; auto|].
  destruct (Archiver.archiveSessions faults (Watcher.archiverConfig setup) now date
              (s :: rest) "auto-cleanup" w) as [[r|m] w1];
    cbn [fst snd] in *; [discriminate H|].
  destruct Ha as [Hl [[_ Ht]|[[[r Hr] _]|[[r Hr] _]]]]; try discriminate Hr.
  auto.
Qed.

(** [prune] writes no bundle: all it adds to the trace are removals. *)
Lemma prune_only_unlinks (faults : Faults) (targets : list Session) :
  forall (acc : Pruner.Results * World),
    exists removed,
      trace (snd (fold_left (Pruner.pruneOne faults) targets acc))
      = trace (snd acc) ++ map EvUnlink removed
      /\ bundles (snd (fold_left (Pruner.pruneOne faults) targets acc))
         = bundles (snd acc).
Proof.
  induction targets as [|s targets IH]; intros [r w].
  - exists []. simpl. rewrite app_nil_r. auto.
  - cbn [fold_left].
    destruct (Pruner.pruneOne faults (r, w) s) as [r' w'] eqn:E.
    destruct (IH (r', w')) as (removed & Htr & Hb).
    unfold Pruner.pruneOne, unlink in E.
    destruct (unlink_fails faults (path s));
      [inversion E; subst; exists removed; auto|].
    destruct (live w !! path s); inversion E; subst.
    + exists (path s :: removed). rewrite Htr, Hb. simpl.
      rewrite <- app_assoc. auto.
    + exists removed. auto.
Qed.

(** The emergency cleanup keeps at most [keepMinimumSessions] sessions,
    all of them inside the keep-recent window. *)
Lemma sessionsToKeep_cap (config : Emergency.Config) (now : Z)
    (sessions : list Session) :
  0 <= Emergency.keepMinimumSessions config ->
  Z.of_nat (length (Emergency.sessionsToKeep config now sessions))
  <= Emergency.keepMinimumSessions config
  /\ forall s, In s (Emergency.sessionsToKeep config now sessions) ->
               now - lastActive s < Emergency.keepRecentHours config * 60 * 60 * 1000.
Proof.
  intros Hk. unfold Emergency.sessionsToKeep, slice0.
  destruct (Z.leb_spec 0 (Emergency.keepMinimumSessions config)); [|lia].
  split.
  - rewrite length_firstn. lia.
  - intros s Hs. apply PrunerFacts.In_firstn in Hs.
    apply sort_In in Hs. apply filter_In in Hs. destruct Hs as [_ Hs].
    apply Z.ltb_lt in Hs. exact Hs.
Qed.

End TraceFacts.

(** ** Archive-then-delete and the minimum of surviving sessions *)

Module CleanupClaims.
Import JS Monitor Host Examples.

(** C1 on the watcher's routine cleanup. At 85% of the budget, with four
    eligible sessions, the watcher archives the oldest quarter, one
    session, and then calls [prune('aggressive')], which makes its own
    selection and removes two: the file [c.json] is removed although no
    bundle holds it. *)
Theorem routine_cleanup_deletes_unarchived :
  let '(st, w) :=
    Watcher._performCheck noFaults Watcher.defaultConfig setup now0 today
                          Watcher.initial at85 in
  trace w = [ EvArchive "auto-cleanup" ["d.json"];
              EvUnlink "d.json"; EvUnlink "c.json" ]
  /\ archivedFirst [] (trace w) = false
  /\ live w !! "c.json" = None
  /\ map (fun entry : string * gmap string SessionFile =>
            (fst entry, map fst (map_to_list (snd entry))))
         (map_to_list (bundles w))
     = [("sessions-2026-01-01.tar.gz", ["d.json"])].
Proof. vm_compute. repeat split. Qed.

(** [prune()] on its own writes no bundle: called directly, it removes
    files that nothing has archived. *)
Lemma prune_alone_archives_nothing :
  let '(r, w) :=
    Pruner.prune noFaults Monitor.defaultConfig Pruner.defaultConfig now0
                 "aggressive" at85 in
  trace w = [EvUnlink "d.json"; EvUnlink "c.json"]
  /\ bundles w = ∅.
Proof. vm_compute. split; reflexivity. Qed.

(** C2 on ten sessions of 25,000 tokens that are all older than the
    keep-recent window of 6 hours, with [keepMinimumSessions] at 5: the
    age filter leaves nothing for [slice] to keep, all ten files are
    removed and no session survives. *)
Theorem emergency_leaves_fewer_than_minimum :
  let '(report, w) :=
    Emergency.execute noFaults Monitor.defaultConfig Archiver.defaultConfig
                      keepFive now0 today tenOld in
  Emergency.beforeSessions report = 10
  /\ Emergency.deleted report = 10
  /\ Emergency.kept report = 0
  /\ live w = ∅
  /\ Z.of_nat (base.size (live w)) < Emergency.keepMinimumSessions keepFive.
Proof. vm_compute. repeat split. Qed.

End CleanupClaims.

(** ** The sessions of a usage snapshot and the loop of [prune] *)

Module StoreFacts.
Import JS JSFacts Monitor Host Pruner PrunerFacts.

Lemma getAllSessions_spec (dir : gmap string SessionFile) (fi : FileInfo) :
  In fi (getAllSessions dir) <->
  exists file f, dir !! file = Some f /\ endsWith file ".json" = true
                 /\ fi = infoOf file f.
Proof.
  unfold getAllSessions. rewrite <- list_elem_of_In, list_elem_of_omap. split.
  - intros [[file f] [Hin Hs]]. apply elem_of_map_to_list in Hin.
    exists file, f. destruct (endsWith file ".json"); inversion Hs. auto.
  - intros (file & f & Hl & He & ->). exists (file, f). split.
    + apply elem_of_map_to_list. exact Hl.
    + rewrite He. reflexivity.
Qed.

(** A session of the snapshot is the reading of a [.json] file of the
    directory. *)
Lemma usage_sessions_spec (mcfg : Monitor.Config) (now : Z)
    (dir : gmap string SessionFile) (s : Session) :
  In s (sessions (getContextUsage mcfg now dir)) <->
  exists file f, dir !! file = Some f /\ endsWith file ".json" = true
                 /\ s = sessionInfo now dir (infoOf file f).
Proof.
  unfold getContextUsage. simpl. rewrite sort_In, in_map_iff. split.
  - intros (fi & <- & Hfi). apply getAllSessions_spec in Hfi.
    destruct Hfi as (file & f & ? & ? & ->). eauto.
  - intros (file & f & Hl & He & ->). exists (infoOf file f). split; [reflexivity|].
    apply getAllSessions_spec. eauto.
Qed.

(** The reading of a file depends on the directory through that file
    only. *)
Lemma sessionInfo_local (now1 now2 : Z) (dir1 dir2 : gmap string SessionFile)
    (fi : FileInfo) :
  dir1 !! filePath fi = dir2 !! filePath fi ->
  let s1 := sessionInfo now1 dir1 fi in
  let s2 := sessionInfo now2 dir2 fi in
  path s1 = path s2 /\ lastActive s1 = lastActive s2
  /\ messageCount s1 = messageCount s2 /\ tokenCount s1 = tokenCount s2.
Proof.
  intros H. unfold sessionInfo, countSessionTokens, getMessageCount. simpl.
  rewrite H. auto.
Qed.

Lemma conservative_selected (config : Pruner.Config) (now : Z)
    (sessions : list Session) (u : Q) (s : Session) :
  In s (_selectPruneTargets config now sessions "conservative" u) <->
  In s sessions /\ _isProtected config now s = false
  /\ maxSessionAge config * 24 * 60 * 60 * 1000 < now - lastActive s.
Proof.
  unfold _selectPruneTargets.
  set (prunable := List.filter (fun s => negb (_isProtected config now s)) sessions).
  assert (Hp : In s prunable <-> In s sessions /\ _isProtected config now s = false).
  { unfold prunable. rewrite filter_In, negb_true_iff. tauto. }
  assert (Hc : In s (_conservativePrune config now prunable) <->
               In s prunable
               /\ maxSessionAge config * 24 * 60 * 60 * 1000 < now - lastActive s).
  { unfold _conservativePrune. rewrite filter_In, Z.ltb_lt. tauto. }
  clearbody prunable. destruct prunable as [|p ps].
  - simpl in *. tauto.
  - change (String.eqb "conservative" "conservative") with true. cbv iota.
    tauto.
Qed.

(** The loop of [prune] removes from the directory the targets whose
    [unlink] does not fail, and nothing else. *)
Lemma prune_loop_live (faults : Faults) (targets : list Session)
    (results : Results) (w : World) (p : string) :
  live (snd (fold_left (pruneOne faults) targets (results, w))) !! p =
  if existsb (fun s => String.eqb (path s) p
                       && negb (unlink_fails faults (path s))) targets
  then None else live w !! p.
Proof.
  revert results w. induction targets as [|s targets IH]; intros results w.
  - reflexivity.
  - cbn [fold_left existsb].
    destruct (pruneOne faults (results, w) s) as [results' w'] eqn:E.
    rewrite IH. unfold pruneOne, unlink in E.
    destruct (unlink_fails faults (path s)) eqn:Ef.
    + inversion E; subst. rewrite andb_false_r. reflexivity.
    + rewrite andb_true_r.
      destruct (live w !! path s) as [f|] eqn:El; inversion E; subst; simpl.
      * destruct (existsb _ targets); [destruct (String.eqb _ _); reflexivity|].
        destruct (String.eqb_spec (path s) p) as [Heq|Hne]; simpl.
        -- rewrite <- Heq. apply lookup_delete_eq.
        -- apply lookup_delete_ne. exact Hne.
      * destruct (existsb _ targets); [destruct (String.eqb _ _); reflexivity|].
        destruct (String.eqb_spec (path s) p) as [Heq|Hne]; simpl.
        -- rewrite <- Heq. exact El.
        -- reflexivity.
Qed.

(** When every [unlink] fails, the loop changes nothing. *)
Lemma prune_loop_all_fail (faults : Faults) (targets : list Session)
    (acc : Results * World) :
  (forall s, In s targets -> unlink_fails faults (path s) = true) ->
  fold_left (pruneOne faults) targets acc = acc.
Proof.
  revert acc. induction targets as [|s targets IH]; intros [results w] H.
  - reflexivity.
  - cbn [fold_left].
    assert (E : pruneOne faults (results, w) s = (results, w)).
    { unfold pruneOne, unlink. rewrite (H s) by (left; reflexivity). reflexivity. }
    rewrite E. apply IH. intros s' Hs'. apply H. right. exact Hs'.
Qed.

End StoreFacts.

(** ** Conservative pruning, twice *)

Module IdempotenceClaims.
Import JS JSFacts Monitor Host Pruner PrunerFacts StoreFacts Examples.

(** C9: [prune('conservative')] called twice in succession on the same
    store, with no session added in between, evicts nothing the second
    time. The calls read the clock at [now1] and [now2]; in succession
    means that no stored session gets past the maximum age or out of the
    keep-recent window between the two readings (as when they are the
    same instant). A file whose [unlink] fails in the first call fails in
    the second, and is not counted as evicted. *)
Theorem conservative_prune_twice :
  forall (faults : Faults) (mcfg : Monitor.Config) (config : Pruner.Config)
         (now1 now2 : Z) (w : World),
    (forall file f, live w !! file = Some f ->
       (maxSessionAge config * 24 * 60 * 60 * 1000 < now2 - mtime f ->
        maxSessionAge config * 24 * 60 * 60 * 1000 < now1 - mtime f)
       /\ (now1 - mtime f < keepRecentHours config * 3600000 ->
           now2 - mtime f < keepRecentHours config * 3600000)) ->
    let first := prune faults mcfg config now1 "conservative" w in
    let second := prune faults mcfg config now2 "conservative" (snd first) in
    sessionsPruned (fst second) = 0
    /\ prunedSessions (fst second) = []
    /\ snd second = snd first.
Proof.
  intros faults mcfg config now1 now2 w Hsteady first second.
  assert (Hfail : forall s2,
             In s2 (_selectPruneTargets config now2
                      (sessions (getContextUsage mcfg now2 (live (snd first))))
                      "conservative"
                      (utilizationPercent (getContextUsage mcfg now2 (live (snd first))))) ->
             unlink_fails faults (path s2) = true).
  { intros s2 H2.
    apply conservative_selected in H2. destruct H2 as (Hin2 & Hun2 & Hold2).
    apply usage_sessions_spec in Hin2.
    destruct Hin2 as (file & f & Hl2 & Hjson & ->).
    pose proof Hl2 as Hw.
    unfold first, prune in Hw. rewrite prune_loop_live in Hw.
    match type of Hw with
    | (if existsb ?g ?l then _ else _) = _ =>
        destruct (existsb g l) eqn:Hex; [discriminate Hw|]
    end.
    set (s1 := sessionInfo now1 (live w) (infoOf file f)).
    set (s2 := sessionInfo now2 (live (snd first)) (infoOf file f)) in *.
    assert (Hlast : lastActive s2 = mtime f) by reflexivity.
    assert (Hmsg : messageCount s1 = messageCount s2).
    { unfold s1, s2, sessionInfo, getMessageCount. simpl.
      rewrite Hl2, Hw. reflexivity. }
    destruct (Hsteady file f Hw) as [Hage Hrecent].
    assert (Hm1 : lastActive s1 = mtime f) by reflexivity.
    assert (Hsel : In s1 (_selectPruneTargets config now1
                            (sessions (getContextUsage mcfg now1 (live w)))
                            "conservative"
                            (utilizationPercent (getContextUsage mcfg now1 (live w))))).
    { apply conservative_selected. split; [|split].
      - apply usage_sessions_spec. exists file, f. auto.
      - destruct (_isProtected config now1 s1) eqn:Hp1; [|reflexivity].
        exfalso. apply isProtected_spec in Hp1.
        assert (Hp2 : _isProtected config now2 s2 = true).
        { apply isProtected_spec. rewrite Hlast, <- Hmsg.
          rewrite Hm1 in Hp1. tauto. }
        congruence.
      - rewrite Hm1. apply Hage. rewrite <- Hlast. exact Hold2. }
    assert (Hnone : forall x, In x (_selectPruneTargets config now1
                            (sessions (getContextUsage mcfg now1 (live w)))
                            "conservative"
                            (utilizationPercent (getContextUsage mcfg now1 (live w)))) ->
              String.eqb (path x) file && negb (unlink_fails faults (path x)) = false).
    { intros x Hx. destruct (String.eqb (path x) file
                             && negb (unlink_fails faults (path x))) eqn:Ex;
        [|reflexivity].
      assert (existsb (fun s => String.eqb (path s) file
                                && negb (unlink_fails faults (path s)))
                (_selectPruneTargets config now1
                   (sessions (getContextUsage mcfg now1 (live w)))
                   "conservative"
                   (utilizationPercent (getContextUsage mcfg now1 (live w)))) = true)
        by (apply existsb_exists; eauto).
      congruence. }
    specialize (Hnone s1 Hsel).
    change (path s1) with file in Hnone. change (path s2) with file.
    rewrite String.eqb_refl in Hnone. simpl in Hnone.
    apply negb_false_iff in Hnone. exact Hnone. }
  unfold second, prune.
  rewrite (prune_loop_all_fail faults _ _ Hfail). simpl. auto.
Qed.

Lemma conservative_prune_twice_witness :
  let first := prune noFaults Monitor.defaultConfig Pruner.defaultConfig
                     now0 "conservative" mixed in
  let second := prune noFaults Monitor.defaultConfig Pruner.defaultConfig
                      (now0 + 1000) "conservative" (snd first) in
  sessionsPruned (fst first) = 1
  /\ (sessionsPruned (fst second) = 0
      /\ prunedSessions (fst second) = []
      /\ snd second = snd first).
Proof.
  split; [vm_compute; reflexivity|].
  apply (conservative_prune_twice noFaults Monitor.defaultConfig
           Pruner.defaultConfig now0 (now0 + 1000) mixed).
  intros file f H.
  assert (Hm : mtime f = now0 - 10 * day \/ mtime f = now0 - hour
               \/ mtime f = now0 - 9 * day).
  { unfold mixed, storeOf in H. simpl in H.
    destruct (decide (file = "old.json")) as [->|H1];
      [rewrite lookup_insert_eq in H; inversion H; auto|].
    rewrite lookup_insert_ne in H by congruence.
    destruct (decide (file = "new.json")) as [->|H2];
      [rewrite lookup_insert_eq in H; inversion H; auto|].
    rewrite lookup_insert_ne in H by congruence.
    destruct (decide (file = "kept.json")) as [->|H3];
      [rewrite lookup_insert_eq in H; inversion H; auto|].
    rewrite lookup_insert_ne in H by congruence.
    rewrite lookup_empty in H. discriminate H. }
  unfold now0, day, hour in *. simpl. lia.
Defined.

End IdempotenceClaims.

(** ** Restoring a bundle *)

Module RestoreClaims.
Import JS Monitor Host Archiver Examples.

Lemma filter_ext_in_length {A} (p q : A -> bool) (l : list A) :
  (forall x, In x l -> p x = q x) ->
  length (List.filter p l) = length (List.filter q l).
Proof.
  induction l as [|x l IH]; intros H; simpl; [reflexivity|].
  rewrite (H x) by (left; reflexivity).
  destruct (q x); simpl; rewrite IH; auto; intros y Hy; apply H; right; exact Hy.
Qed.

(** The loop of [restore]: a file that is there is left as it is, and the
    count grows by the files of the listing whose name was free. *)
Lemma copyBack_spec (faults : Faults) (now : Z)
    (sessions : list (string * SessionFile)) :
  NoDup (sessions.*1) ->
  forall (target : gmap string SessionFile) (count : Z),
    let result := copyBack faults now sessions target count in
    (forall name f, target !! name = Some f -> snd result !! name = Some f)
    /\ (forall restoredCount, fst result = Ok restoredCount ->
          restoredCount =
          count + Z.of_nat (length (List.filter
                                      (fun e => negb (existsLive target e)) sessions)))
    /\ ((forall name, copy_fails faults name = false) ->
        exists restoredCount, fst result = Ok restoredCount).
Proof.
  induction sessions as [|[session f] rest IH]; intros Hnd target count.
  - simpl. repeat split; eauto. intros c H. inversion H. lia.
  - apply NoDup_cons in Hnd. destruct Hnd as [Hfresh Hnd].
    cbn [copyBack List.filter]. unfold existsLive at 1. cbn [fst].
    destruct (target !! session) as [g|] eqn:El.
    + cbn [negb]. apply IH. exact Hnd.
    + cbn [negb length].
      destruct (copy_fails faults session) eqn:Ec.
      * simpl. repeat split; auto.
        -- intros c H. discriminate H.
        -- intros H. rewrite H in Ec. discriminate Ec.
      * specialize (IH Hnd (<[session := copyOf now f]> target) (count + 1)).
        destruct IH as (IH1 & IH2 & IH3). repeat split.
        -- intros name g Hg. apply IH1.
           rewrite lookup_insert_ne; [exact Hg|]. congruence.
        -- intros c H. rewrite (IH2 c H).
           rewrite (filter_ext_in_length
                      (fun e => negb (existsLive (<[session := copyOf now f]> target) e))
                      (fun e => negb (existsLive target e)) rest); [lia|].
           intros [name g] Hin. unfold existsLive. cbn [fst].
           rewrite lookup_insert_ne; [reflexivity|].
           intros ->. apply Hfresh. apply list_elem_of_fmap.
           exists (name, g). split; [reflexivity|].
           apply list_elem_of_In. exact Hin.
        -- exact IH3.
Qed.

Lemma filter_split_length {A} (p : A -> bool) (l : list A) :
  length l = (length (List.filter p l)
              + length (List.filter (fun x => negb (p x)) l))%nat.
Proof.
  induction l as [|x l IH]; simpl; [reflexivity|].
  destruct (p x); simpl; lia.
Qed.

(** [restore] never writes over a file of the target directory. *)
Lemma restoreInto_frame (faults : Faults) (now : Z) (archiveName : string)
    (store : gmap string (gmap string SessionFile))
    (target : gmap string SessionFile) (name : string) (f : SessionFile) :
  target !! name = Some f ->
  snd (restoreInto faults now archiveName store target) !! name = Some f.
Proof.
  intros H. unfold restoreInto.
  destruct (store !! archiveName) as [bundle|]; [|exact H].
  destruct (endsWith archiveName ".tar.gz" && untar_fails faults); [exact H|].
  pose proof (copyBack_spec faults now (map_to_list bundle)
                (NoDup_fst_map_to_list bundle) target 0) as (H1 & _).
  destruct (copyBack faults now (map_to_list bundle) target 0) as [[c|msg] target'];
    simpl in *; apply H1, H.
Qed.

(** C5: whatever the bundle and the failures of the host, [restore]
    leaves every file that exists in the target directory as it is; when
    it returns, its report counts as skipped the files of the bundle whose
    name exists there and as restored the other ones; and it does return
    a report when the bundle is there and no extraction or copy fails. *)
Theorem restore_skips_existing :
  forall (faults : Faults) (now : Z) (archiveName : string)
         (store : gmap string (gmap string SessionFile))
         (target : gmap string SessionFile),
    let result := restoreInto faults now archiveName store target in
    (forall name f, target !! name = Some f -> snd result !! name = Some f)
    /\ (forall bundle report,
          store !! archiveName = Some bundle -> fst result = Ok report ->
          skipped report =
            Z.of_nat (length (List.filter (existsLive target) (map_to_list bundle)))
          /\ restored report =
            Z.of_nat (length (List.filter (fun e => negb (existsLive target e))
                                          (map_to_list bundle))))
    /\ (forall bundle,
          store !! archiveName = Some bundle ->
          untar_fails faults = false ->
          (forall name, copy_fails faults name = false) ->
          exists report, fst result = Ok report).
Proof.
  intros faults now archiveName store target result.
  split; [intros name f; apply restoreInto_frame|].
  unfold result, restoreInto. clear result.
  destruct (store !! archiveName) as [bundle|] eqn:Eb.
  2:{ split; intros b; intros; discriminate. }
  destruct (endsWith archiveName ".tar.gz" && untar_fails faults) eqn:Eu.
  { split.
    - intros b r _ Hr. discriminate Hr.
    - intros b _ Hu _. rewrite Hu, andb_false_r in Eu. discriminate Eu. }
  pose proof (copyBack_spec faults now (map_to_list bundle)
                (NoDup_fst_map_to_list bundle) target 0) as (_ & H2 & H3).
  destruct (copyBack faults now (map_to_list bundle) target 0) as [[c|msg] target'];
    simpl in *.
  - split.
    + intros b r Hb Hr. inversion Hb; inversion Hr; subst. simpl.
      rewrite (H2 c eq_refl).
      rewrite (filter_split_length (existsLive target) (map_to_list b)). lia.
    + eauto.
  - split.
    + intros b r _ Hr. discriminate Hr.
    + intros b _ _ Hc. destruct (H3 Hc) as [c Hc']. discriminate Hc'.
Qed.

Lemma restore_skips_existing_witness :
  let result :=
    restoreInto noFaults now0 "sessions-2026-01-01.tar.gz" archiveST liveS in
  snd result !! "S.json" = Some (rawFile hour 800)
  /\ fst result = Ok {| restored := 1; skipped := 1 |}.
Proof.
  pose proof (restore_skips_existing noFaults now0 "sessions-2026-01-01.tar.gz"
                archiveST liveS) as (Hframe & _ & _).
  split.
  - apply Hframe. reflexivity.
  - vm_compute. reflexivity.
Defined.

(** [restore] with the session directory as its target. *)
Corollary restore_keeps_live_sessions (faults : Faults) (now : Z)
    (archiveName : string) (w : World) (name : string) (f : SessionFile) :
  live w !! name = Some f ->
  live (snd (restore faults now archiveName w)) !! name = Some f.
Proof.
  intros H. unfold restore.
  pose proof (restoreInto_frame faults now archiveName (bundles w) (live w)
                name f H) as Hframe.
  destruct (restoreInto faults now archiveName (bundles w) (live w)) as [r t].
  exact Hframe.
Qed.

End RestoreClaims.

(** ** The cost estimate of the monitor *)

Module MonitorClaims.
Import JS Json Monitor Counted Examples.

Lemma content_counted (t : Z) (content : option json) :
  (if truthy content then
     t + match content with
         | Some (JStr s) => strlen s
         | _ => stringifiedLength content
         end
   else t) = t + contentLength content.
Proof.
  destruct content as [[| [|] | r | s | items | fields]|]; simpl; try lia.
  - destruct (String.eqb r "0"); simpl; lia.
  - destruct (String.eqb_spec s EmptyString) as [->|]; simpl; [|lia].
    unfold strlen. simpl. lia.
Qed.

Lemma tool_payload_counted (t : Z) (payload : option json) :
  (if truthy payload then t + stringifiedLength payload else t)
  = t + payloadLength payload.
Proof.
  destruct payload as [[| [|] | r | s | items | fields]|]; simpl; try lia.
  - destruct (String.eqb r "0"); simpl; lia.
  - destruct (String.eqb s EmptyString); simpl; lia.
Qed.

Lemma get_property (k : string) (v : json) :
  isNull v = false -> get k v = Some (Spec.property k v).
Proof. destruct v; simpl; congruence. Qed.

(** One turn of the loop adds the characters of the message. *)
Lemma countMessage_spec (t : Z) (message : json) :
  isNull message = false ->
  countMessage t message = Some (t + messageLength message).
Proof.
  intros H. unfold countMessage, messageLength.
  rewrite !(get_property _ _ H). simpl.
  rewrite content_counted, !tool_payload_counted. f_equal. lia.
Qed.

(** The loop throws at the first message that is [null]. *)
Lemma countMessages_spec (messages : list json) :
  forall t, countMessages t messages
            = if existsb isNull messages then None
              else Some (t + fold_right Z.add 0 (map messageLength messages)).
Proof.
  induction messages as [|m ms IH]; intros t; cbn [countMessages existsb map fold_right].
  - f_equal. lia.
  - destruct (isNull m) eqn:E.
    + destruct m; try discriminate E. reflexivity.
    + rewrite (countMessage_spec t m E). cbn [orb]. simpl. rewrite IH.
      destruct (existsb isNull ms); [reflexivity|]. f_equal. lia.
Qed.

Lemma countChars_spec (session : json) :
  countChars session
  = if unreadable session then None else Some (totalLength session).
Proof.
  unfold countChars, unreadable, totalLength.
  destruct (isNull session) eqn:E.
  { destruct session; try discriminate E. reflexivity. }
  rewrite (get_property _ _ E). cbn [orb]. simpl.
  unfold Spec.messagesOf.
  destruct (Spec.property "messages" session) as [[| b | r | s | items | fields]|];
    try reflexivity.
  apply (countMessages_spec items 0).
Qed.

Lemma plainContent_counted (payload : option json) :
  plainContent payload = true -> contentLength payload = Spec.payloadChars payload.
Proof.
  destruct payload as [[| [|] | r | s | items | fields]|]; simpl;
    try reflexivity; try discriminate.
  destruct (String.eqb r "0"); [discriminate|reflexivity].
Qed.

Lemma plainTool_counted (payload : option json) :
  plainTool payload = true -> payloadLength payload = Spec.payloadChars payload.
Proof.
  destruct payload as [[| [|] | r | s | items | fields]|]; simpl;
    try reflexivity; try discriminate.
  - destruct (String.eqb r "0"); [discriminate|reflexivity].
  - destruct (String.eqb_spec s EmptyString) as [->|]; [reflexivity|discriminate].
Qed.

Lemma plain_counted (session : json) :
  plain session = true -> totalLength session = Spec.totalChars session.
Proof.
  unfold plain, totalLength, Spec.totalChars.
  induction (Spec.messagesOf session) as [|m ms IH]; [reflexivity|].
  cbn [forallb map fold_right]. intros H. apply andb_true_iff in H.
  destruct H as [Hm Hms]. rewrite (IH Hms). f_equal.
  unfold plainMessage in Hm. apply andb_true_iff in Hm. destruct Hm as [Hm H3].
  apply andb_true_iff in Hm. destruct Hm as [H1 H2].
  unfold messageLength, Spec.messageChars.
  rewrite (plainContent_counted _ H1), (plainTool_counted _ H2),
    (plainTool_counted _ H3). reflexivity.
Qed.

(** A content that is [false] has a JSON text of 5 characters and counts
    for nothing in the code. *)
Lemma false_content_counts_nothing :
  countSessionTokens oddFiles "false.json" = 0
  /\ Spec.cost falseContent = 2.
Proof. split; reflexivity. Qed.

(** C8, as the code has it: the estimated cost of a file is the ceiling
    of a quarter of its size when the file does not parse, and also when
    it parses into a session on which a read throws, a session that is
    [null] or holds a message that is [null]. For any other parsed file
    it is the ceiling of a quarter of the characters the loop counts: the
    length of a content that is a text, the length of the JSON text of
    any other payload, nothing for a payload that is absent, [null],
    [false], [0] or empty. That is the sum of the character lengths of
    the payloads, the cost the specification words, when no payload is
    [false] or [0] and no tool payload is a text that is not empty. *)
Theorem token_estimate_as_counted :
  forall (dir : gmap string SessionFile) (sessionPath : string) (f : SessionFile),
    dir !! sessionPath = Some f ->
    let cost := countSessionTokens dir sessionPath in
    (parsed f = None -> cost = Math_ceil (inject_Z (size f) / 4))
    /\ (forall session,
          parsed f = Some session ->
          (unreadable session = true ->
           cost = Math_ceil (inject_Z (size f) / 4))
          /\ (unreadable session = false ->
              cost = Math_ceil (inject_Z (totalLength session) / 4))
          /\ (unreadable session = false -> plain session = true ->
              cost = Math_ceil (inject_Z (Spec.totalChars session) / 4)
              /\ cost = Spec.cost f)).
Proof.
  intros dir sessionPath f Hf cost. unfold cost, countSessionTokens.
  rewrite Hf. split.
  - intros Hp. rewrite Hp. reflexivity.
  - intros session Hp. rewrite Hp. cbn [mbind option_bind].
    rewrite (countChars_spec session). split; [|split].
    + intros Hu. rewrite Hu. reflexivity.
    + intros Hu. rewrite Hu. reflexivity.
    + intros Hu Hplain. rewrite Hu, (plain_counted session Hplain).
      unfold Spec.cost. rewrite Hp. split; reflexivity.
Qed.

Lemma token_estimate_as_counted_witness :
  countSessionTokens chats "chat.json" = Math_ceil (26 / 4)
  /\ countSessionTokens chats "raw.json" = Math_ceil (1001 / 4)
  /\ countSessionTokens oddFiles "null.json"
     = Math_ceil (inject_Z (size nullFirst) / 4).
Proof.
  split; [|split].
  - destruct (token_estimate_as_counted chats "chat.json" chatty eq_refl)
      as [_ H].
    destruct (H _ eq_refl) as (_ & _ & H3).
    destruct (H3 eq_refl eq_refl) as [H4 _]. exact H4.
  - destruct (token_estimate_as_counted chats "raw.json"
                (rawFile hour 1001) eq_refl) as [H _].
    apply H. reflexivity.
  - destruct (token_estimate_as_counted oddFiles "null.json" nullFirst eq_refl)
      as [_ H].
    destruct (H _ eq_refl) as (H1 & _). apply H1. reflexivity.
Defined.

(** C8, as stated, fails: a file that parses and holds [null] for its
    first message is not costed by the 5 characters of its payloads,
    which make 2, but by its size of 39 bytes, which makes 10. *)
Lemma parsed_file_costed_by_size_counterexample :
  (exists session, parsed nullFirst = Some session)
  /\ oddFiles !! "null.json" = Some nullFirst
  /\ size nullFirst = 39
  /\ Spec.totalChars (default JNull (parsed nullFirst)) = 5
  /\ Spec.cost nullFirst = 2
  /\ countSessionTokens oddFiles "null.json" = 10.
Proof.
  split; [eexists; reflexivity|].
  split; [reflexivity|]. split; [reflexivity|]. split; [reflexivity|].
  split; reflexivity.
Qed.

End MonitorClaims.

(** ** The thresholds of a configuration *)

Module ConfigClaims.
Import JS JSFacts ConfigManager Examples.

Lemma push_keeps (cond : bool) (message x : string) (errors : list string) :
  In x errors -> In x (push cond message errors).
Proof.
  unfold push. destruct cond; [|auto]. intros H. apply in_or_app. left. exact H.
Qed.

Lemma push_adds (message : string) (errors : list string) :
  In message (push true message errors).
Proof. unfold push. apply in_or_app. right. left. reflexivity. Qed.

Lemma valid_iff_no_errors (config : Config) :
  valid (validate config)
  = match errors (validate config) with [] => true | _ => false end.
Proof. reflexivity. Qed.

(** C6, as the code has it: [validate()] reports a configuration whose
    emergency threshold does not exceed its alert threshold as invalid,
    with the error that says so; constructing the configuration manager
    on such a configuration does not fail. *)
Theorem validate_reports_inverted_thresholds :
  forall (config : Config) (alert emergency : Q),
    alertThreshold config = Num alert ->
    emergencyThreshold config = Num emergency ->
    (emergency <= alert)%Q ->
    valid (validate config) = false
    /\ In "emergencyThreshold must be greater than alertThreshold"
          (errors (validate config))
    /\ constructor (Document config) = Ok config.
Proof.
  intros config alert emergency Ha He Hle.
  assert (Hin : In "emergencyThreshold must be greater than alertThreshold"
                   (errors (validate config))).
  { unfold validate. cbn [errors]. apply push_keeps.
    rewrite Ha, He. cbn [le].
    replace (Qle_bool emergency alert) with true
      by (symmetry; apply Qle_bool_iff; exact Hle).
    apply push_adds. }
  split; [|split; [exact Hin|reflexivity]].
  rewrite valid_iff_no_errors.
  destruct (errors (validate config)); [destruct Hin|reflexivity].
Qed.

Lemma validate_reports_inverted_thresholds_witness :
  (80 <= 90)%Q
  /\ valid (validate inverted) = false
  /\ In "emergencyThreshold must be greater than alertThreshold"
        (errors (validate inverted))
  /\ constructor (Document inverted) = Ok inverted.
Proof.
  assert (H : (80 <= 90)%Q) by qconst.
  split; [exact H|].
  exact (validate_reports_inverted_thresholds inverted 90 80 eq_refl eq_refl H).
Defined.

(** C6, as stated, fails: the constructor accepts a configuration whose
    emergency threshold (80) is under its alert threshold (90). *)
Lemma inverted_thresholds_accepted_counterexample :
  le (emergencyThreshold inverted) (alertThreshold inverted) = true
  /\ constructor (Document inverted) = Ok inverted.
Proof. split; reflexivity. Qed.

End ConfigClaims.

(** ** The timer of the watcher *)

Module WatcherClaims.
Import Watcher.

Lemma boot_singleTimer : singleTimer boot.
Proof. split; [reflexivity|]. simpl. split; [discriminate|congruence]. Qed.

Lemma react_singleTimer (config : Config) (a : Action) (rt rt' : Runtime) :
  singleTimer rt -> react config a rt = Some rt' -> singleTimer rt'.
Proof.
  intros Hs H. pose proof Hs as [Ht Hr].
  destruct a as [now| |id now|]; simpl in H.
  - inversion H; subst. clear H. unfold start.
    destruct (isRunning (watcher rt)) eqn:E; [exact Hs|].
    destruct (enabled config); simpl; [|exact Hs].
    assert (Hn : intervalId (watcher rt) = None).
    { destruct (intervalId (watcher rt)); [|reflexivity].
      destruct Hr as [_ Hr]. discriminate Hr. congruence. }
    rewrite Hn in Ht. split; simpl.
    + rewrite Ht. reflexivity.
    + split; congruence.
  - inversion H; subst. clear H. unfold stop.
    destruct (isRunning (watcher rt)) eqn:E; simpl; [|exact Hs].
    split; simpl.
    + destruct (intervalId (watcher rt)) as [id|]; [|exact Ht].
      rewrite Ht. simpl. rewrite Nat.eqb_refl. reflexivity.
    + split; [discriminate|congruence].
  - destruct (existsb (Nat.eqb id) (timers rt)); inversion H; subst.
    exact Hs.
  - destruct (inFlight rt); inversion H; subst. exact Hs.
Qed.

Lemma run_singleTimer (config : Config) (actions : list Action) :
  forall rt rt', singleTimer rt -> run config actions rt = Some rt' ->
                 singleTimer rt'.
Proof.
  induction actions as [|a actions IH]; intros rt rt' Hs H; simpl in H.
  - inversion H; subst. exact Hs.
  - destruct (react config a rt) as [rt1|] eqn:E; simpl in H; [|discriminate H].
    eapply IH; [|exact H]. eapply react_singleTimer; eauto.
Qed.

(** C7, as the code has it: however [start()], [stop()], the ticks and
    the ends of the checks follow one another, the watcher has a single
    active timer, and only while it runs; the ticks of that timer come at
    a fixed interval, whether or not a check is in flight: each one starts
    a further check. *)
Theorem watcher_single_timer_fixed_interval :
  forall (config : Config) (actions : list Action) (rt : Runtime),
    run config actions boot = Some rt ->
    singleTimer rt
    /\ (length (timers rt) <= 1)%nat
    /\ forall id now,
         intervalId (watcher rt) = Some id ->
         exists rt', react config (TimerFires id now) rt = Some rt'
                     /\ inFlight rt' = S (inFlight rt).
Proof.
  intros config actions rt H.
  pose proof (run_singleTimer config actions boot rt boot_singleTimer H) as Hs.
  split; [exact Hs|]. destruct Hs as [Ht _]. split.
  - rewrite Ht. destruct (intervalId (watcher rt)); simpl; lia.
  - intros id now Hid. simpl. rewrite Ht, Hid. simpl.
    rewrite Nat.eqb_refl. simpl. eauto.
Qed.

Lemma watcher_single_timer_fixed_interval_witness :
  exists rt,
    run defaultConfig [CallStart 0; CheckSettles; TimerFires 1 300000] boot = Some rt
    /\ singleTimer rt /\ (length (timers rt) <= 1)%nat.
Proof.
  eexists. split; [reflexivity|].
  pose proof (watcher_single_timer_fixed_interval defaultConfig
                [CallStart 0; CheckSettles; TimerFires 1 300000] _ eq_refl)
    as (H1 & H2 & _).
  split; [exact H1|exact H2].
Defined.

(** C7, as stated, fails: after [start()], the first tick of the timer
    starts a second check while the initial one has not settled, and two
    scans are in flight. *)
Lemma scans_overlap_counterexample :
  option_map inFlight
    (run defaultConfig [CallStart 0; TimerFires 1 300000] boot) = Some 2%nat.
Proof. reflexivity. Qed.

End WatcherClaims.

(** ** The importance score of the analyzer *)

Module AnalyzerClaims.
Import JS JSFacts Json Analyzer Examples.

Lemma clamp_range (x : Q) :
  (0 <= Math_min 100 (Math_max 0 x))%Q /\ (Math_min 100 (Math_max 0 x) <= 100)%Q.
Proof.
  unfold Math_min, Math_max.
  destruct (Qle_bool 0 x) eqn:E0.
  - apply Qle_bool_iff in E0.
    destruct (Qle_bool 100 x) eqn:E1.
    + split; [qconst|apply Qle_refl].
    + split; [exact E0|].
      apply Qlt_le_weak, Qltb_true. unfold Qltb. rewrite E1. reflexivity.
  - destruct (Qle_bool 100 0) eqn:E1; [vm_compute in E1; discriminate E1|].
    split; [apply Qle_refl|qconst].
Qed.

Lemma score_range (config : Config) (factors : Factors) :
  (0 <= _calculateImportanceScore config factors)%Q
  /\ (_calculateImportanceScore config factors <= 100)%Q.
Proof. unfold _calculateImportanceScore. apply clamp_range. Qed.

(** C10: whatever the weights, the factors and the session data, the
    importance score lies between 0 and 100, although the error rate is
    not bounded by 1: a message counts once for its text and once for each
    failed tool result, so that one message with two failed results has an
    error rate of 3, a penalty factor of -1/2, and a score clamped to 0. *)
Theorem importance_score_clamped :
  (forall (config : Config) (factors : Factors),
      (0 <= _calculateImportanceScore config factors)%Q
      /\ (_calculateImportanceScore config factors <= 100)%Q)
  /\ (forall (config : Config) (measured : Factors) (sessionData : json),
        (0 <= importanceScore config measured sessionData)%Q
        /\ (importanceScore config measured sessionData <= 100)%Q)
  /\ (exists rate : Q,
        _calculateErrorRate noisy = Some rate
        /\ (1 < rate)%Q
        /\ (1 - rate * (5 # 10) < 0)%Q
        /\ (importanceScore defaultConfig fifties noisy == 0)%Q).
Proof.
  split; [exact score_range|]. split.
  - intros config measured sessionData. unfold importanceScore.
    destruct (_calculateErrorRate sessionData); [|split; qconst].
    cbv zeta.
    destruct (get "messages" sessionData) as [[[| b | r | s | items | fields]|]|];
      try (split; qconst).
    + destruct (truthy (Some (JBool b))); [split; qconst|apply score_range].
    + destruct (truthy (Some (JNum r))); [split; qconst|apply score_range].
    + destruct (truthy (Some (JStr s))); [split; qconst|apply score_range].
    + destruct (forallb toolCallsRead items); [apply score_range|split; qconst].
  - exists 3%Q. split; [reflexivity|].
    split; [reflexivity|]. split; reflexivity.
Qed.

End AnalyzerClaims.

(** * Further properties *)

(** ** Lists without repeated keys *)

Module KeyFacts.

Section Keys.
Context {A K : Type} (key : A -> K).

Lemma same_key_same_element (l : list A) (x y : A) :
  NoDup (map key l) -> In x l -> In y l -> key x = key y -> x = y.
Proof.
  induction l as [|a l IH]; simpl; intros Hnd Hx Hy E; [contradiction|].
  inversion Hnd as [|? ? Hna Hnd']; subst. rewrite list_elem_of_In in Hna.
  destruct Hx as [->|Hx], Hy as [->|Hy]; auto.
  - exfalso. apply Hna. rewrite E. apply in_map, Hy.
  - exfalso. apply Hna. rewrite <- E. apply in_map, Hx.
Qed.

Lemma NoDup_keys_filter (p : A -> bool) (l : list A) :
  NoDup (map key l) -> NoDup (map key (List.filter p l)).
Proof.
  induction l as [|a l IH]; simpl; intros Hnd; [constructor|].
  inversion Hnd as [|? ? Hna Hnd']; subst. rewrite list_elem_of_In in Hna.
  destruct (p a); simpl; [|auto].
  constructor; [|auto]. rewrite list_elem_of_In. intros Hin. apply Hna.
  apply in_map_iff in Hin. destruct Hin as (x & Hk & Hx).
  apply filter_In in Hx. rewrite <- Hk. apply in_map. tauto.
Qed.

Lemma NoDup_keys_firstn (n : nat) (l : list A) :
  NoDup (map key l) -> NoDup (map key (firstn n l)).
Proof.
  revert n. induction l as [|a l IH]; intros [|n] Hnd; simpl; try constructor.
  - inversion Hnd as [|? ? Hna Hnd']; subst. rewrite list_elem_of_In in Hna.
    rewrite list_elem_of_In. intros Hin. apply Hna.
    apply in_map_iff in Hin. destruct Hin as (x & Hk & Hx).
    rewrite <- Hk. apply in_map. eapply PrunerFacts.In_firstn, Hx.
  - inversion Hnd; subst. auto.
Qed.

Lemma NoDup_keys_perm (l l' : list A) :
  Permutation l l' -> NoDup (map key l) -> NoDup (map key l').
Proof.
  intros Hp. apply (NoDup_Permutation_proper _ _ (Permutation_map key Hp)).
Qed.

Lemma NoDup_keys_sort (lt : A -> A -> bool) (l : list A) :
  NoDup (map key l) -> NoDup (map key (JS.sort lt l)).
Proof.
  apply NoDup_keys_perm. symmetry. apply JSFacts.sort_perm.
Qed.
End Keys.

End KeyFacts.

(** ** Pruner: how the strategies relate *)

Module StrategyFacts.
Import JS JSFacts Monitor Host Pruner PrunerFacts KeyFacts Examples.

Lemma push_missing_keeps (extra targets : list Session) (s : Session) :
  In s targets ->
  In s (fold_left
          (fun targets s =>
             if existsb (fun t => String.eqb (sessionId t) (sessionId s)) targets
             then targets else targets ++ [s])
          extra targets).
Proof.
  revert targets. induction extra as [|x extra IH]; intros targets H; simpl; [exact H|].
  apply IH. destruct (existsb _ targets); [exact H|].
  apply in_or_app. left. exact H.
Qed.

Lemma moderate_keeps_conservative config now sessions u s :
  In s (_conservativePrune config now sessions) ->
  In s (_moderatePrune config now sessions u).
Proof.
  intros H. unfold _moderatePrune.
  destruct (Qltb 80 u); [|exact H]. apply push_missing_keeps, H.
Qed.

Lemma moderate_low_utilization config now sessions u :
  (u <= 80)%Q -> _moderatePrune config now sessions u
                 = _conservativePrune config now sessions.
Proof.
  intros H. unfold _moderatePrune.
  apply Qltb_false in H. rewrite H. reflexivity.
Qed.

End StrategyFacts.

(** ** Pruner: further properties of the selection *)

Module SelectionExtras.
Import JS JSFacts Monitor Host Pruner PrunerFacts KeyFacts StrategyFacts Examples.

(** X1: every session the conservative strategy selects is selected by
    the moderate one, at any utilization; at a utilization of 80% or less
    the two selections are the same. *)
Theorem moderate_extends_conservative :
  forall (config : Config) (now : Z) (sessions : list Session) (u : Q),
    (forall s,
        In s (_selectPruneTargets config now sessions "conservative" u) ->
        In s (_selectPruneTargets config now sessions "moderate" u))
    /\ ((u <= 80)%Q ->
        _selectPruneTargets config now sessions "moderate" u
        = _selectPruneTargets config now sessions "conservative" u).
Proof.
  intros config now sessions u. unfold _selectPruneTargets.
  destruct (List.filter _ sessions) as [|p ps]; [split; auto|].
  change (String.eqb "conservative" "conservative") with true.
  change (String.eqb "moderate" "conservative") with false.
  change (String.eqb "moderate" "moderate") with true.
  cbv iota. split.
  - intros s. apply moderate_keeps_conservative.
  - apply moderate_low_utilization.
Qed.

Lemma Math_ceil_positive (x : Q) : (0 < x)%Q -> 1 <= Math_ceil x.
Proof.
  intros H. unfold Math_ceil.
  pose proof (Qle_ceiling x) as Hc.
  assert (Hp : (0 < inject_Z (Qceiling x))%Q) by (eapply Qlt_le_trans; eauto).
  unfold Qlt, inject_Z in Hp. simpl in Hp. lia.
Qed.

Lemma count_positive (n : nat) (f : Q) :
  (0 < n)%nat -> (0 < f)%Q -> 1 <= Math_ceil (inject_Z (Z.of_nat n) * f).
Proof.
  intros Hn Hf. apply Math_ceil_positive.
  apply Qmult_lt_0_compat; [|exact Hf].
  unfold Qlt, inject_Z. simpl. lia.
Qed.

Lemma prunePercent_positive (u : Q) : (0 < prunePercent u)%Q.
Proof.
  unfold prunePercent.
  destruct (Qltb 95 u); [|destruct (Qltb 90 u); [|destruct (Qltb 80 u)]]; qconst.
Qed.

Lemma firstn_head {A} (k : nat) (l : list A) :
  (0 < k)%nat -> l <> [] -> exists x, In x (firstn k l).
Proof.
  intros Hk Hl. destruct l as [|x l]; [congruence|].
  destruct k; [lia|]. exists x. left. reflexivity.
Qed.

Lemma push_missing_nonempty (extra targets : list Session) :
  extra <> [] ->
  exists t, In t (fold_left
                    (fun targets s =>
                       if existsb (fun t => String.eqb (sessionId t) (sessionId s)) targets
                       then targets else targets ++ [s])
                    extra targets).
Proof.
  destruct extra as [|x extra]; [congruence|]. intros _. simpl.
  destruct (existsb _ targets) eqn:E.
  - apply existsb_exists in E. destruct E as (t & Ht & _).
    exists t. apply push_missing_keeps, Ht.
  - exists x. apply push_missing_keeps. apply in_or_app. right. left. reflexivity.
Qed.

(** X2: as soon as one session is not protected, the aggressive strategy
    selects at least one session, whatever the utilization, even 0%; so
    does the moderate strategy above 80%. *)
Theorem ranked_strategies_evict_something :
  forall (config : Config) (now : Z) (sessions : list Session) (u : Q) (s : Session),
    In s sessions ->
    _isProtected config now s = false ->
    (exists t, In t (_selectPruneTargets config now sessions "aggressive" u))
    /\ ((80 < u)%Q ->
        exists t, In t (_selectPruneTargets config now sessions "moderate" u)).
Proof.
  intros config now sessions u s Hs Hp. unfold _selectPruneTargets.
  assert (Hin : In s (List.filter (fun s => negb (_isProtected config now s)) sessions)).
  { apply filter_In. rewrite Hp. auto. }
  destruct (List.filter _ sessions) as [|p ps] eqn:E; [destruct Hin|].
  change (String.eqb "aggressive" "conservative") with false.
  change (String.eqb "aggressive" "moderate") with false.
  change (String.eqb "aggressive" "aggressive") with true.
  change (String.eqb "moderate" "conservative") with false.
  change (String.eqb "moderate" "moderate") with true.
  cbv iota.
  assert (Hlen : (0 < length (_sortByPruneScore now (p :: ps)))%nat).
  { unfold _sortByPruneScore. rewrite sort_length. simpl. lia. }
  assert (Hne : _sortByPruneScore now (p :: ps) <> []).
  { intros H0. rewrite H0 in Hlen. simpl in Hlen. lia. }
  split.
  - unfold _aggressivePrune. apply firstn_head; [|exact Hne].
    pose proof (count_positive _ _ Hlen (prunePercent_positive u)). lia.
  - intros Hu. unfold _moderatePrune. apply Qltb_true in Hu. rewrite Hu.
    apply push_missing_nonempty.
    assert (Hk : 1 <= Math_ceil (inject_Z (Z.of_nat
                      (length (_sortByPruneScore now (p :: ps)))) * (25 # 100)))
      by (apply count_positive; [exact Hlen|qconst]).
    destruct (firstn_head (Z.to_nat (Math_ceil (inject_Z (Z.of_nat
                 (length (_sortByPruneScore now (p :: ps)))) * (25 # 100))))
                (_sortByPruneScore now (p :: ps))) as [x Hx]; [lia|exact Hne|].
    intros H0. rewrite H0 in Hx. destruct Hx.
Qed.

Lemma ranked_strategies_evict_something_witness :
  exists t, In t (_selectPruneTargets defaultConfig now0 four "aggressive" 0).
Proof.
  apply (ranked_strategies_evict_something defaultConfig now0 four 0
           (aged "a" (2 * day) 42500 2)).
  - left. reflexivity.
  - reflexivity.
Defined.

Lemma push_missing_NoDup (sessions extra targets : list Session) :
  NoDup (map path sessions) ->
  (forall s, In s extra -> In s sessions) ->
  (forall s, In s targets -> In s sessions) ->
  NoDup (map path targets) ->
  NoDup (map path
           (fold_left
              (fun targets s =>
                 if existsb (fun t => String.eqb (sessionId t) (sessionId s)) targets
                 then targets else targets ++ [s])
              extra targets)).
Proof.
  intros Hnd. revert targets.
  induction extra as [|x extra IH]; intros targets He Ht Hn; simpl; [exact Hn|].
  apply IH.
  - intros s Hs. apply He. right. exact Hs.
  - intros s Hs. destruct (existsb _ targets); [auto|].
    apply in_app_or in Hs. destruct Hs as [Hs|[<-|[]]]; [auto|].
    apply He. left. reflexivity.
  - destruct (existsb _ targets) eqn:E; [exact Hn|].
    rewrite map_app. simpl. apply NoDup_app. split; [exact Hn|]. split.
    + intros k Hk Hk'. apply list_elem_of_In in Hk, Hk'.
      destruct Hk' as [<-|[]].
      apply in_map_iff in Hk. destruct Hk as (t & Hpt & Hin).
      assert (t = x).
      { eapply (same_key_same_element path sessions); eauto.
        apply He. left. reflexivity. }
      subst t.
      assert (existsb (fun t => String.eqb (sessionId t) (sessionId x)) targets = true).
      { apply existsb_exists. exists x. split; [exact Hin|apply String.eqb_refl]. }
      congruence.
    + apply NoDup_singleton.
Qed.

(** When the paths of the sessions are distinct, as those of a snapshot
    are, no strategy selects a session twice. *)
Lemma selection_distinct :
  forall (config : Config) (now : Z) (sessions : list Session)
         (strategy : string) (u : Q),
    NoDup (map path sessions) ->
    NoDup (map path (_selectPruneTargets config now sessions strategy u)).
Proof.
  intros config now sessions strategy u Hnd. unfold _selectPruneTargets.
  pose proof (NoDup_keys_filter path (fun s => negb (_isProtected config now s))
                sessions Hnd) as Hp.
  destruct (List.filter _ sessions) as [|p ps]; [constructor|].
  set (prunable := p :: ps) in *.
  assert (Hmod : forall u, NoDup (map path (_moderatePrune config now prunable u))).
  { intros u'. unfold _moderatePrune. destruct (Qltb 80 u').
    - apply (push_missing_NoDup prunable).
      + exact Hp.
      + intros s Hs. apply In_firstn in Hs. apply sorted_subset in Hs. exact Hs.
      + intros s Hs. eapply conservative_subset, Hs.
      + apply NoDup_keys_filter, Hp.
    - apply NoDup_keys_filter, Hp. }
  destruct (String.eqb strategy "conservative");
    [apply NoDup_keys_filter, Hp|].
  destruct (String.eqb strategy "moderate"); [apply Hmod|].
  destruct (String.eqb strategy "aggressive").
  { unfold _aggressivePrune. apply NoDup_keys_firstn.
    unfold _sortByPruneScore. apply NoDup_keys_sort, Hp. }
  destruct (String.eqb strategy "emergency"); [apply NoDup_keys_filter, Hp|].
  apply Hmod.
Qed.

(** X3: when the keep-recent window is not longer than the maximum age,
    as in the default configuration, every session the conservative
    strategy selects is selected by the emergency strategy as well. *)
Theorem conservative_within_emergency :
  forall (config : Config) (now : Z) (sessions : list Session) (u : Q) (s : Session),
    keepRecentHours config <= maxSessionAge config * 24 ->
    In s (_selectPruneTargets config now sessions "conservative" u) ->
    In s (_selectPruneTargets config now sessions "emergency" u).
Proof.
  intros config now sessions u s Hc. unfold _selectPruneTargets.
  destruct (List.filter _ sessions) as [|p ps]; [auto|].
  change (String.eqb "conservative" "conservative") with true.
  change (String.eqb "emergency" "conservative") with false.
  change (String.eqb "emergency" "moderate") with false.
  change (String.eqb "emergency" "aggressive") with false.
  change (String.eqb "emergency" "emergency") with true.
  cbv iota. unfold _conservativePrune, _emergencyPrune.
  rewrite !filter_In, !Z.ltb_lt. intros [H1 H2]. split; [exact H1|]. lia.
Qed.

Lemma conservative_within_emergency_witness :
  In busyOld (_selectPruneTargets engagementOff now0 [busyOld] "emergency" 0).
Proof.
  apply (conservative_within_emergency engagementOff now0 [busyOld] 0 busyOld).
  - simpl. lia.
  - vm_compute. left. reflexivity.
Defined.

End SelectionExtras.

(** ** Pruner: the loop of [prune], the preview and the log *)

Module PruneFacts.
Import JS JSFacts Monitor Host Pruner Preview PrunerFacts StoreFacts KeyFacts.

Lemma getAllSessions_paths (l : list (string * SessionFile)) :
  NoDup (l.*1) ->
  NoDup (map filePath
           (omap (fun entry : string * SessionFile =>
                    let (file, stats) := entry in
                    if endsWith file ".json" then Some (infoOf file stats) else None)
                 l)).
Proof.
  induction l as [|[file f] l IH]; intros Hnd; [constructor|].
  apply NoDup_cons in Hnd. destruct Hnd as [Hfresh Hnd].
  cbn [omap list_omap]. destruct (endsWith file ".json"); [|auto].
  cbn [map filePath infoOf]. apply NoDup_cons. split; [|auto].
  rewrite list_elem_of_In, in_map_iff. intros (fi & Hk & Hin).
  apply list_elem_of_In, list_elem_of_omap in Hin.
  destruct Hin as ([file' f'] & Hin & Hs).
  destruct (endsWith file' ".json"); inversion Hs; subst. simpl in Hfresh.
  apply Hfresh. apply list_elem_of_fmap. exists (file', f'). auto.
Qed.

(** The sessions of a snapshot have distinct paths. *)
Lemma usage_paths_distinct (mcfg : Monitor.Config) (now : Z)
    (dir : gmap string SessionFile) :
  NoDup (map path (sessions (getContextUsage mcfg now dir))).
Proof.
  unfold getContextUsage. cbn [sessions]. apply NoDup_keys_sort.
  rewrite map_map. cbn [path sessionInfo].
  apply getAllSessions_paths, NoDup_fst_map_to_list.
Qed.

Lemma usage_session_present (mcfg : Monitor.Config) (now : Z)
    (dir : gmap string SessionFile) (s : Session) :
  In s (sessions (getContextUsage mcfg now dir)) ->
  is_Some (dir !! path s) /\ endsWith (path s) ".json" = true.
Proof.
  intros H. apply usage_sessions_spec in H.
  destruct H as (file & f & Hl & He & ->). simpl. eauto.
Qed.

(** When no [unlink] fails, the loop of [prune] removes every target. *)
Lemma prune_loop_succeeds (faults : Faults) (targets : list Session) :
  (forall s, In s targets -> unlink_fails faults (path s) = false) ->
  NoDup (map path targets) ->
  forall (results : Results) (w : World),
    (forall s, In s targets -> is_Some (live w !! path s)) ->
    let results' := fst (fold_left (pruneOne faults) targets (results, w)) in
    sessionsPruned results' = sessionsPruned results + Z.of_nat (length targets)
    /\ tokensFreed results'
       = fold_left (fun sum s => sum + tokenCount s) targets (tokensFreed results)
    /\ sessionsPreserved results' = sessionsPreserved results
    /\ prunedSessions results' = prunedSessions results ++ map entryOf targets.
Proof.
  intros Hok. induction targets as [|s targets IH]; intros Hnd results w Hpresent.
  - simpl. rewrite app_nil_r. repeat split; lia.
  - apply NoDup_cons in Hnd. destruct Hnd as [Hfresh Hnd].
    cbn [fold_left].
    destruct (Hpresent s (or_introl eq_refl)) as [f Hf].
    assert (E : pruneOne faults (results, w) s
                = ({| strategy := strategy results;
                      sessionsPruned := sessionsPruned results + 1;
                      tokensFreed := tokensFreed results + tokenCount s;
                      sessionsPreserved := sessionsPreserved results;
                      prunedSessions := prunedSessions results ++ [entryOf s] |},
                   {| live := delete (path s) (live w); bundles := bundles w;
                      index := index w; trace := trace w ++ [EvUnlink (path s)] |})).
    { unfold pruneOne, unlink. rewrite (Hok s (or_introl eq_refl)), Hf. reflexivity. }
    rewrite E.
    match goal with
    | |- context [fold_left _ targets (?r, ?w1)] =>
        specialize (IH (fun x Hx => Hok x (or_intror Hx)) Hnd r w1)
    end.
    cbn [live] in IH.
    assert (Hp : forall x, In x targets -> is_Some (delete (path s) (live w) !! path x)).
    { intros x Hx. rewrite lookup_delete_ne; [apply Hpresent; right; exact Hx|].
      intros Heq. apply Hfresh. rewrite Heq. apply list_elem_of_In, in_map, Hx. }
    specialize (IH Hp). cbv zeta in IH. destruct IH as (I1 & I2 & I3 & I4).
    cbn [sessionsPruned tokensFreed sessionsPreserved prunedSessions] in *.
    rewrite I1, I2, I3, I4. cbn [length map]. rewrite <- app_assoc.
    repeat split; try reflexivity. lia.
Qed.

End PruneFacts.

(** ** Pruner: what [prune] does to the directory *)

Module PruneExtras.
Import JS JSFacts Monitor Host Pruner Preview PrunerFacts StoreFacts KeyFacts
       SelectionExtras PruneFacts Examples.

(** X4: [dryRun(strategy)] previews [prune(strategy)]: when no removal
    fails, [prune] removes exactly the sessions the dry run lists, in the
    same order, and reports the same count, freed tokens and preserved
    count. *)
Theorem dryRun_previews_prune :
  forall (faults : Faults) (mcfg : Monitor.Config) (config : Pruner.Config)
         (now : Z) (strategy : string) (w : World),
    (forall p, unlink_fails faults p = false) ->
    let preview := dryRun mcfg config now strategy w in
    let result := prune faults mcfg config now strategy w in
    sessionsPruned (fst result) = wouldPrune preview
    /\ tokensFreed (fst result) = wouldFreeTokens preview
    /\ sessionsPreserved (fst result) = wouldKeep preview
    /\ map pruned_id (prunedSessions (fst result))
       = map preview_id (dry_sessions preview)
    /\ forall s, In s (_selectPruneTargets config now
                         (sessions (getContextUsage mcfg now (live w))) strategy
                         (utilizationPercent (getContextUsage mcfg now (live w)))) ->
                 live (snd result) !! path s = None.
Proof.
  intros faults mcfg config now strategy w Hok preview result.
  set (usage := getContextUsage mcfg now (live w)).
  set (targets := _selectPruneTargets config now (sessions usage) strategy
                    (utilizationPercent usage)).
  assert (Hnd : NoDup (map path targets)).
  { apply selection_distinct. apply usage_paths_distinct. }
  assert (Hpresent : forall s, In s targets -> is_Some (live w !! path s)).
  { intros s Hs. apply selected_unprotected in Hs. destruct Hs as [Hs _].
    apply usage_session_present in Hs. tauto. }
  pose proof (prune_loop_succeeds faults targets (fun s _ => Hok (path s)) Hnd
                {| strategy := strategy; sessionsPruned := 0; tokensFreed := 0;
                   sessionsPreserved :=
                     Z.of_nat (length (sessions usage)) - Z.of_nat (length targets);
                   prunedSessions := [] |} w Hpresent) as H.
  cbv zeta in H. destruct H as (H1 & H2 & H3 & H4).
  unfold result, preview, prune, dryRun. fold usage. fold targets.
  cbn [wouldPrune wouldFreeTokens wouldKeep dry_sessions].
  cbn [sessionsPruned tokensFreed sessionsPreserved prunedSessions] in *.
  rewrite H1, H2, H3, H4. cbn [app].
  split; [lia|]. split; [reflexivity|]. split; [reflexivity|]. split.
  - rewrite !map_map. reflexivity.
  - intros s Hs. rewrite prune_loop_live.
    assert (E : existsb (fun t => String.eqb (path t) (path s)
                                  && negb (unlink_fails faults (path t))) targets
                = true).
    { apply existsb_exists. exists s. split; [exact Hs|].
      rewrite String.eqb_refl, Hok. reflexivity. }
    rewrite E. reflexivity.
Qed.

Lemma dryRun_previews_prune_witness :
  sessionsPruned (fst (prune noFaults Monitor.defaultConfig Pruner.defaultConfig
                             now0 "aggressive" at85))
  = wouldPrune (dryRun Monitor.defaultConfig Pruner.defaultConfig now0
                       "aggressive" at85).
Proof.
  exact (proj1 (dryRun_previews_prune noFaults Monitor.defaultConfig
                  Pruner.defaultConfig now0 "aggressive" at85
                  (fun _ => eq_refl))).
Defined.

(** X5: whatever the strategy and whatever fails, [prune] leaves the file
    of every protected session of the snapshot, and every file that is
    not a [.json] file, as they are. *)
Theorem prune_spares_protected_files :
  forall (faults : Faults) (mcfg : Monitor.Config) (config : Pruner.Config)
         (now : Z) (strategy : string) (w : World),
    let after := live (snd (prune faults mcfg config now strategy w)) in
    (forall s, In s (sessions (getContextUsage mcfg now (live w))) ->
               _isProtected config now s = true ->
               after !! path s = live w !! path s)
    /\ (forall file, endsWith file ".json" = false ->
                     after !! file = live w !! file).
Proof.
  intros faults mcfg config now strategy w after.
  set (usage := getContextUsage mcfg now (live w)).
  set (targets := _selectPruneTargets config now (sessions usage) strategy
                    (utilizationPercent usage)).
  assert (Hkeep : forall file,
             (forall t, In t targets -> path t <> file) ->
             after !! file = live w !! file).
  { intros file Hne. unfold after, prune. rewrite prune_loop_live.
    fold usage. fold targets.
    destruct (existsb _ targets) eqn:E; [|reflexivity].
    apply existsb_exists in E. destruct E as (t & Ht & Heq).
    apply andb_true_iff in Heq. destruct Heq as [Heq _].
    apply String.eqb_eq in Heq. destruct (Hne t Ht Heq). }
  split.
  - intros s Hs Hp. apply Hkeep. intros t Ht Heq.
    apply selected_unprotected in Ht. destruct Ht as [Ht Hu].
    assert (t = s).
    { eapply (same_key_same_element path (sessions usage)); eauto.
      apply usage_paths_distinct. }
    subst t. congruence.
  - intros file Hf. apply Hkeep. intros t Ht Heq.
    apply selected_unprotected in Ht. destruct Ht as [Ht _].
    apply usage_session_present in Ht. destruct Ht as [_ Ht].
    rewrite Heq in Ht. congruence.
Qed.

Lemma prune_loop_counts (faults : Faults) (targets : list Session) :
  forall (results : Results) (w : World),
    sessionsPruned results = Z.of_nat (length (prunedSessions results)) ->
    tokensFreed results
    = fold_right Z.add 0 (map pruned_tokens (prunedSessions results)) ->
    let results' := fst (fold_left (pruneOne faults) targets (results, w)) in
    let w' := snd (fold_left (pruneOne faults) targets (results, w)) in
    sessionsPruned results' = Z.of_nat (length (prunedSessions results'))
    /\ tokensFreed results'
       = fold_right Z.add 0 (map pruned_tokens (prunedSessions results'))
    /\ sessionsPruned results <= sessionsPruned results'
       <= sessionsPruned results + Z.of_nat (length targets)
    /\ Z.of_nat (base.size (live w'))
       = Z.of_nat (base.size (live w))
         - (sessionsPruned results' - sessionsPruned results).
Proof.
  induction targets as [|s targets IH]; intros results w H1 H2.
  - simpl. repeat split; try assumption; lia.
  - cbn [fold_left].
    destruct (pruneOne faults (results, w) s) as [r1 w1] eqn:E.
    unfold pruneOne, unlink in E.
    destruct (unlink_fails faults (path s)).
    { inversion E; subst. specialize (IH r1 w1 H1 H2). cbv zeta in IH.
      destruct IH as (I1 & I2 & I3 & I4). cbn [length].
      repeat split; try assumption; lia. }
    destruct (live w !! path s) as [f|] eqn:El.
    2:{ inversion E; subst. specialize (IH r1 w1 H1 H2). cbv zeta in IH.
        destruct IH as (I1 & I2 & I3 & I4). cbn [length].
        repeat split; try assumption; lia. }
    inversion E; subst. clear E.
    match goal with
    | |- context [fold_left _ targets (?r, ?w1)] => specialize (IH r w1)
    end.
    cbn [sessionsPruned tokensFreed prunedSessions live] in IH.
    assert (Hs : base.size (delete (path s) (live w)) = Init.Nat.pred (base.size (live w))).
    { apply map_size_delete_Some. eauto. }
    assert (Hpos : (0 < base.size (live w))%nat).
    { destruct (base.size (live w)) eqn:Ez; [|lia].
      apply map_size_empty_inv in Ez. rewrite Ez, lookup_empty in El.
      discriminate El. }
    assert (J1 : sessionsPruned results + 1
                 = Z.of_nat (length (prunedSessions results ++
                      [{| pruned_id := sessionId s; pruned_tokens := tokenCount s;
                          pruned_messages := messageCount s |}]))).
    { rewrite length_app. simpl. lia. }
    assert (J2 : tokensFreed results + tokenCount s
                 = fold_right Z.add 0
                     (map pruned_tokens (prunedSessions results ++
                        [{| pruned_id := sessionId s; pruned_tokens := tokenCount s;
                            pruned_messages := messageCount s |}]))).
    { rewrite map_app, fold_right_app. simpl. rewrite H2.
      generalize (map pruned_tokens (prunedSessions results)).
      intros l. induction l as [|x l IHl]; simpl; lia. }
    specialize (IH J1 J2). cbv zeta in IH. destruct IH as (I1 & I2 & I3 & I4).
    cbn [length]. rewrite Hs in I4.
    repeat split; try assumption; lia.
Qed.

Lemma prune_loop_preserved (faults : Faults) (targets : list Session) :
  forall (results : Results) (w : World),
    sessionsPreserved (fst (fold_left (pruneOne faults) targets (results, w)))
    = sessionsPreserved results.
Proof.
  induction targets as [|t ts IH]; intros r w; [reflexivity|].
  cbn [fold_left]. destruct (pruneOne faults (r, w) t) as [r1 w1] eqn:E.
  rewrite IH. unfold pruneOne in E.
  destruct (unlink faults (path t) w); inversion E; reflexivity.
Qed.

(** X6: whatever the strategy and whatever fails, the report of [prune]
    adds up: it counts the sessions it lists as pruned and the sum of
    their tokens, the count is at most the number of sessions that are
    not preserved, and the directory holds that many files less. *)
Theorem prune_report_adds_up :
  forall (faults : Faults) (mcfg : Monitor.Config) (config : Pruner.Config)
         (now : Z) (strategy : string) (w : World),
    let result := prune faults mcfg config now strategy w in
    let before := Z.of_nat (length (sessions (getContextUsage mcfg now (live w)))) in
    sessionsPruned (fst result) = Z.of_nat (length (prunedSessions (fst result)))
    /\ tokensFreed (fst result)
       = fold_right Z.add 0 (map pruned_tokens (prunedSessions (fst result)))
    /\ 0 <= sessionsPruned (fst result) <= before - sessionsPreserved (fst result)
    /\ Z.of_nat (base.size (live (snd result)))
       = Z.of_nat (base.size (live w)) - sessionsPruned (fst result).
Proof.
  intros faults mcfg config now strategy w result before.
  set (usage := getContextUsage mcfg now (live w)) in *.
  set (targets := _selectPruneTargets config now (sessions usage) strategy
                    (utilizationPercent usage)).
  pose proof (prune_loop_counts faults targets
                {| strategy := strategy; sessionsPruned := 0; tokensFreed := 0;
                   sessionsPreserved :=
                     Z.of_nat (length (sessions usage)) - Z.of_nat (length targets);
                   prunedSessions := [] |} w eq_refl eq_refl) as H.
  cbv zeta in H. destruct H as (H1 & H2 & H3 & H4).
  assert (Hp : sessionsPreserved (fst result)
               = Z.of_nat (length (sessions usage)) - Z.of_nat (length targets)).
  { unfold result, prune. fold usage. fold targets.
    apply prune_loop_preserved. }
  unfold result, prune in *. fold usage in Hp |- *. fold targets in Hp |- *.
  cbn [sessionsPruned] in H3, H4.
  repeat split; try assumption; unfold before; lia.
Qed.

Lemma logPrune_last (now : Z) (strategy : string) (pruneLog : list LogEntry)
    (session : Session) :
  (length pruneLog <= 100)%nat ->
  _logPrune now strategy pruneLog session
  = skipn (length (pruneLog ++ [logEntry now strategy session]) - 100)
          (pruneLog ++ [logEntry now strategy session]).
Proof.
  intros Hlen. unfold _logPrune.
  set (l := pruneLog ++ [logEntry now strategy session]).
  assert (Hl : length l = S (length pruneLog))
    by (unfold l; rewrite length_app; simpl; lia).
  destruct (Nat.ltb_spec 100 (length l)) as [H|H].
  - replace (length l - 100)%nat with 1%nat by lia.
    destruct l; reflexivity.
  - replace (length l - 100)%nat with 0%nat by lia. reflexivity.
Qed.

(** X7: the prune log holds the last 100 entries, in order: after any
    number of calls of [_logPrune] on a log of at most 100 entries, the
    log is the end of the old log followed by the new entries, cut to its
    last 100. *)
Theorem prune_log_keeps_last_hundred :
  forall (now : Z) (strategy : string) (sessions : list Session)
         (pruneLog : list LogEntry),
    (length pruneLog <= 100)%nat ->
    let all := pruneLog ++ map (logEntry now strategy) sessions in
    let pruneLog' := fold_left (_logPrune now strategy) sessions pruneLog in
    pruneLog' = skipn (length all - 100) all
    /\ (length pruneLog' <= 100)%nat.
Proof.
  intros now strategy sessions.
  induction sessions as [|s sessions IH]; intros pruneLog Hlen all pruneLog'.
  - unfold all, pruneLog'. simpl. rewrite app_nil_r.
    replace (length pruneLog - 100)%nat with 0%nat by lia. auto.
  - unfold pruneLog'. cbn [fold_left].
    pose proof (logPrune_last now strategy pruneLog s Hlen) as E.
    set (X := pruneLog ++ [logEntry now strategy s]) in *.
    assert (HX : length X = S (length pruneLog))
      by (unfold X; rewrite length_app; simpl; lia).
    assert (Hlen1 : (length (_logPrune now strategy pruneLog s) <= 100)%nat).
    { rewrite E, length_skipn. lia. }
    specialize (IH _ Hlen1). cbv zeta in IH. destruct IH as [IH1 IH2].
    split; [|exact IH2]. rewrite IH1, E.
    set (R := map (logEntry now strategy) sessions).
    assert (Hall : all = X ++ R).
    { unfold all, X, R. cbn [map]. rewrite <- app_assoc. reflexivity. }
    rewrite Hall.
    assert (Hd : skipn (length X - 100) X ++ R = skipn (length X - 100) (X ++ R)).
    { rewrite skipn_app.
      replace (length X - 100 - length X)%nat with 0%nat by lia. reflexivity. }
    rewrite Hd, skipn_skipn. f_equal.
    rewrite length_skipn, !length_app. lia.
Qed.

Lemma prune_log_keeps_last_hundred_witness :
  fold_left (_logPrune now0 "moderate") four []
  = map (logEntry now0 "moderate") four.
Proof.
  exact (proj1 (prune_log_keeps_last_hundred now0 "moderate" four []
                  (Nat.le_0_l 100))).
Defined.

End PruneExtras.

(** ** Doubles: what rounding keeps *)

Module DoubleFacts.
Import JS.




End DoubleFacts.

(** ** Monitor: the snapshot and what is asked of it *)

Module MonitorExtras.
Import JS JSFacts DoubleFacts Monitor MonitorQueries StoreFacts Examples.

Lemma sum_fold_left (l : list Session) (acc : Z) :
  fold_left (fun acc s => acc + tokenCount s) l acc
  = acc + fold_right Z.add 0 (map tokenCount l).
Proof.
  revert acc. induction l as [|s l IH]; intros acc; simpl; [lia|].
  rewrite IH. lia.
Qed.

Lemma sum_perm (l l' : list Session) :
  Permutation l l' ->
  fold_right Z.add 0 (map tokenCount l) = fold_right Z.add 0 (map tokenCount l').
Proof.
  induction 1; simpl; lia.
Qed.

Lemma omap_filter_length {A B} (f : A -> option B) (p : A -> bool) (l : list A) :
  (forall x, p x = match f x with Some _ => true | None => false end) ->
  length (omap f l) = length (List.filter p l).
Proof.
  intros H. induction l as [|x l IH]; [reflexivity|].
  cbn [omap list_omap List.filter]. rewrite (H x).
  destruct (f x); simpl; rewrite IH; reflexivity.
Qed.

Lemma snapshot_length (mcfg : Monitor.Config) (now : Z)
    (dir : gmap string SessionFile) :
  length (sessions (getContextUsage mcfg now dir))
  = length (List.filter (fun entry : string * SessionFile =>
                           endsWith (fst entry) ".json")
                        (map_to_list dir)).
Proof.
  unfold getContextUsage. cbn [sessions].
  rewrite sort_length, length_map. unfold getAllSessions.
  apply omap_filter_length. intros [file f]. simpl.
  destruct (endsWith file ".json"); reflexivity.
Qed.

(** X8: a snapshot holds one session for each [.json] file of the
    directory, in the order of their token counts, largest first, and its
    [currentTokens] is the sum of their token counts. *)
Theorem snapshot_totals :
  forall (mcfg : Monitor.Config) (now : Z) (dir : gmap string SessionFile),
    let usage := getContextUsage mcfg now dir in
    currentTokens usage = fold_right Z.add 0 (map tokenCount (sessions usage))
    /\ StronglySorted (fun a b => tokenCount b <= tokenCount a) (sessions usage)
    /\ length (sessions usage)
       = length (List.filter (fun entry : string * SessionFile =>
                                endsWith (fst entry) ".json")
                             (map_to_list dir)).
Proof.
  intros mcfg now dir usage. unfold usage, getContextUsage.
  cbn [currentTokens sessions]. split; [|split].
  - rewrite sum_fold_left. simpl. apply sum_perm. symmetry. apply sort_perm.
  - apply sort_sorted.
    + intros x y z. lia.
    + intros x y H. apply Z.ltb_lt in H. lia.
    + intros x y H. apply Z.ltb_ge in H. lia.
  - apply (snapshot_length mcfg now dir).
Qed.




End MonitorExtras.

(** ** Emergency cleanup: what [execute] removes and reports *)

Module EmergencyFacts.
Import JS JSFacts Monitor Host StoreFacts KeyFacts PruneFacts MonitorExtras.

Lemma filter_perm_length {A} (p : A -> bool) (l l' : list A) :
  Permutation l l' -> length (List.filter p l) = length (List.filter p l').
Proof.
  induction 1; simpl; try congruence.
  - destruct (p x); simpl; congruence.
  - destruct (p x), (p y); reflexivity.
Qed.

(** Removing a [.json] file takes one session off the snapshot. *)
Lemma snapshot_length_delete (mcfg : Monitor.Config) (now : Z)
    (dir : gmap string SessionFile) (p : string) (f : SessionFile) :
  dir !! p = Some f -> endsWith p ".json" = true ->
  S (length (sessions (getContextUsage mcfg now (delete p dir))))
  = length (sessions (getContextUsage mcfg now dir)).
Proof.
  intros Hl He. rewrite !snapshot_length.
  rewrite <- (filter_perm_length _ _ _ (map_to_list_delete dir p f Hl)).
  simpl. rewrite He. reflexivity.
Qed.

Lemma existsb_false {A} (p : A -> bool) (l : list A) :
  (forall x, In x l -> p x = false) -> existsb p l = false.
Proof.
  intros H. destruct (existsb p l) eqn:E; [|reflexivity].
  apply existsb_exists in E. destruct E as (x & Hx & Hp).
  rewrite (H x Hx) in Hp. discriminate Hp.
Qed.

(** The loop of step 3 removes from the directory the sessions that match
    no kept session and whose [unlink] does not fail, and nothing else. *)
Lemma deleteOther_live (faults : Faults) (toKeep sessions : list Session)
    (p : string) :
  forall (acc : Z * Z * World),
    live (snd (fold_left (Emergency.deleteOther faults toKeep) sessions acc)) !! p =
    if existsb (fun s =>
                  String.eqb (path s) p
                  && negb (existsb (fun k => String.eqb (sessionId k) (sessionId s))
                                   toKeep)
                  && negb (unlink_fails faults (path s))) sessions
    then None else live (snd acc) !! p.
Proof.
  induction sessions as [|s sessions IH]; intros [[d t] w]; [reflexivity|].
  cbn [fold_left existsb].
  destruct (Emergency.deleteOther faults toKeep (d, t, w) s) as [[d' t'] w'] eqn:E.
  rewrite IH. cbn [snd]. unfold Emergency.deleteOther, unlink in E.
  destruct (existsb (fun k => String.eqb (sessionId k) (sessionId s)) toKeep).
  { inversion E; subst. rewrite andb_false_r. reflexivity. }
  destruct (unlink_fails faults (path s)).
  { inversion E; subst. rewrite andb_false_r. reflexivity. }
  rewrite !andb_true_r.
  destruct (live w !! path s) as [f|] eqn:El; inversion E; subst; cbn [live orb].
  - destruct (existsb _ sessions); [destruct (String.eqb _ _); reflexivity|].
    destruct (String.eqb_spec (path s) p) as [Heq|Hne]; cbn [orb].
    + rewrite <- Heq. apply lookup_delete_eq.
    + apply lookup_delete_ne. exact Hne.
  - destruct (existsb _ sessions); [destruct (String.eqb _ _); reflexivity|].
    destruct (String.eqb_spec (path s) p) as [Heq|Hne]; cbn [orb].
    + rewrite <- Heq. exact El.
    + reflexivity.
Qed.

(** Whatever fails, each removal takes one file off the directory and one
    session off the snapshot, and the count is that of the removals. *)
Lemma deleteOther_counts (faults : Faults) (mcfg : Monitor.Config) (now : Z)
    (toKeep sessions : list Session) :
  (forall s, In s sessions -> endsWith (path s) ".json" = true) ->
  forall (d t : Z) (w : World),
    let result := fold_left (Emergency.deleteOther faults toKeep) sessions (d, t, w) in
    d <= fst (fst result)
      <= d + Z.of_nat
               (length (List.filter
                          (fun s => negb (existsb (fun k => String.eqb (sessionId k)
                                                                       (sessionId s))
                                                  toKeep))
                          sessions))
    /\ Z.of_nat (length (Monitor.sessions (getContextUsage mcfg now (live (snd result)))))
       = Z.of_nat (length (Monitor.sessions (getContextUsage mcfg now (live w))))
         - (fst (fst result) - d)
    /\ Z.of_nat (base.size (live (snd result)))
       = Z.of_nat (base.size (live w)) - (fst (fst result) - d).
Proof.
  induction sessions as [|s sessions IH]; intros Hjson d t w.
  { cbn [fold_left fst snd List.filter length]. repeat split; lia. }
  assert (Hrest : forall x, In x sessions -> endsWith (path x) ".json" = true).
  { intros x Hx. apply Hjson. right. exact Hx. }
  specialize (IH Hrest). cbv zeta in *. cbn [fold_left List.filter].
  destruct (Emergency.deleteOther faults toKeep (d, t, w) s) as [[d1 t1] w1] eqn:E.
  unfold Emergency.deleteOther, unlink in E.
  destruct (existsb (fun k => String.eqb (sessionId k) (sessionId s)) toKeep);
    cbn [negb].
  { inversion E; subst. apply IH. }
  cbn [length]. specialize (IH d1 t1 w1). destruct IH as (I1 & I2 & I3).
  destruct (unlink_fails faults (path s)).
  { inversion E; subst. repeat split; lia. }
  destruct (live w !! path s) as [f|] eqn:El.
  2:{ inversion E; subst. repeat split; lia. }
  inversion E; subst. clear E. cbn [live] in I2, I3.
  pose proof (snapshot_length_delete mcfg now (live w) (path s) f El
                (Hjson s (or_introl eq_refl))) as Hsn.
  assert (Hs : base.size (delete (path s) (live w))
               = Init.Nat.pred (base.size (live w))).
  { apply map_size_delete_Some. eauto. }
  assert (Hpos : (0 < base.size (live w))%nat).
  { destruct (base.size (live w)) eqn:Ez; [|lia].
    apply map_size_empty_inv in Ez. rewrite Ez, lookup_empty in El.
    discriminate El. }
  repeat split; lia.
Qed.

(** When no [unlink] fails, the loop removes every session that matches
    no kept session. *)
Lemma deleteOther_succeeds (faults : Faults) (toKeep sessions : list Session) :
  (forall s, In s sessions -> unlink_fails faults (path s) = false) ->
  NoDup (map path sessions) ->
  forall (d t : Z) (w : World),
    (forall s, In s sessions -> is_Some (live w !! path s)) ->
    fst (fold_left (Emergency.deleteOther faults toKeep) sessions (d, t, w))
    = (d + Z.of_nat
             (length (List.filter
                        (fun s => negb (existsb (fun k => String.eqb (sessionId k)
                                                                     (sessionId s))
                                                toKeep))
                        sessions)),
       fold_left (fun sum s => sum + tokenCount s)
                 (List.filter
                    (fun s => negb (existsb (fun k => String.eqb (sessionId k)
                                                                 (sessionId s))
                                            toKeep))
                    sessions)
                 t).
Proof.
  intros Hok. induction sessions as [|s sessions IH]; intros Hnd d t w Hpresent.
  { cbn [fold_left fst List.filter length]. f_equal. lia. }
  apply NoDup_cons in Hnd. destruct Hnd as [Hfresh Hnd].
  specialize (IH (fun x Hx => Hok x (or_intror Hx)) Hnd).
  cbn [fold_left List.filter].
  destruct (Emergency.deleteOther faults toKeep (d, t, w) s) as [[d1 t1] w1] eqn:E.
  unfold Emergency.deleteOther, unlink in E.
  destruct (existsb (fun k => String.eqb (sessionId k) (sessionId s)) toKeep);
    cbn [negb].
  { inversion E; subst. apply IH. intros x Hx. apply Hpresent. right. exact Hx. }
  rewrite (Hok s (or_introl eq_refl)) in E.
  destruct (Hpresent s (or_introl eq_refl)) as [f Hf]. rewrite Hf in E.
  inversion E; subst. clear E. rewrite IH.
  - cbn [length fold_left]. f_equal. lia.
  - intros x Hx. cbn [live]. rewrite lookup_delete_ne.
    + apply Hpresent. right. exact Hx.
    + intros Heq. apply Hfresh. rewrite Heq. apply list_elem_of_In, in_map, Hx.
Qed.

(** The kept sessions are sessions of the snapshot with distinct paths. *)
Lemma sessionsToKeep_subset (config : Emergency.Config) (now : Z)
    (sessions : list Session) (k : Session) :
  In k (Emergency.sessionsToKeep config now sessions) ->
  In k sessions
  /\ (now - lastActive k <? Emergency.keepRecentHours config * 60 * 60 * 1000) = true.
Proof.
  unfold Emergency.sessionsToKeep, slice0. intros H.
  assert (Hs : In k (sort (fun a b => lastActive b <? lastActive a)
                          (List.filter
                             (fun s => now - lastActive s
                                       <? Emergency.keepRecentHours config * 60 * 60 * 1000)
                             sessions))).
  { destruct (0 <=? Emergency.keepMinimumSessions config);
      eapply PrunerFacts.In_firstn; exact H. }
  apply sort_In, filter_In in Hs. exact Hs.
Qed.

Lemma sessionsToKeep_distinct (config : Emergency.Config) (now : Z)
    (sessions : list Session) :
  NoDup (map path sessions) ->
  NoDup (map path (Emergency.sessionsToKeep config now sessions)).
Proof.
  intros H. unfold Emergency.sessionsToKeep, slice0.
  destruct (0 <=? Emergency.keepMinimumSessions config);
    apply NoDup_keys_firstn, NoDup_keys_sort, NoDup_keys_filter, H.
Qed.

Lemma kept_matches_itself (toKeep : list Session) (k : Session) :
  In k toKeep ->
  existsb (fun x => String.eqb (sessionId x) (sessionId k)) toKeep = true.
Proof.
  intros H. apply existsb_exists. exists k. split; [exact H|].
  apply String.eqb_refl.
Qed.

(** A kept session is not among the sessions the loop removes. *)
Lemma kept_survives (faults : Faults) (toKeep sessions : list Session)
    (s : Session) :
  NoDup (map path sessions) -> In s sessions -> In s toKeep ->
  existsb (fun x =>
             String.eqb (path x) (path s)
             && negb (existsb (fun k => String.eqb (sessionId k) (sessionId x)) toKeep)
             && negb (unlink_fails faults (path x))) sessions = false.
Proof.
  intros Hnd Hs Hk. apply existsb_false. intros x Hx.
  destruct (String.eqb_spec (path x) (path s)) as [Heq|Hne]; [|reflexivity].
  assert (x = s) as ->
    by (apply (same_key_same_element path sessions); assumption).
  rewrite (kept_matches_itself toKeep s Hk). reflexivity.
Qed.

(** The kept sessions and the sessions to delete do not use up more than
    the snapshot. *)
Lemma kept_and_deleted_fit (config : Emergency.Config) (now : Z)
    (sessions : list Session) :
  NoDup (map path sessions) ->
  let toKeep := Emergency.sessionsToKeep config now sessions in
  (length toKeep
   + length (List.filter
               (fun s => negb (existsb (fun k => String.eqb (sessionId k) (sessionId s))
                                       toKeep))
               sessions)
   <= length sessions)%nat.
Proof.
  intros Hnd toKeep.
  rewrite (RestoreClaims.filter_split_length
             (fun s => existsb (fun k => String.eqb (sessionId k) (sessionId s)) toKeep)
             sessions).
  apply Nat.add_le_mono_r.
  apply submseteq_length, NoDup_submseteq.
  - apply (NoDup_fmap_1 path). apply sessionsToKeep_distinct, Hnd.
  - intros k Hk. apply list_elem_of_In in Hk. apply list_elem_of_In, filter_In.
    split.
    + apply sessionsToKeep_subset in Hk. tauto.
    + apply kept_matches_itself, Hk.
Qed.

End EmergencyFacts.

Module EmergencyExtras.
Import JS JSFacts Monitor Host StoreFacts KeyFacts PruneFacts EmergencyFacts Examples.

(** X10: the emergency cleanup keeps the order archive-then-delete
    whatever fails: on a trace where every removal so far followed a
    bundle holding the file, the trace after [execute] is still such a
    trace; and when its archive fails, [execute] removes nothing, writes
    nothing to the trace and reports a failure. *)
Theorem emergency_archives_before_removing :
  forall (faults : Faults) (mcfg : Monitor.Config) (acfg : Archiver.Config)
         (config : Emergency.Config) (now : Z) (date : string) (w : World)
         (bundled : list string),
    archivedFirst bundled (trace w) = true ->
    let result := Emergency.execute faults mcfg acfg config now date w in
    archivedFirst bundled (trace (snd result)) = true
    /\ (forall message,
          fst (Archiver.archiveSessions faults acfg now date
                 (sessions (getContextUsage mcfg now (live w)))
                 "emergency-cleanup" w) = Err message ->
          live (snd result) = live w /\ trace (snd result) = trace w
          /\ Emergency.success (fst result) = false).
Proof.
  intros faults mcfg acfg config now date w bundled Hb result. split.
  - apply TraceFacts.emergency_archives_first, Hb.
  - intros message H.
    apply (TraceFacts.emergency_blocked_by_archive_failure
             faults mcfg acfg config now date w message H).
Qed.

Lemma emergency_archives_before_removing_witness :
  archivedFirst []
    (trace (snd (Emergency.execute noFaults Monitor.defaultConfig
                   Archiver.defaultConfig keepFive now0 today tenOld))) = true.
Proof.
  apply (emergency_archives_before_removing noFaults Monitor.defaultConfig
           Archiver.defaultConfig keepFive now0 today tenOld []).
  reflexivity.
Defined.

(** X11: the sessions the emergency cleanup keeps are the most recent
    ones of the keep-recent window, at most [keepMinimumSessions] of
    them: their number is the smaller of [keepMinimumSessions] and the
    number of sessions in the window, and no session of the window that
    is left out is more recent than a kept one. *)
Theorem emergency_keeps_most_recent :
  forall (config : Emergency.Config) (now : Z) (sessions : list Session),
    0 <= Emergency.keepMinimumSessions config ->
    let window := fun s =>
      now - lastActive s <? Emergency.keepRecentHours config * 60 * 60 * 1000 in
    let kept := Emergency.sessionsToKeep config now sessions in
    Z.of_nat (length kept)
    = Z.min (Emergency.keepMinimumSessions config)
            (Z.of_nat (length (List.filter window sessions)))
    /\ (forall k, In k kept -> In k sessions /\ window k = true)
    /\ (forall k s, In k kept -> In s sessions -> window s = true ->
                    ~ In s kept -> lastActive s <= lastActive k).
Proof.
  intros config now sessions Hk window kept. split; [|split].
  - unfold kept, Emergency.sessionsToKeep, slice0.
    destruct (Z.leb_spec 0 (Emergency.keepMinimumSessions config)); [|lia].
    rewrite length_firstn, sort_length. fold window. lia.
  - intros k Hin. apply sessionsToKeep_subset in Hin. exact Hin.
  - intros k s Hkin Hs Hw Hout.
    unfold kept, Emergency.sessionsToKeep, slice0 in Hkin, Hout.
    destruct (Z.leb_spec 0 (Emergency.keepMinimumSessions config)); [|lia].
    fold window in Hkin, Hout.
    set (sorted := sort (fun a b => lastActive b <? lastActive a)
                        (List.filter window sessions)) in *.
    assert (Hsorted : StronglySorted (fun a b => lastActive b <= lastActive a) sorted).
    { apply sort_sorted.
      - intros x y z. lia.
      - intros x y Hlt. apply Z.ltb_lt in Hlt. lia.
      - intros x y Hge. apply Z.ltb_ge in Hge. lia. }
    assert (Hin : In s sorted).
    { apply sort_In, filter_In. auto. }
    set (n := Z.to_nat (Emergency.keepMinimumSessions config)) in *.
    rewrite <- (firstn_skipn n sorted) in Hsorted, Hin.
    apply in_app_or in Hin. destruct Hin as [Hin|Hin]; [contradiction|].
    apply (PrunerClaims.sorted_app_le _ _ _ Hsorted k s Hkin Hin).
Qed.

Lemma emergency_keeps_most_recent_witness :
  Z.of_nat (length (Emergency.sessionsToKeep
                      keepFive now0
                      (sessions (getContextUsage Monitor.defaultConfig now0
                                                 (live tenOld)))))
  = 0.
Proof.
  pose proof (emergency_keeps_most_recent keepFive now0
                (sessions (getContextUsage Monitor.defaultConfig now0 (live tenOld)))
                ltac:(vm_compute; discriminate)) as (H & _).
  cbv zeta in H. rewrite H. vm_compute. reflexivity.
Defined.

(** X12: whatever fails, the emergency cleanup creates and changes no
    file: a file of the directory is afterwards gone or as it was; the
    file of every kept session, and every file that is not a [.json]
    file, is as it was. *)
Theorem emergency_spares_kept_sessions :
  forall (faults : Faults) (mcfg : Monitor.Config) (acfg : Archiver.Config)
         (config : Emergency.Config) (now : Z) (date : string) (w : World),
    let usage := getContextUsage mcfg now (live w) in
    let kept := Emergency.sessionsToKeep config now (sessions usage) in
    let after := live (snd (Emergency.execute faults mcfg acfg config now date w)) in
    (forall s, In s kept -> after !! path s = live w !! path s)
    /\ (forall file, endsWith file ".json" = false -> after !! file = live w !! file)
    /\ (forall file, after !! file = None \/ after !! file = live w !! file).
Proof.
  intros faults mcfg acfg config now date w usage kept after.
  assert (Hafter : after = live w
                   \/ forall p, after !! p =
                        if existsb (fun s =>
                                      String.eqb (path s) p
                                      && negb (existsb (fun k => String.eqb (sessionId k)
                                                                            (sessionId s))
                                                       kept)
                                      && negb (unlink_fails faults (path s)))
                                   (sessions usage)
                        then None else live w !! p).
  { unfold after, Emergency.execute. fold usage.
    pose proof (TraceFacts.archiveSessions_spec faults acfg now date (sessions usage)
                  "emergency-cleanup" w) as [Hl _].
    cbv zeta in Hl.
    destruct (Archiver.archiveSessions faults acfg now date (sessions usage)
                "emergency-cleanup" w) as [[r|message] w1]; cbn [fst snd] in Hl.
    2:{ left. exact Hl. }
    right. intros p. fold kept.
    pose proof (deleteOther_live faults kept (sessions usage) p (0, 0, w1)) as Hd.
    destruct (fold_left (Emergency.deleteOther faults kept) (sessions usage) (0, 0, w1))
      as [[d t] w2].
    cbn [snd] in Hd. rewrite Hl in Hd.
    destruct (Archiver.archivedAs r); exact Hd. }
  split; [|split].
  - intros s Hs. destruct Hafter as [->|Hafter]; [reflexivity|].
    rewrite Hafter, kept_survives; [reflexivity| | |exact Hs].
    + apply usage_paths_distinct.
    + apply sessionsToKeep_subset in Hs. tauto.
  - intros file Hf. destruct Hafter as [->|Hafter]; [reflexivity|].
    rewrite Hafter, existsb_false; [reflexivity|].
    intros x Hx. destruct (String.eqb_spec (path x) file) as [Heq|Hne];
      [|reflexivity].
    apply usage_session_present in Hx. destruct Hx as [_ Hx].
    rewrite Heq, Hf in Hx. discriminate Hx.
  - intros file. destruct Hafter as [->|Hafter]; [right; reflexivity|].
    rewrite Hafter. destruct (existsb _ (sessions usage)); auto.
Qed.

(** X13: whatever fails, the report of the emergency cleanup adds up: the
    sessions deleted and the sessions kept fit in the snapshot taken
    before, the directory holds as many files less as were deleted, and
    the snapshot taken after holds as many sessions less; when the
    archive fails there is no snapshot after and nothing was deleted. *)
Theorem emergency_report_adds_up :
  forall (faults : Faults) (mcfg : Monitor.Config) (acfg : Archiver.Config)
         (config : Emergency.Config) (now : Z) (date : string) (w : World),
    let result := Emergency.execute faults mcfg acfg config now date w in
    let report := fst result in
    Emergency.beforeSessions report
    = Z.of_nat (length (sessions (getContextUsage mcfg now (live w))))
    /\ 0 <= Emergency.deleted report
    /\ 0 <= Emergency.kept report
    /\ Emergency.deleted report + Emergency.kept report
       <= Emergency.beforeSessions report
    /\ Z.of_nat (base.size (live (snd result)))
       = Z.of_nat (base.size (live w)) - Emergency.deleted report
    /\ match Emergency.afterSessions report with
       | Some n => n = Emergency.beforeSessions report - Emergency.deleted report
       | None => Emergency.success report = false /\ Emergency.deleted report = 0
       end.
Proof.
  intros faults mcfg acfg config now date w result report.
  unfold report, result, Emergency.execute.
  set (usage := getContextUsage mcfg now (live w)).
  pose proof (TraceFacts.archiveSessions_spec faults acfg now date (sessions usage)
                "emergency-cleanup" w) as [Hl _].
  cbv zeta in Hl.
  destruct (Archiver.archiveSessions faults acfg now date (sessions usage)
              "emergency-cleanup" w) as [[r|message] w1]; cbn [fst snd] in Hl.
  2:{ cbn [fst snd Emergency.beforeSessions Emergency.deleted Emergency.kept
             Emergency.afterSessions Emergency.success].
      rewrite Hl. repeat split; lia. }
  set (kept := Emergency.sessionsToKeep config now (sessions usage)).
  pose proof (deleteOther_counts faults mcfg now kept (sessions usage)
                (fun s Hs => proj2 (usage_session_present mcfg now (live w) s Hs))
                0 0 w1) as Hc.
  cbv zeta in Hc.
  pose proof (kept_and_deleted_fit config now (sessions usage)
                (usage_paths_distinct mcfg now (live w))) as Hfit.
  cbv zeta in Hfit. fold kept in Hfit.
  destruct (fold_left (Emergency.deleteOther faults kept) (sessions usage) (0, 0, w1))
    as [[d t] w2].
  cbn [fst snd] in Hc. rewrite Hl in Hc. fold usage in Hc.
  destruct Hc as (C1 & C2 & C3).
  destruct (Archiver.archivedAs r);
    cbn [fst snd Emergency.beforeSessions Emergency.deleted Emergency.kept
           Emergency.afterSessions Emergency.success];
    repeat split; lia.
Qed.

(** X14: [simulate()] previews [execute()]: when the archive succeeds and
    no removal fails, [execute] deletes as many sessions, frees as many
    tokens and keeps as many sessions as the simulation says; the files
    of the sessions it lists for deletion are gone and those of the
    sessions it lists as kept are as they were. The number of sessions
    the simulation gives for the directory afterwards is at most the
    number [execute] finds there. *)
Theorem simulate_previews_execute :
  forall (faults : Faults) (mcfg : Monitor.Config) (acfg : Archiver.Config)
         (config : Emergency.Config) (now : Z) (date : string) (w : World)
         (r : Archiver.ArchiveResult),
    (forall p, unlink_fails faults p = false) ->
    fst (Archiver.archiveSessions faults acfg now date
           (sessions (getContextUsage mcfg now (live w))) "emergency-cleanup" w)
    = Ok r ->
    let preview := EmergencyPreview.simulate mcfg config now w in
    let result := Emergency.execute faults mcfg acfg config now date w in
    Emergency.deleted (fst result) = EmergencyPreview.wouldDelete preview
    /\ Emergency.tokensFreed (fst result) = EmergencyPreview.tokensToFree preview
    /\ Emergency.kept (fst result) = EmergencyPreview.wouldKeep preview
    /\ (forall s, In s (EmergencyPreview.sessionsToDelete preview) ->
                  live (snd result) !! path s = None)
    /\ (forall s, In s (EmergencyPreview.sessionsKept preview) ->
                  live (snd result) !! path s = live w !! path s)
    /\ exists n, Emergency.afterSessions (fst result) = Some n
                 /\ EmergencyPreview.afterSessions preview <= n.
Proof.
  intros faults mcfg acfg config now date w r Hok Ha preview result.
  unfold result, preview, Emergency.execute, EmergencyPreview.simulate.
  pose proof (usage_paths_distinct mcfg now (live w)) as Hnd.
  pose proof (fun s Hs => proj2 (usage_session_present mcfg now (live w) s Hs))
    as Hjson.
  pose proof (fun s Hs => proj1 (usage_session_present mcfg now (live w) s Hs))
    as Hpresent.
  set (usage := getContextUsage mcfg now (live w)) in *.
  set (kept := Emergency.sessionsToKeep config now (sessions usage)).
  pose proof (TraceFacts.archiveSessions_spec faults acfg now date (sessions usage)
                "emergency-cleanup" w) as [Hl _].
  cbv zeta in Hl.
  destruct (Archiver.archiveSessions faults acfg now date (sessions usage)
              "emergency-cleanup" w) as [[r'|message] w1]; cbn [fst snd] in Hl, Ha;
    [|discriminate Ha].
  rewrite <- Hl in Hpresent.
  pose proof (deleteOther_succeeds faults kept (sessions usage)
                (fun s _ => Hok (path s)) Hnd 0 0 w1 Hpresent) as Hd.
  pose proof (fun p => deleteOther_live faults kept (sessions usage) p (0, 0, w1))
    as Hlive.
  pose proof (deleteOther_counts faults mcfg now kept (sessions usage) Hjson 0 0 w1)
    as Hc.
  pose proof (kept_and_deleted_fit config now (sessions usage) Hnd) as Hfit.
  cbv zeta in Hc, Hfit. fold kept in Hfit.
  destruct (fold_left (Emergency.deleteOther faults kept) (sessions usage) (0, 0, w1))
    as [[d t] w2].
  cbn [fst snd] in Hd, Hlive, Hc. destruct Hc as (_ & Hafter & _).
  rewrite Hl in Hafter. fold usage in Hafter.
  set (afterUsage := getContextUsage mcfg now (live w2)) in *.
  assert (Hgone : forall s,
            In s (List.filter
                    (fun s => negb (existsb (fun k => String.eqb (sessionId k)
                                                                 (sessionId s))
                                            kept))
                    (sessions usage)) ->
            live w2 !! path s = None).
  { intros s Hs. apply filter_In in Hs. destruct Hs as [Hs Hn].
    rewrite Hlive.
    assert (E : existsb
                  (fun x =>
                     String.eqb (path x) (path s)
                     && negb (existsb (fun k => String.eqb (sessionId k) (sessionId x))
                                      kept)
                     && negb (unlink_fails faults (path x)))
                  (sessions usage) = true).
    { apply existsb_exists. exists s. split; [exact Hs|].
      rewrite String.eqb_refl, Hn, Hok. reflexivity. }
    rewrite E. reflexivity. }
  assert (Hstay : forall s, In s kept -> live w2 !! path s = live w !! path s).
  { intros s Hs. rewrite Hlive, Hl, kept_survives; [reflexivity|exact Hnd| |exact Hs].
    apply sessionsToKeep_subset in Hs. tauto. }
  assert (Hcount : Z.of_nat (length kept) <= Z.of_nat (length (sessions afterUsage))).
  { rewrite Hafter. apply pair_equal_spec in Hd. lia. }
  clearbody afterUsage. apply pair_equal_spec in Hd. destruct Hd as [-> ->].
  destruct (Archiver.archivedAs r');
    cbn [fst snd Emergency.deleted Emergency.tokensFreed Emergency.kept
           Emergency.afterSessions EmergencyPreview.wouldDelete
           EmergencyPreview.tokensToFree EmergencyPreview.wouldKeep
           EmergencyPreview.sessionsToDelete EmergencyPreview.sessionsKept
           EmergencyPreview.afterSessions];
    (split; [apply Z.add_0_l|]; split; [reflexivity|]; split; [reflexivity|];
     split; [exact Hgone|]; split; [exact Hstay|];
     eexists; split; [reflexivity|exact Hcount]).
Qed.

Lemma simulate_previews_execute_witness :
  Emergency.deleted
    (fst (Emergency.execute noFaults Monitor.defaultConfig Archiver.defaultConfig
            keepFive now0 today tenOld))
  = EmergencyPreview.wouldDelete
      (EmergencyPreview.simulate Monitor.defaultConfig keepFive now0 tenOld).
Proof.
  pose proof (simulate_previews_execute noFaults Monitor.defaultConfig
                Archiver.defaultConfig keepFive now0 today tenOld
                {| Archiver.archivedCount := 10;
                   Archiver.archivedAs := Some "sessions-2026-01-01.tar.gz" |}
                (fun _ => eq_refl)
                ltac:(vm_compute; reflexivity)) as (H & _).
  exact H.
Defined.

(** X15: on a directory that holds no [.json] file the emergency cleanup
    reports a failure whatever the usage: nothing is archived, so the
    report it writes last has no bundle name to print and that error ends
    the call; the directory, the archives and the trace are as they
    were. *)
Theorem emergency_on_empty_directory :
  forall (faults : Faults) (mcfg : Monitor.Config) (acfg : Archiver.Config)
         (config : Emergency.Config) (now : Z) (date : string) (w : World),
    (forall file, is_Some (live w !! file) -> endsWith file ".json" = false) ->
    let result := Emergency.execute faults mcfg acfg config now date w in
    Emergency.success (fst result) = false
    /\ Emergency.error (fst result) = Some "TypeError"
    /\ Emergency.deleted (fst result) = 0
    /\ snd result = w.
Proof.
  intros faults mcfg acfg config now date w Hnone result.
  assert (Hs : sessions (getContextUsage mcfg now (live w)) = []).
  { destruct (sessions (getContextUsage mcfg now (live w))) as [|s rest] eqn:E;
      [reflexivity|].
    assert (Hin : In s (sessions (getContextUsage mcfg now (live w)))).
    { rewrite E. left. reflexivity. }
    apply usage_session_present in Hin. destruct Hin as [Hp He].
    rewrite (Hnone _ Hp) in He. discriminate He. }
  unfold result, Emergency.execute. rewrite Hs.
  cbn [Archiver.archiveSessions fold_left Archiver.archivedAs fst snd
         Emergency.success Emergency.error Emergency.deleted].
  auto.
Qed.

Lemma emergency_on_empty_directory_witness :
  Emergency.error
    (fst (Emergency.execute noFaults Monitor.defaultConfig Archiver.defaultConfig
            keepFive now0 today
            (storeOf [("notes.txt", rawFile hour 40)])))
  = Some "TypeError".
Proof.
  pose proof (emergency_on_empty_directory noFaults Monitor.defaultConfig
                Archiver.defaultConfig keepFive now0 today
                (storeOf [("notes.txt", rawFile hour 40)])) as H.
  cbv zeta in H. apply H.
  intros file [f Hf]. cbn [storeOf live list_to_map foldr] in Hf.
  destruct (String.eqb_spec "notes.txt" file) as [<-|Hne].
  - reflexivity.
  - rewrite lookup_insert_ne in Hf by exact Hne.
    rewrite lookup_empty in Hf. discriminate Hf.
Defined.

End EmergencyExtras.

(** ** Archiver: bundles, restoring and the retention sweep *)

Module ArchiverFacts.
Import JS JSFacts Monitor Host Archiver Retention.

Lemma copySessions_spec (faults : Faults) (now : Z) (dir : gmap string SessionFile)
    (sessions : list Session) :
  forall (tempDir result : gmap string SessionFile),
    copySessions faults now dir sessions tempDir = Some result ->
    forall p,
      result !! p =
      if existsb (fun s => String.eqb (path s) p) sessions
      then copyOf now <$> dir !! p
      else tempDir !! p.
Proof.
  induction sessions as [|s sessions IH]; intros tempDir result H p.
  - inversion H. reflexivity.
  - cbn [copySessions] in H.
    destruct (copy_fails faults (path s)); [discriminate H|].
    destruct (dir !! path s) as [f|] eqn:El; [|discriminate H].
    rewrite (IH _ _ H p). cbn [existsb].
    destruct (String.eqb_spec (path s) p) as [Heq|Hne]; cbn [orb].
    + destruct (existsb _ sessions); [reflexivity|].
      rewrite <- Heq, lookup_insert_eq, El. reflexivity.
    + rewrite lookup_insert_ne by exact Hne. reflexivity.
Qed.

(** A successful compressed archive: the bundle of the day holds the
    copies of the batch and nothing else. *)
Lemma archived_bundle (faults : Faults) (acfg : Archiver.Config) (now : Z)
    (date : string) (sessions : list Session) (reason : string) (w : World)
    (r : ArchiveResult) (name : string) :
  compression acfg = true ->
  fst (archiveSessions faults acfg now date sessions reason w) = Ok r ->
  archivedAs r = Some name ->
  let w1 := snd (archiveSessions faults acfg now date sessions reason w) in
  name = "sessions-" +:+ date +:+ ".tar.gz"
  /\ archivedCount r = Z.of_nat (length sessions)
  /\ live w1 = live w
  /\ index w1 = index w ++
                  [ {| archiveName := name;
                       timestamp := now;
                       sessionCount := Z.of_nat (length sessions);
                       reason := reason;
                       archived :=
                         map (fun s => (sessionId s, tokenCount s, messageCount s))
                             sessions |} ]
  /\ exists bundle,
       bundles w1 = <[name := bundle]> (bundles w)
       /\ forall p, bundle !! p =
                    if existsb (fun s => String.eqb (path s) p) sessions
                    then copyOf now <$> live w !! p
                    else None.
Proof.
  intros Hc Hr Hn. unfold archiveSessions in *.
  destruct sessions as [|s rest].
  { cbn [fst] in Hr. inversion Hr; subst. discriminate Hn. }
  destruct (copySessions faults now (live w) (s :: rest) ∅) as [tempDir|] eqn:Ec;
    [|discriminate Hr].
  unfold writeBundle in *. rewrite Hc in *.
  destruct (tar_fails faults); [discriminate Hr|].
  destruct (index_write_fails faults); [discriminate Hr|].
  cbn [fst snd] in *. inversion Hr; subst. cbn [archivedAs] in Hn.
  inversion Hn; subst. cbn [archivedCount live index bundles].
  repeat split. exists tempDir. split; [reflexivity|].
  intros p. rewrite (copySessions_spec _ _ _ _ _ _ Ec p), lookup_empty.
  reflexivity.
Qed.

(** With no copy that fails, the loop of [restore] brings back every
    file of the listing whose name is free. *)
Lemma copyBack_restores (faults : Faults) (now : Z)
    (sessions : list (string * SessionFile)) :
  NoDup (sessions.*1) ->
  (forall name, copy_fails faults name = false) ->
  forall (target : gmap string SessionFile) (count : Z) (name : string)
         (g : SessionFile),
    In (name, g) sessions -> target !! name = None ->
    snd (copyBack faults now sessions target count) !! name = Some (copyOf now g).
Proof.
  intros Hnd Hok. induction sessions as [|[session f] rest IH];
    intros target count name g Hin Hnone; [contradiction|].
  apply NoDup_cons in Hnd. destruct Hnd as [Hfresh Hnd].
  cbn [copyBack]. destruct Hin as [Heq|Hin].
  - inversion Heq; subst. rewrite Hnone, Hok.
    pose proof (RestoreClaims.copyBack_spec faults now rest Hnd
                  (<[name := copyOf now g]> target) (count + 1)) as (Hframe & _).
    apply Hframe. apply lookup_insert_eq.
  - assert (Hne : session <> name).
    { intros ->. apply Hfresh. apply list_elem_of_fmap. exists (name, g).
      split; [reflexivity|]. apply list_elem_of_In. exact Hin. }
    destruct (target !! session); [apply IH; assumption|].
    rewrite Hok. apply IH; [assumption|assumption|].
    rewrite lookup_insert_ne by exact Hne. exact Hnone.
Qed.

Lemma removeFirst_eq (pat s : string) :
  removeFirst pat s =
  if String.prefix pat s
  then String.substring (String.length pat) (String.length s - String.length pat) s
  else match s with
       | EmptyString => EmptyString
       | String c s' => String c (removeFirst pat s')
       end.
Proof. destruct s; reflexivity. Qed.

Lemma append_nil (b : string) : EmptyString +:+ b = b.
Proof. reflexivity. Qed.

Lemma append_cons (c : ascii) (a b : string) :
  String c a +:+ b = String c (a +:+ b).
Proof. reflexivity. Qed.

Lemma length_append (a b : string) :
  String.length (a +:+ b) = (String.length a + String.length b)%nat.
Proof.
  induction a as [|c a IH]; [reflexivity|].
  rewrite append_cons. cbn [String.length]. rewrite IH. reflexivity.
Qed.

Lemma length_substring (s : string) :
  forall n m, (n + m <= String.length s)%nat ->
              String.length (String.substring n m s) = m.
Proof.
  induction s as [|c s IH]; intros [|n] [|m] H; simpl in *;
    try reflexivity; try lia.
  - rewrite IH by lia. reflexivity.
  - apply IH. lia.
  - apply IH. lia.
Qed.

Lemma prefix_append (p b : string) : String.prefix p (p +:+ b) = true.
Proof.
  apply prefix_correct. induction p as [|c p IH].
  - rewrite append_nil. destruct b; reflexivity.
  - rewrite append_cons. cbn [String.length String.substring].
    rewrite IH. reflexivity.
Qed.

(** Removing the first occurrence of a text that occurs takes its length
    off. *)
Lemma removeFirst_length (pat a b : string) :
  String.length (removeFirst pat (a +:+ (pat +:+ b)))
  = (String.length a + String.length b)%nat.
Proof.
  induction a as [|c a IH].
  - rewrite append_nil, removeFirst_eq, prefix_append.
    rewrite length_substring; rewrite length_append; cbn [String.length]; lia.
  - rewrite append_cons, removeFirst_eq.
    destruct (String.prefix pat (String c (a +:+ (pat +:+ b)))).
    + rewrite length_substring; cbn [String.length];
        rewrite !length_append; cbn [String.length]; lia.
    + cbn [String.length]. rewrite IH. reflexivity.
Qed.

Lemma append_assoc (a b c : string) : (a +:+ b) +:+ c = a +:+ (b +:+ c).
Proof.
  induction a as [|x a IH]; [reflexivity|].
  rewrite !append_cons, IH. reflexivity.
Qed.

Lemma filter_filter {A} (p q : A -> bool) (l : list A) :
  List.filter p (List.filter q l) = List.filter (fun a => q a && p a) l.
Proof.
  induction l as [|x l IH]; simpl; [reflexivity|].
  destruct (q x); simpl; [destruct (p x)|]; rewrite IH; reflexivity.
Qed.

(** The loop of the retention sweep, whatever fails: it only removes,
    what it removes bears the name of an expired entry, and it counts
    the bundles it removes. *)
Lemma sweep_frame (faults : Faults) (toDelete : list IndexEntry) :
  forall (d : Z) (archives : list IndexEntry)
         (store : gmap string (gmap string SessionFile)),
    let result := fold_left (sweepOne faults) toDelete (d, archives, store) in
    (forall a, In a (snd (fst result)) -> In a archives)
    /\ (forall a, In a archives ->
                  In a (snd (fst result))
                  \/ exists e, In e toDelete /\ archiveName e = archiveName a)
    /\ (forall name,
          snd result !! name = store !! name
          \/ snd result !! name = None
             /\ exists e, In e toDelete /\ archiveName e = name)
    /\ fst (fst result) - d
       = Z.of_nat (base.size store) - Z.of_nat (base.size (snd result)).
Proof.
  induction toDelete as [|e toDelete IH]; intros d archives store.
  { cbn [fold_left fst snd]. repeat split; auto. lia. }
  cbn [fold_left]. cbv zeta in IH.
  assert (Hstep :
    exists d1 archives1 store1,
      sweepOne faults (d, archives, store) e = (d1, archives1, store1)
      /\ (forall a, In a archives1 -> In a archives)
      /\ (forall a, In a archives ->
                    In a archives1 \/ archiveName e = archiveName a)
      /\ (store1 = store /\ d1 = d
          \/ store1 = delete (archiveName e) store /\ d1 = d + 1
             /\ is_Some (store !! archiveName e))).
  { assert (Hsub : forall a,
              In a (List.filter
                      (fun a => negb (String.eqb (archiveName a) (archiveName e)))
                      archives) -> In a archives).
    { intros a Ha. apply filter_In in Ha. tauto. }
    assert (Hdrop : forall a,
              In a archives ->
              In a (List.filter
                      (fun a => negb (String.eqb (archiveName a) (archiveName e)))
                      archives)
              \/ archiveName e = archiveName a).
    { intros a Ha.
      destruct (String.eqb_spec (archiveName a) (archiveName e)) as [Heq|Hne];
        [right; congruence|].
      left. apply filter_In. split; [exact Ha|].
      destruct (String.eqb_spec (archiveName a) (archiveName e));
        [congruence|reflexivity]. }
    unfold sweepOne. destruct (store !! archiveName e) as [b|] eqn:Eb.
    - destruct (unlink_fails faults (archiveName e)).
      + exists d, archives, store. split; [reflexivity|].
        split; [auto|]. split; [auto|]. left. auto.
      + eexists (d + 1), _, (delete (archiveName e) store).
        split; [reflexivity|]. split; [exact Hsub|]. split; [exact Hdrop|].
        right. eauto.
    - eexists d, _, store. split; [reflexivity|].
      split; [exact Hsub|]. split; [exact Hdrop|]. left. auto. }
  destruct Hstep as (d1 & archives1 & store1 & -> & Hsub & Hdrop & Hcase).
  specialize (IH d1 archives1 store1).
  destruct IH as (I1 & I2 & I3 & I4).
  split; [|split; [|split]].
  - intros a Ha. apply Hsub, I1, Ha.
  - intros a Ha. destruct (Hdrop a Ha) as [H1|H1].
    + destruct (I2 a H1) as [H2|(x & Hx & Hname)]; [auto|].
      right. exists x. split; [right; exact Hx|exact Hname].
    + right. exists e. split; [left; reflexivity|exact H1].
  - intros name. destruct (I3 name) as [H3|(H3 & x & Hx & Hname)].
    + destruct Hcase as [[-> _]|(-> & _ & _)]; [left; exact H3|].
      destruct (String.eqb_spec (archiveName e) name) as [Heq|Hne].
      * right. split.
        -- rewrite H3, <- Heq. apply lookup_delete_eq.
        -- exists e. split; [left; reflexivity|exact Heq].
      * left. rewrite H3. apply lookup_delete_ne. exact Hne.
    + right. split; [exact H3|]. exists x. split; [right; exact Hx|exact Hname].
  - destruct Hcase as [[-> ->]|(-> & -> & [b Hb])]; [exact I4|].
    assert (Hs : base.size (delete (archiveName e) store)
                 = Init.Nat.pred (base.size store)).
    { apply map_size_delete_Some. eauto. }
    assert (Hpos : (0 < base.size store)%nat).
    { destruct (base.size store) eqn:Ez; [|lia].
      apply map_size_empty_inv in Ez. rewrite Ez, lookup_empty in Hb.
      discriminate Hb. }
    lia.
Qed.

(** The loop of the retention sweep when no removal fails. *)
Lemma sweep_exact (faults : Faults) (toDelete : list IndexEntry) :
  (forall p, unlink_fails faults p = false) ->
  forall (d : Z) (archives : list IndexEntry)
         (store : gmap string (gmap string SessionFile)),
    let result := fold_left (sweepOne faults) toDelete (d, archives, store) in
    snd (fst result)
    = List.filter
        (fun a => negb (existsb (fun e => String.eqb (archiveName a) (archiveName e))
                                toDelete))
        archives
    /\ forall name,
         snd result !! name =
         if existsb (fun e => String.eqb (archiveName e) name) toDelete
         then None else store !! name.
Proof.
  intros Hok. induction toDelete as [|e toDelete IH]; intros d archives store.
  { cbn [fold_left fst snd existsb negb]. split; [|reflexivity].
    induction archives as [|a archives IHa]; simpl; congruence. }
  cbn [fold_left existsb]. cbv zeta in IH.
  assert (Hstep :
    exists d1 store1,
      sweepOne faults (d, archives, store) e
      = (d1,
         List.filter (fun a => negb (String.eqb (archiveName a) (archiveName e)))
                     archives,
         store1)
      /\ forall name,
           store1 !! name
           = if String.eqb (archiveName e) name then None else store !! name).
  { unfold sweepOne. rewrite Hok. destruct (store !! archiveName e) as [b|] eqn:Eb.
    - exists (d + 1), (delete (archiveName e) store). split; [reflexivity|].
      intros name. destruct (String.eqb_spec (archiveName e) name) as [<-|Hne].
      + apply lookup_delete_eq.
      + apply lookup_delete_ne. exact Hne.
    - exists d, store. split; [reflexivity|].
      intros name. destruct (String.eqb_spec (archiveName e) name) as [<-|Hne];
        [exact Eb|reflexivity]. }
  destruct Hstep as (d1 & store1 & -> & Hstore).
  destruct (IH d1 (List.filter
                     (fun a => negb (String.eqb (archiveName a) (archiveName e)))
                     archives) store1) as (I1 & I2).
  split.
  - rewrite I1, filter_filter. apply filter_ext. intros a.
    rewrite negb_orb. reflexivity.
  - intros name. rewrite I2, Hstore.
    destruct (String.eqb (archiveName e) name), (existsb _ toDelete); reflexivity.
Qed.

End ArchiverFacts.

Module ArchiverExtras.
Import JS JSFacts Monitor Host Archiver Retention ArchiverFacts Examples ArchiveExamples.

(** X16: two archives on the same day go to the same bundle, and the
    second replaces the first: with compression on, after a second
    successful [archiveSessions] the bundle of the day holds the second
    batch only, so a session of the first batch that is not in the second
    is no longer in it, while the index lists both archives under that
    name. *)
Theorem same_day_archive_replaces_bundle :
  forall (faults : Faults) (acfg : Archiver.Config) (now1 now2 : Z) (date : string)
         (batch1 batch2 : list Session) (reason1 reason2 : string) (w : World)
         (r1 r2 : ArchiveResult) (name1 name2 : string),
    compression acfg = true ->
    let first := archiveSessions faults acfg now1 date batch1 reason1 w in
    let second := archiveSessions faults acfg now2 date batch2 reason2 (snd first) in
    fst first = Ok r1 -> archivedAs r1 = Some name1 ->
    fst second = Ok r2 -> archivedAs r2 = Some name2 ->
    name2 = name1
    /\ (exists bundle,
          bundles (snd second) !! name1 = Some bundle
          /\ forall s, In s batch1 ->
                       (forall s2, In s2 batch2 -> path s2 <> path s) ->
                       bundle !! path s = None)
    /\ exists e1 e2,
         index (snd second) = index w ++ [e1; e2]
         /\ archiveName e1 = name1 /\ archiveName e2 = name1
         /\ sessionCount e1 = Z.of_nat (length batch1)
         /\ sessionCount e2 = Z.of_nat (length batch2).
Proof.
  intros faults acfg now1 now2 date batch1 batch2 reason1 reason2 w r1 r2
         name1 name2 Hc first second H1 Hn1 H2 Hn2.
  destruct (archived_bundle faults acfg now1 date batch1 reason1 w r1 name1
              Hc H1 Hn1) as (E1 & _ & _ & Hi1 & _).
  destruct (archived_bundle faults acfg now2 date batch2 reason2 (snd first) r2 name2
              Hc H2 Hn2) as (E2 & _ & _ & Hi2 & bundle & Hb & Hfiles).
  fold first in Hi1. fold second in Hi2, Hb.
  subst name1 name2.
  split; [reflexivity|]. split.
  - exists bundle. split; [rewrite Hb; apply lookup_insert_eq|].
    intros s Hs Hout. rewrite Hfiles.
    rewrite EmergencyFacts.existsb_false; [reflexivity|].
    intros s2 Hs2. destruct (String.eqb_spec (path s2) (path s)) as [Heq|Hne];
      [|reflexivity].
    destruct (Hout s2 Hs2 Heq).
  - eexists _, _. split.
    + rewrite Hi2, Hi1, <- app_assoc. reflexivity.
    + cbn [archiveName sessionCount]. auto.
Qed.

Lemma same_day_archive_replaces_bundle_witness :
  exists bundle,
    bundles (snd (archiveSessions noFaults Archiver.defaultConfig (now0 + 1) today
                    batchB "manual"
                    (snd (archiveSessions noFaults Archiver.defaultConfig now0 today
                            batchA "manual" at85))))
    !! "sessions-2026-01-01.tar.gz" = Some bundle
    /\ bundle !! "a.json" = None.
Proof.
  destruct (same_day_archive_replaces_bundle
              noFaults Archiver.defaultConfig now0 (now0 + 1) today batchA batchB
              "manual" "manual" at85
              {| archivedCount := 1; archivedAs := Some "sessions-2026-01-01.tar.gz" |}
              {| archivedCount := 1; archivedAs := Some "sessions-2026-01-01.tar.gz" |}
              "sessions-2026-01-01.tar.gz" "sessions-2026-01-01.tar.gz"
              eq_refl ltac:(vm_compute; reflexivity) eq_refl
              ltac:(vm_compute; reflexivity) eq_refl)
    as (_ & (bundle & Hb & Hgone) & _).
  exists bundle. split; [exact Hb|].
  apply (Hgone (aged "a" (2 * day) 42500 2)).
  - left. reflexivity.
  - intros s2 [<-|[]]. vm_compute. discriminate.
Defined.

(** X17: what is archived can be restored: after a successful
    compressed archive, and whatever happened to the session directory
    since, [restore] of the name it returned succeeds when no extraction
    or copy fails, and then every session of the batch has a file in the
    directory: the file that was there, or else a copy with the size and
    the content of the file that was archived. *)
Theorem archive_restore_round_trip :
  forall (faults faults' : Faults) (acfg : Archiver.Config) (now now' : Z)
         (date : string) (batch : list Session) (reason : string) (w w2 : World)
         (r : ArchiveResult) (name : string),
    compression acfg = true ->
    fst (archiveSessions faults acfg now date batch reason w) = Ok r ->
    archivedAs r = Some name ->
    bundles w2 = bundles (snd (archiveSessions faults acfg now date batch reason w)) ->
    untar_fails faults' = false ->
    (forall p, copy_fails faults' p = false) ->
    let result := restore faults' now' name w2 in
    (exists report, fst result = Ok report)
    /\ forall s f, In s batch -> live w !! path s = Some f ->
                   live (snd result) !! path s
                   = match live w2 !! path s with
                     | Some g => Some g
                     | None => Some (copyOf now' f)
                     end.
Proof.
  intros faults faults' acfg now now' date batch reason w w2 r name
         Hc Hr Hn Hb Hu Hok result.
  destruct (archived_bundle faults acfg now date batch reason w r name Hc Hr Hn)
    as (_ & _ & _ & _ & bundle & Hb1 & Hfiles).
  rewrite Hb1 in Hb.
  unfold result, restore, restoreInto. rewrite Hb, lookup_insert_eq, Hu, andb_false_r.
  pose proof (RestoreClaims.copyBack_spec faults' now' (map_to_list bundle)
                (NoDup_fst_map_to_list bundle) (live w2) 0) as (Hframe & _ & Hret).
  pose proof (copyBack_restores faults' now' (map_to_list bundle)
                (NoDup_fst_map_to_list bundle) Hok (live w2) 0) as Hback.
  destruct (Hret Hok) as [c Hcount].
  destruct (copyBack faults' now' (map_to_list bundle) (live w2) 0) as [res target].
  cbn [fst snd] in *. subst res. cbn [fst snd live]. split; [eauto|].
  intros s f Hs Hf.
  destruct (live w2 !! path s) as [g|] eqn:El.
  - apply Hframe. exact El.
  - rewrite (Hback (path s) (copyOf now f)); [reflexivity| |exact El].
    apply list_elem_of_In, elem_of_map_to_list. rewrite Hfiles, Hf.
    assert (E : existsb (fun x => String.eqb (path x) (path s)) batch = true).
    { apply existsb_exists. exists s. split; [exact Hs|apply String.eqb_refl]. }
    rewrite E. reflexivity.
Qed.

Lemma archive_restore_round_trip_witness :
  live (snd (restore noFaults (now0 + 5) "sessions-2026-01-01.tar.gz"
               {| live := ∅;
                  bundles := bundles (snd (archiveSessions noFaults
                                             Archiver.defaultConfig now0 today
                                             batchA "manual" at85));
                  index := []; trace := [] |}))
  !! "a.json"
  = Some (copyOf (now0 + 5) (rawFile (2 * day) 170000)).
Proof.
  destruct (archive_restore_round_trip
              noFaults noFaults Archiver.defaultConfig now0 (now0 + 5) today
              batchA "manual" at85
              {| live := ∅;
                 bundles := bundles (snd (archiveSessions noFaults
                                            Archiver.defaultConfig now0 today
                                            batchA "manual" at85));
                 index := []; trace := [] |}
              {| archivedCount := 1; archivedAs := Some "sessions-2026-01-01.tar.gz" |}
              "sessions-2026-01-01.tar.gz"
              eq_refl ltac:(vm_compute; reflexivity) eq_refl eq_refl eq_refl
              (fun _ => eq_refl))
    as (_ & H).
  apply (H (aged "a" (2 * day) 42500 2) (rawFile (2 * day) 170000)).
  - left. reflexivity.
  - vm_compute. reflexivity.
Defined.

(** X18: with compression off the archive cannot be restored under the
    name [archiveSessions] returns: the files are stored in a directory
    named without [.tar.gz] (the path of the archive directory holding
    no [.tar.gz] itself), the result and the index name the archive with
    [.tar.gz], and unless a bundle of that name existed already [restore]
    of the returned name ends in [Archive not found] and leaves the
    session directory as it is. *)
Theorem uncompressed_archive_not_found :
  forall (faults faults' : Faults) (acfg : Archiver.Config) (now now' : Z)
         (date : string) (batch : list Session) (reason : string) (w : World)
         (r : ArchiveResult) (name : string),
    compression acfg = false ->
    fst (archiveSessions faults acfg now date batch reason w) = Ok r ->
    archivedAs r = Some name ->
    bundles w !! name = None ->
    let w1 := snd (archiveSessions faults acfg now date batch reason w) in
    fst (restore faults' now' name w1) = Err "Archive not found"
    /\ live (snd (restore faults' now' name w1)) = live w
    /\ (exists e, In e (index w1) /\ archiveName e = name)
    /\ exists bundle,
         bundles w1 !! removeFirst ".tar.gz" name = Some bundle
         /\ forall s f, In s batch -> live w !! path s = Some f ->
                        bundle !! path s = Some (copyOf now f).
Proof.
  intros faults faults' acfg now now' date batch reason w r name
         Hc Hr Hn Hfree w1.
  unfold w1, archiveSessions in *.
  destruct batch as [|s rest].
  { cbn [fst] in Hr. inversion Hr; subst. discriminate Hn. }
  destruct (copySessions faults now (live w) (s :: rest) ∅) as [tempDir|] eqn:Ec;
    [|discriminate Hr].
  unfold writeBundle in *. rewrite Hc in *.
  destruct (index_write_fails faults); [discriminate Hr|].
  cbn [fst snd] in *. inversion Hr; subst. cbn [archivedAs] in Hn.
  inversion Hn; subst. clear Hr Hn.
  set (name := "sessions-" +:+ date +:+ ".tar.gz") in *.
  assert (Hne : removeFirst ".tar.gz" name <> name).
  { intros Heq. apply (f_equal String.length) in Heq.
    unfold name in Heq.
    rewrite <- (append_assoc "sessions-" date ".tar.gz") in Heq.
    replace (("sessions-" +:+ date) +:+ ".tar.gz")
      with (("sessions-" +:+ date) +:+ (".tar.gz" +:+ EmptyString)) in Heq
      by reflexivity.
    rewrite removeFirst_length, !length_append in Heq.
    cbn [String.length] in Heq. lia. }
  assert (Hlookup : <[removeFirst ".tar.gz" name :=
                        tempDir ∪ default ∅ (bundles w !! removeFirst ".tar.gz" name)]>
                      (bundles w) !! name = None).
  { rewrite lookup_insert_ne by exact Hne. exact Hfree. }
  unfold restore, restoreInto. cbn [bundles live]. rewrite Hlookup. cbn [fst snd live].
  split; [reflexivity|]. split; [reflexivity|]. split.
  - eexists. split; [apply in_or_app; right; left; reflexivity|reflexivity].
  - eexists. split; [apply lookup_insert_eq|].
    intros x f Hx Hf. apply lookup_union_Some_l.
    rewrite (copySessions_spec _ _ _ _ _ _ Ec (path x)), Hf.
    assert (E : existsb (fun y => String.eqb (path y) (path x)) (s :: rest) = true).
    { apply existsb_exists. exists x. split; [exact Hx|apply String.eqb_refl]. }
    rewrite E. reflexivity.
Qed.

Lemma uncompressed_archive_not_found_witness :
  fst (restore noFaults (now0 + 5) "sessions-2026-01-01.tar.gz"
         (snd (archiveSessions noFaults uncompressed now0 today batchA "manual" at85)))
  = Err "Archive not found".
Proof.
  apply (uncompressed_archive_not_found
           noFaults noFaults uncompressed now0 (now0 + 5) today batchA "manual" at85
           {| archivedCount := 1; archivedAs := Some "sessions-2026-01-01.tar.gz" |}
           "sessions-2026-01-01.tar.gz"
           eq_refl ltac:(vm_compute; reflexivity) eq_refl eq_refl).
Defined.

(** X19: whatever fails, the retention sweep only removes: the session
    directory and the trace are as they were, a bundle is afterwards gone
    or as it was, a bundle that is gone bears the name of an expired
    entry of the index, and the count it returns is the number of bundles
    removed; an entry it keeps was in the index, and an entry it drops
    bears the name of an expired entry. *)
Theorem retention_sweep_only_removes_expired :
  forall (faults : Faults) (acfg : Archiver.Config) (now : Z) (w : World),
    let result := cleanupOldArchives faults acfg now w in
    let expired := fun e =>
      retentionDays acfg * 24 * 60 * 60 * 1000 <? now - timestamp e in
    live (snd result) = live w
    /\ trace (snd result) = trace w
    /\ (forall name,
          bundles (snd result) !! name = bundles w !! name
          \/ bundles (snd result) !! name = None
             /\ exists e, In e (index w) /\ expired e = true /\ archiveName e = name)
    /\ (forall n, fst result = Ok n ->
                  n = Z.of_nat (base.size (bundles w))
                      - Z.of_nat (base.size (bundles (snd result))))
    /\ (forall a, In a (index (snd result)) -> In a (index w))
    /\ (forall a, In a (index w) ->
                  In a (index (snd result))
                  \/ exists e, In e (index w) /\ expired e = true
                               /\ archiveName e = archiveName a).
Proof.
  intros faults acfg now w result expired.
  unfold result, cleanupOldArchives. fold expired.
  pose proof (sweep_frame faults (List.filter expired (index w)) 0 (index w)
                (bundles w)) as Hs.
  cbv zeta in Hs.
  destruct (fold_left (sweepOne faults) (List.filter expired (index w))
              (0, index w, bundles w)) as [[d archives] store].
  cbn [fst snd] in Hs. destruct Hs as (S1 & S2 & S3 & S4).
  assert (Hexp : forall name,
            (exists e, In e (List.filter expired (index w)) /\ archiveName e = name) ->
            exists e, In e (index w) /\ expired e = true /\ archiveName e = name).
  { intros name (e & He & Hname). apply filter_In in He. exists e. tauto. }
  assert (Hstore : forall name,
            store !! name = bundles w !! name
            \/ store !! name = None
               /\ exists e, In e (index w) /\ expired e = true /\ archiveName e = name).
  { intros name. destruct (S3 name) as [H|[H He]]; [left; exact H|].
    right. split; [exact H|]. apply Hexp, He. }
  destruct (index_write_fails faults); cbn [fst snd live trace bundles index].
  - split; [reflexivity|]. split; [reflexivity|]. split; [exact Hstore|].
    split; [intros n Hn; discriminate Hn|]. split; auto.
  - split; [reflexivity|]. split; [reflexivity|]. split; [exact Hstore|].
    split; [intros n Hn; inversion Hn; subst; lia|]. split; [exact S1|].
    intros a Ha. destruct (S2 a Ha) as [H|H]; [left; exact H|].
    right. apply Hexp, H.
Qed.

(** X20: when no removal and no write of the index fails, the retention
    sweep returns a count, no entry it keeps has expired, no bundle that
    bears the name of an expired entry is left, and the entries and the
    bundles of other names are all kept, the entries in their order. *)
Theorem retention_sweep_clears_expired :
  forall (faults : Faults) (acfg : Archiver.Config) (now : Z) (w : World),
    (forall p, unlink_fails faults p = false) ->
    index_write_fails faults = false ->
    let result := cleanupOldArchives faults acfg now w in
    let expired := fun e =>
      retentionDays acfg * 24 * 60 * 60 * 1000 <? now - timestamp e in
    let named := fun name =>
      existsb (fun e => String.eqb (archiveName e) name)
              (List.filter expired (index w)) in
    (exists n, fst result = Ok n)
    /\ index (snd result)
       = List.filter (fun a => negb (named (archiveName a))) (index w)
    /\ (forall a, In a (index (snd result)) -> expired a = false)
    /\ (forall name, bundles (snd result) !! name
                     = if named name then None else bundles w !! name).
Proof.
  intros faults acfg now w Hok Hw result expired named.
  unfold result, cleanupOldArchives. fold expired. rewrite Hw.
  pose proof (sweep_exact faults (List.filter expired (index w)) Hok 0 (index w)
                (bundles w)) as Hs.
  cbv zeta in Hs.
  destruct (fold_left (sweepOne faults) (List.filter expired (index w))
              (0, index w, bundles w)) as [[d archives] store].
  cbn [fst snd] in Hs. destruct Hs as (S1 & S2).
  cbn [fst snd index bundles].
  assert (Hindex : archives
                   = List.filter (fun a => negb (named (archiveName a))) (index w)).
  { rewrite S1. apply filter_ext. intros a. unfold named. f_equal.
    generalize (List.filter expired (index w)). intros l.
    induction l as [|x l IHl]; [reflexivity|].
    cbn [existsb]. rewrite IHl, (String.eqb_sym (archiveName a)). reflexivity. }
  split; [eauto|]. split; [exact Hindex|]. split; [|exact S2].
  intros a Ha. rewrite Hindex in Ha. apply filter_In in Ha. destruct Ha as [Ha Hn].
  destruct (expired a) eqn:E; [|reflexivity].
  assert (Hnamed : named (archiveName a) = true).
  { apply existsb_exists. exists a. split; [|apply String.eqb_refl].
    apply filter_In. auto. }
  rewrite Hnamed in Hn. discriminate Hn.
Qed.

Lemma retention_sweep_clears_expired_witness :
  map archiveName
      (index (snd (cleanupOldArchives noFaults Archiver.defaultConfig now0 stale)))
  = ["sessions-2025-02-09.tar.gz"].
Proof.
  destruct (retention_sweep_clears_expired noFaults Archiver.defaultConfig now0 stale
              (fun _ => eq_refl) eq_refl) as (_ & H & _).
  rewrite H. vm_compute. reflexivity.
Defined.

End ArchiverExtras.

(** ** Watcher: what a check does and what the routine cleanup archives *)

Module WatcherExtras.
Import JS JSFacts Monitor Host Watcher StoreFacts Examples.

(** X21: the watcher and the pruner protect the same sessions: on the
    sessions of a snapshot, read at the instant of the snapshot,
    [ContextWatcher._isProtected] agrees with [SessionPruner._isProtected]
    for a pruner that keeps 24 hours and the sessions of 10 messages or
    more, as the default one does. The third test of the watcher, on the
    priority, protects nothing more: a session of high priority is less
    than 24 hours old. *)
Theorem watcher_and_pruner_protect_alike :
  forall (mcfg : Monitor.Config) (config : Pruner.Config) (now : Z)
         (dir : gmap string SessionFile) (s : Session),
    Pruner.keepRecentHours config = 24 ->
    Pruner.preserveHighEngagement config = true ->
    Pruner.minMessagesForImportant config = 10 ->
    In s (sessions (getContextUsage mcfg now dir)) ->
    _isProtected now s = Pruner._isProtected config now s.
Proof.
  intros mcfg config now dir s Hk He Hm Hs.
  apply usage_sessions_spec in Hs. destruct Hs as (file & f & _ & _ & ->).
  unfold _isProtected, Pruner._isProtected. rewrite Hk, He, Hm.
  cbn [lastActive messageCount priority sessionInfo andb].
  unfold calculatePriority, ageHours. cbn [lastModified infoOf].
  change (inject_Z 24) with 24%Q.
  destruct (Qltb (inject_Z (now - mtime f) / 3600000) 24); [reflexivity|].
  cbn [andb].
  destruct (10 <=? getMessageCount dir (filePath (infoOf file f))); [reflexivity|].
  destruct (Qltb (inject_Z (now - mtime f) / 3600000) 168
            || (5 <? getMessageCount dir (filePath (infoOf file f)))); reflexivity.
Qed.

Lemma watcher_and_pruner_protect_alike_witness :
  forallb (fun s => Bool.eqb (_isProtected now0 s)
                             (Pruner._isProtected Pruner.defaultConfig now0 s))
          (sessions (getContextUsage Monitor.defaultConfig now0 (live mixed)))
  = true.
Proof.
  apply forallb_forall. intros s Hs.
  rewrite (watcher_and_pruner_protect_alike Monitor.defaultConfig
             Pruner.defaultConfig now0 (live mixed) s eq_refl eq_refl eq_refl Hs).
  apply Bool.eqb_reflx.
Defined.

(** X22: the batch the routine cleanup hands to the archiver is made of
    the oldest sessions the watcher does not protect: a half of them
    above 90%, 35% above 85% and a quarter otherwise, rounded up; no
    unprotected session left out is older than one of the batch, and the
    batch is empty only when every session is protected. *)
Theorem watcher_batch_oldest_unprotected :
  forall (now : Z) (sessions : list Session) (u : Q),
    let unprotected := List.filter (fun s => negb (_isProtected now s)) sessions in
    let fraction :=
      if Qltb 90 u then (5 # 10)%Q
      else if Qltb 85 u then (35 # 100)%Q else (25 # 100)%Q in
    let batch := toPrune now sessions u in
    Z.of_nat (length batch)
    = Math_ceil (inject_Z (Z.of_nat (length unprotected)) * fraction)
    /\ (forall s, In s batch -> In s sessions /\ _isProtected now s = false)
    /\ (forall s t, In s batch -> In t unprotected -> ~ In t batch ->
                    lastActive s <= lastActive t)
    /\ (batch = [] <-> unprotected = []).
Proof.
  intros now sessions u unprotected fraction batch.
  assert (Hf : (0 < fraction)%Q /\ (0 <= fraction)%Q /\ (fraction <= 1)%Q).
  { unfold fraction. destruct (Qltb 90 u); [|destruct (Qltb 85 u)];
      repeat split; qconst. }
  destruct Hf as (Hpos & H0 & H1).
  set (sorted := sort (fun a b => lastActive a <? lastActive b) unprotected).
  set (count := Math_ceil (inject_Z (Z.of_nat (length sorted)) * fraction)).
  assert (Hbatch : batch = firstn (Z.to_nat count) sorted).
  { unfold batch, toPrune. fold unprotected. fold sorted.
    assert (Hc : (if Qltb 90 u
                  then Math_ceil (inject_Z (Z.of_nat (length sorted)) * (5 # 10))
                  else if Qltb 85 u
                       then Math_ceil (inject_Z (Z.of_nat (length sorted)) * (35 # 100))
                       else Math_ceil (inject_Z (Z.of_nat (length sorted)) * (25 # 100)))
                 = count).
    { unfold count, fraction. destruct (Qltb 90 u); [|destruct (Qltb 85 u)];
        reflexivity. }
    rewrite Hc. unfold slice0.
    pose proof (Math_ceil_fraction (length sorted) fraction H0 H1) as Hr.
    fold count in Hr. destruct (Z.leb_spec 0 count); [reflexivity|lia]. }
  pose proof (Math_ceil_fraction (length sorted) fraction H0 H1) as Hrange.
  fold count in Hrange.
  assert (Hlen : length sorted = length unprotected) by apply sort_length.
  assert (Hsorted : StronglySorted (fun a b => lastActive a <= lastActive b) sorted).
  { apply sort_sorted.
    - intros x y z. lia.
    - intros x y Hlt. apply Z.ltb_lt in Hlt. lia.
    - intros x y Hge. apply Z.ltb_ge in Hge. lia. }
  split; [|split; [|split]].
  - rewrite Hbatch, length_firstn. unfold count in *. rewrite <- Hlen. lia.
  - intros s Hs. rewrite Hbatch in Hs. apply PrunerFacts.In_firstn in Hs.
    apply sort_In, filter_In in Hs. destruct Hs as [Hs Hp].
    apply negb_true_iff in Hp. auto.
  - intros s t Hs Ht Hout. rewrite Hbatch in Hs, Hout.
    apply (sort_In (fun a b => lastActive a <? lastActive b)) in Ht.
    fold sorted in Ht.
    rewrite <- (firstn_skipn (Z.to_nat count) sorted) in Hsorted, Ht.
    apply in_app_or in Ht. destruct Ht as [Ht|Ht]; [contradiction|].
    apply (PrunerClaims.sorted_app_le _ _ _ Hsorted s t Hs Ht).
  - split.
    + intros Hnil. destruct unprotected as [|x rest] eqn:E; [reflexivity|].
      exfalso.
      assert (Hn : (0 < length sorted)%nat) by (rewrite Hlen; simpl; lia).
      pose proof (SelectionExtras.count_positive (length sorted) fraction Hn Hpos)
        as Hone.
      fold count in Hone.
      assert (Hl : length batch = 0%nat) by (rewrite Hnil; reflexivity).
      rewrite Hbatch, length_firstn in Hl. lia.
    + intros Hnil. rewrite Hbatch. unfold sorted. rewrite Hnil.
      apply firstn_nil.
Qed.

(** X23: what a check does to the watcher: it counts itself, whatever
    follows; it counts at most one cleanup; with [autoCleanup] off, or
    with a utilization under both thresholds, it leaves the files, the
    archives and the cleanup count as they are; and at or above the
    emergency threshold with [autoCleanup] on it counts a cleanup whether
    or not the emergency cleanup succeeded. *)
Theorem check_counts_and_leaves_alone :
  forall (faults : Faults) (config : Config) (setup : Setup) (now : Z)
         (date : string) (st : State) (w : World),
    let result := _performCheck faults config setup now date st w in
    let u := utilizationPercent
               (getContextUsage (monitorConfig setup) now (live w)) in
    checkCount (fst result) = checkCount st + 1
    /\ lastCheck (fst result) = Some now
    /\ isRunning (fst result) = isRunning st
    /\ intervalId (fst result) = intervalId st
    /\ (cleanupCount (fst result) = cleanupCount st
        /\ lastCleanup (fst result) = lastCleanup st
        \/ cleanupCount (fst result) = cleanupCount st + 1
           /\ lastCleanup (fst result) = Some now)
    /\ (autoCleanup config = false ->
        snd result = w /\ cleanupCount (fst result) = cleanupCount st)
    /\ (Qle_bool (inject_Z (emergencyThreshold config)) u = false ->
        Qle_bool (inject_Z (alertThreshold config)) u = false ->
        snd result = w /\ cleanupCount (fst result) = cleanupCount st)
    /\ (Qle_bool (inject_Z (emergencyThreshold config)) u = true ->
        autoCleanup config = true ->
        cleanupCount (fst result) = cleanupCount st + 1).
Proof.
  intros faults config setup now date st w result u.
  unfold result, _performCheck. fold u.
  destruct (Qle_bool (inject_Z (emergencyThreshold config)) u) eqn:Ee.
  - destruct (autoCleanup config) eqn:Ea.
    + unfold _triggerEmergencyCleanup.
      destruct (Emergency.execute faults (monitorConfig setup) (archiverConfig setup)
                  (emergencyConfig setup) now date w) as [report w'].
      cbn. repeat split; auto; intros; discriminate.
    + cbn. repeat split; auto; intros; discriminate.
  - destruct (Qle_bool (inject_Z (alertThreshold config)) u) eqn:Eal.
    + destruct (autoCleanup config) eqn:Ea.
      * unfold _triggerRoutineCleanup.
        destruct (toPrune now
                    (sessions (getContextUsage (monitorConfig setup) now (live w))) u)
          as [|t batch].
        { cbn. repeat split; auto; intros; discriminate. }
        destruct (Archiver.archiveSessions faults (archiverConfig setup) now date
                    (t :: batch) "auto-cleanup" w) as [[r|message] w1].
        -- destruct (Pruner.prune faults (monitorConfig setup) (prunerConfig setup)
                       now (Pruner.getRecommendedStrategy u) w1) as [pr w2].
           cbn. repeat split; auto; intros; discriminate.
        -- cbn. repeat split; auto; intros; discriminate.
      * cbn. repeat split; auto; intros; discriminate.
    + cbn. repeat split; auto; intros; discriminate.
Qed.

(** X24: [stop()] ends the checks: whatever was called before and
    whatever timers fired, after [stop] the watcher is not running, the
    runtime holds no timer of it, so no further check can start, and the
    count of checks is what it was. *)
Theorem stopped_watcher_never_checks :
  forall (config : Config) (actions : list Action) (rt : Runtime),
    run config actions boot = Some rt ->
    let rt' := stop rt in
    isRunning (watcher rt') = false
    /\ timers rt' = []
    /\ (forall id now, react config (TimerFires id now) rt' = None)
    /\ checkCount (watcher rt') = checkCount (watcher rt).
Proof.
  intros config actions rt Hrun rt'.
  pose proof (WatcherClaims.run_singleTimer config actions boot rt
                WatcherClaims.boot_singleTimer Hrun) as [Ht Hr].
  assert (H : isRunning (watcher rt') = false /\ timers rt' = []
              /\ checkCount (watcher rt') = checkCount (watcher rt)).
  { unfold rt', stop. destruct (isRunning (watcher rt)) eqn:E; cbn [negb].
    - cbn [watcher timers isRunning checkCount].
      destruct (intervalId (watcher rt)) as [id|].
      + rewrite Ht. cbn [List.filter]. rewrite Nat.eqb_refl. auto.
      + rewrite Ht. auto.
    - split; [exact E|]. split; [|reflexivity].
      destruct (intervalId (watcher rt)) as [id|]; [|exact Ht].
      assert (Hsome : Some id <> None) by discriminate.
      apply Hr in Hsome. congruence. }
  destruct H as (H1 & H2 & H3).
  split; [exact H1|]. split; [exact H2|]. split; [|exact H3].
  intros id now. cbn [react]. rewrite H2. reflexivity.
Qed.

Lemma stopped_watcher_never_checks_witness :
  react defaultConfig (TimerFires 1 (now0 + 1))
        (stop (start defaultConfig now0 boot)) = None.
Proof.
  destruct (stopped_watcher_never_checks defaultConfig [CallStart now0]
              (start defaultConfig now0 boot) eq_refl) as (_ & _ & H & _).
  apply H.
Defined.

End WatcherExtras.

(** ** Configuration manager: what [validate] reports *)

Module ConfigExtras.
Import JS JSFacts ConfigManager.

Lemma push_In (cond : bool) (message x : string) (errors : list string) :
  In x (push cond message errors) <-> In x errors \/ (cond = true /\ x = message).
Proof.
  unfold push. destruct cond.
  - rewrite in_app_iff. simpl. intuition congruence.
  - intuition congruence.
Qed.

Lemma lt_spec (a b : Value) :
  lt a b = true <-> exists x y, a = Num x /\ b = Num y /\ (x < y)%Q.
Proof.
  destruct a as [|x], b as [|y]; simpl; split;
    try discriminate; try (intros (x' & y' & H1 & H2 & _); discriminate).
  - intros H. apply Qltb_true in H. eauto.
  - intros (x' & y' & H1 & H2 & H). inversion H1; inversion H2; subst.
    apply Qltb_true. exact H.
Qed.

Lemma le_spec (a b : Value) :
  le a b = true <-> exists x y, a = Num x /\ b = Num y /\ (x <= y)%Q.
Proof.
  destruct a as [|x], b as [|y]; simpl; split;
    try discriminate; try (intros (x' & y' & H1 & H2 & _); discriminate).
  - intros H. apply Qle_bool_iff in H. eauto.
  - intros (x' & y' & H1 & H2 & H). inversion H1; inversion H2; subst.
    apply Qle_bool_iff. exact H.
Qed.

(** X25: what [validate()] reports, for values that are numbers or
    missing: each of its four errors is reported exactly when the values
    it reads are numbers and break its rule, so a missing value is never
    reported; and the configuration is valid exactly when no error is
    reported. *)
Theorem validate_reports_exactly :
  forall (config : Config),
    let v := validate config in
    (In "alertThreshold must be between 0 and 100" (errors v) <->
     exists a, alertThreshold config = Num a /\ ((a < 0)%Q \/ (100 < a)%Q))
    /\ (In "emergencyThreshold must be between 0 and 100" (errors v) <->
        exists e, emergencyThreshold config = Num e /\ ((e < 0)%Q \/ (100 < e)%Q))
    /\ (In "emergencyThreshold must be greater than alertThreshold" (errors v) <->
        exists a e, alertThreshold config = Num a
                    /\ emergencyThreshold config = Num e /\ (e <= a)%Q)
    /\ (In "intervalMinutes must be positive" (errors v) <->
        exists i, intervalMinutes config = Num i /\ (i <= 0)%Q)
    /\ (forall x, In x (errors v) ->
                  In x [ "alertThreshold must be between 0 and 100";
                         "emergencyThreshold must be between 0 and 100";
                         "emergencyThreshold must be greater than alertThreshold";
                         "intervalMinutes must be positive" ])
    /\ (valid v = true <-> errors v = []).
Proof.
  intros config v. unfold v, validate. cbn [errors valid].
  split; [|split; [|split; [|split; [|split]]]].
  - rewrite !push_In. cbn [In]. split.
    + intros [[[[F|[H _]]|[_ H]]|[_ H]]|[_ H]];
        [destruct F| |discriminate H|discriminate H|discriminate H].
      apply orb_true_iff in H. rewrite !lt_spec in H.
      destruct H as [(x & y & H1 & H2 & H)|(x & y & H1 & H2 & H)].
      * inversion H2; subst. eauto.
      * inversion H1; subst. eauto.
    + intros (a & Ha & H). left. left. left. right. split; [|reflexivity].
      apply orb_true_iff. rewrite !lt_spec. destruct H as [H|H]; [left|right]; eauto.
  - rewrite !push_In. cbn [In]. split.
    + intros [[[[F|[_ H]]|[H _]]|[_ H]]|[_ H]];
        [destruct F|discriminate H| |discriminate H|discriminate H].
      apply orb_true_iff in H. rewrite !lt_spec in H.
      destruct H as [(x & y & H1 & H2 & H)|(x & y & H1 & H2 & H)].
      * inversion H2; subst. eauto.
      * inversion H1; subst. eauto.
    + intros (a & Ha & H). left. left. right. split; [|reflexivity].
      apply orb_true_iff. rewrite !lt_spec. destruct H as [H|H]; [left|right]; eauto.
  - rewrite !push_In. cbn [In]. split.
    + intros [[[[F|[_ H]]|[_ H]]|[H _]]|[_ H]];
        [destruct F|discriminate H|discriminate H| |discriminate H].
      apply le_spec in H. destruct H as (x & y & H1 & H2 & H). eauto.
    + intros (a & e & Ha & He & H). left. right. split; [|reflexivity].
      apply le_spec. eauto.
  - rewrite !push_In. cbn [In]. split.
    + intros [[[[F|[_ H]]|[_ H]]|[_ H]]|[H _]];
        [destruct F|discriminate H|discriminate H|discriminate H|].
      apply le_spec in H. destruct H as (x & y & H1 & H2 & H).
      inversion H2; subst. eauto.
    + intros (i & Hi & H). right. split; [|reflexivity]. apply le_spec. eauto.
  - intros x. rewrite !push_In. cbn [In]. intuition auto.
  - destruct (push _ _ _); split; congruence.
Qed.

End ConfigExtras.

(** ** Analyzer: recency and the two lists *)

Module AnalyzerExtras.
Import JS JSFacts Analyzer Recommendation Examples AnalysisExamples.

Lemma hours_below (ms k : Z) :
  Qltb (inject_Z ms / 3600000) (inject_Z k) = false <-> k * 3600000 <= ms.
Proof.
  pose proof (hours_lt ms k) as H.
  destruct (Qltb (inject_Z ms / 3600000) (inject_Z k)).
  - split; [discriminate|]. intros Hle. assert (ms < k * 3600000) by (apply H; auto).
    lia.
  - split; [|reflexivity]. intros _.
    destruct (Z_lt_le_dec ms (k * 3600000)) as [Hlt|Hle]; [|exact Hle].
    apply H in Hlt. discriminate Hlt.
Qed.

(** X26: the recency score falls with the age: of two sessions the one
    used last has the score that is at least as high, and a score is
    never under 10 nor over 100. *)
Theorem recency_score_falls_with_age :
  forall (now earlier later : Z),
    earlier <= later ->
    (_calculateRecencyScore now earlier <= _calculateRecencyScore now later)%Q
    /\ (10 <= _calculateRecencyScore now earlier)%Q
    /\ (_calculateRecencyScore now earlier <= 100)%Q.
Proof.
  intros now earlier later Hle. unfold _calculateRecencyScore.
  change 1%Q with (inject_Z 1). change 6%Q with (inject_Z 6).
  change 24%Q with (inject_Z 24). change 72%Q with (inject_Z 72).
  change 168%Q with (inject_Z 168). change 336%Q with (inject_Z 336).
  repeat match goal with
         | |- context [Qltb (inject_Z ?ms / 3600000) (inject_Z ?k)] =>
             let E := fresh "E" in
             destruct (Qltb (inject_Z ms / 3600000) (inject_Z k)) eqn:E;
             [apply hours_lt in E|apply hours_below in E]
         end;
    try lia; repeat split; qconst.
Qed.

Lemma recency_score_falls_with_age_witness :
  (_calculateRecencyScore now0 (now0 - 2 * day)
   <= _calculateRecencyScore now0 (now0 - hour))%Q.
Proof.
  apply (recency_score_falls_with_age now0 (now0 - 2 * day) (now0 - hour)).
  vm_compute. discriminate.
Defined.

Lemma classify_spec (score : Q) :
  (String.eqb (_classifySession score) "critical" = Qle_bool 80 score)
  /\ (String.eqb (_classifySession score) "important" = true ->
      Qle_bool 60 score = true).
Proof.
  unfold _classifySession.
  destruct (Qle_bool 80 score); [split; [reflexivity|discriminate]|].
  destruct (Qle_bool 60 score); [split; [reflexivity|reflexivity]|].
  destruct (Qle_bool 40 score); [split; [reflexivity|discriminate]|].
  destruct (Qle_bool 20 score); split; try reflexivity; discriminate.
Qed.

Lemma Qle_bool_mono (a b x : Q) :
  (a <= b)%Q -> Qle_bool b x = true -> Qle_bool a x = true.
Proof.
  intros Hab H. apply Qle_bool_iff in H. apply Qle_bool_iff.
  eapply Qle_trans; eauto.
Qed.

(** X27: the two lists of the analyzer, on analyses it has produced: a
    session is listed for preservation exactly when its score is 60 or
    more, and as safe to prune exactly when its score is under 40 and
    its recommendation is [safe_to_prune]; the tests on the
    classification change nothing. No session is in both lists, and a
    session whose analysis failed is in neither. *)
Theorem preserve_and_prune_lists :
  forall (config : Analyzer.Config) (analyses : list Analysis),
    (forall a, In a analyses ->
               (exists id factors, a = analysisOf config id factors)
               \/ exists id, a = failedAnalysis id) ->
    (forall a, In a (getSessionsToPreserve analyses) <->
               In a analyses /\ (60 <= Recommendation.importanceScore a)%Q)
    /\ (forall a, In a (getSessionsToPrune analyses) <->
                  In a analyses /\ (Recommendation.importanceScore a < 40)%Q
                  /\ recommendation a = "safe_to_prune")
    /\ (forall a, In a (getSessionsToPrune analyses) ->
                  ~ In a (getSessionsToPreserve analyses))
    /\ (forall id, ~ In (failedAnalysis id) (getSessionsToPreserve analyses)
                   /\ ~ In (failedAnalysis id) (getSessionsToPrune analyses)).
Proof.
  intros config analyses Hmade.
  assert (Hclass : forall a, In a analyses ->
            (String.eqb (classification a) "critical" = true ->
             Qle_bool 80 (Recommendation.importanceScore a) = true)
            /\ (String.eqb (classification a) "important" = true ->
                Qle_bool 60 (Recommendation.importanceScore a) = true)).
  { intros a Ha. destruct (Hmade a Ha) as [(id & factors & ->)|(id & ->)].
    - cbn [classification Recommendation.importanceScore analysisOf].
      destruct (classify_spec (_calculateImportanceScore config factors)) as [H1 H2].
      rewrite H1. auto.
    - cbn. split; discriminate. }
  assert (Hpreserve : forall a,
            In a (getSessionsToPreserve analyses) <->
            In a analyses /\ (60 <= Recommendation.importanceScore a)%Q).
  { intros a. unfold getSessionsToPreserve, ranked.
    rewrite filter_In, sort_In. split.
    - intros [Ha Hp]. split; [exact Ha|]. apply Qle_bool_iff.
      destruct (Hclass a Ha) as [H1 H2].
      apply orb_true_iff in Hp. destruct Hp as [Hp|Hp]; [|auto].
      apply orb_true_iff in Hp. destruct Hp as [Hp|Hp]; [exact Hp|].
      apply (Qle_bool_mono 60 80); [qconst|auto].
    - intros [Ha Hs]. split; [exact Ha|].
      apply Qle_bool_iff in Hs. rewrite Hs. reflexivity. }
  assert (Hprune : forall a,
            In a (getSessionsToPrune analyses) <->
            In a analyses /\ (Recommendation.importanceScore a < 40)%Q
            /\ recommendation a = "safe_to_prune").
  { intros a. unfold getSessionsToPrune, ranked.
    rewrite filter_In, sort_In, !andb_true_iff, Qltb_true, String.eqb_eq. split.
    - intros [Ha [[Hs _] Hr]]. auto.
    - intros [Ha [Hs Hr]]. split; [exact Ha|]. split; [split; [exact Hs|]|exact Hr].
      apply negb_true_iff.
      destruct (String.eqb (classification a) "critical") eqn:E; [|reflexivity].
      destruct (Hclass a Ha) as [H1 _]. apply H1, Qle_bool_iff in E.
      exfalso. apply (Qlt_not_le _ _ Hs). eapply Qle_trans; [|exact E]. qconst. }
  split; [exact Hpreserve|]. split; [exact Hprune|]. split.
  - intros a Hp Hk. apply Hprune in Hp. apply Hpreserve in Hk.
    destruct Hp as [_ [Hs _]]. destruct Hk as [_ Hk].
    apply (Qlt_not_le _ _ Hs). eapply Qle_trans; [|exact Hk]. qconst.
  - intros id. split.
    + intros H. apply Hpreserve in H. destruct H as [_ H]. revert H. cbn. qconst.
    + intros H. apply Hprune in H. destruct H as [_ [_ H]]. discriminate H.
Qed.

Lemma preserve_and_prune_lists_witness :
  In (analysisOf Analyzer.defaultConfig "s" fifties)
     (getSessionsToPreserve twoAnalyses).
Proof.
  destruct (preserve_and_prune_lists Analyzer.defaultConfig twoAnalyses)
    as (H & _).
  - intros a [<-|[<-|[]]]; [left|right]; eauto.
  - apply H. split; [left; reflexivity|]. vm_compute. discriminate.
Defined.

End AnalyzerExtras.

(** ** Security utilities: the sanitized file name and the deletion count *)

Module SecurityExtras.
Import JS JSFacts SecurityUtils SecurityProps.

Lemma removeAll_all (bad : ascii -> bool) (s : string) :
  allChars (fun c => negb (bad c)) (removeAll bad s) = true.
Proof.
  induction s as [|c s IH]; [reflexivity|].
  cbn [removeAll]. destruct (bad c) eqn:E; [exact IH|].
  cbn [allChars]. rewrite E, IH. reflexivity.
Qed.

Lemma removeDotDot_cons (c : ascii) (rest : string) :
  isChar 46 c = false ->
  removeDotDot (String c rest) = String c (removeDotDot rest).
Proof.
  intros H. destruct rest as [|d rest]; [reflexivity|].
  cbn [removeDotDot]. rewrite H. reflexivity.
Qed.

(** The second replacement keeps what holds of every character and
    leaves no two dots in a row. *)
Lemma removeDotDot_spec (ok : ascii -> bool) (n : nat) :
  forall s, (String.length s <= n)%nat ->
            (allChars ok s = true -> allChars ok (removeDotDot s) = true)
            /\ hasDotDot (removeDotDot s) = false.
Proof.
  induction n as [|n IH]; intros s Hn.
  { destruct s; [split; auto|cbn [String.length] in Hn; lia]. }
  destruct s as [|c rest]; [split; auto|].
  cbn [String.length] in Hn.
  destruct rest as [|d rest'].
  { cbn [removeDotDot hasDotDot]. split; auto. }
  cbn [String.length] in Hn.
  destruct (isChar 46 c && isChar 46 d) eqn:E.
  - assert (Hr : removeDotDot (String c (String d rest')) = removeDotDot rest').
    { cbn [removeDotDot]. rewrite E. reflexivity. }
    rewrite Hr. destruct (IH rest' ltac:(lia)) as [I1 I2]. split; [|exact I2].
    cbn [allChars]. intros H. apply andb_true_iff in H. destruct H as [_ H].
    apply andb_true_iff in H. destruct H as [_ H]. auto.
  - assert (Hr : removeDotDot (String c (String d rest'))
                 = String c (removeDotDot (String d rest'))).
    { cbn [removeDotDot]. rewrite E. reflexivity. }
    rewrite Hr.
    destruct (IH (String d rest') ltac:(cbn [String.length]; lia)) as [I1 I2].
    split.
    + cbn [allChars]. intros H. apply andb_true_iff in H. destruct H as [Hc H].
      cbn [allChars] in I1. rewrite Hc, I1; [reflexivity|exact H].
    + destruct (isChar 46 d) eqn:Ed.
      * rewrite andb_true_r in E.
        destruct (removeDotDot (String d rest')) as [|x y] eqn:Ex; [reflexivity|].
        cbn [hasDotDot]. rewrite E. cbn [andb orb]. exact I2.
      * rewrite (removeDotDot_cons d rest' Ed) in *.
        cbn [hasDotDot] in *. rewrite Ed in I2 |- *. rewrite andb_false_r.
        cbn [andb orb] in *. exact I2.
Qed.

Lemma removeLeadingDot_spec (ok : ascii -> bool) (s : string) :
  (allChars ok s = true -> allChars ok (removeLeadingDot s) = true)
  /\ (hasDotDot s = false ->
      hasDotDot (removeLeadingDot s) = false
      /\ startsWithDot (removeLeadingDot s) = false).
Proof.
  destruct s as [|c rest]; [split; auto|].
  cbn [removeLeadingDot]. destruct (isChar 46 c) eqn:E.
  - split.
    + cbn [allChars]. intros H. apply andb_true_iff in H. tauto.
    + destruct rest as [|d rest']; [split; reflexivity|].
      cbn [hasDotDot startsWithDot]. rewrite E. cbn [andb].
      intros H. apply orb_false_iff in H. destruct H as [Hd H].
      split; [|exact Hd]. exact H.
  - split; [auto|]. intros H. split; [exact H|exact E].
Qed.

Lemma replaceAll_all (ok ok' old : ascii -> bool) (new : ascii) (s : string) :
  ok' new = true ->
  (forall c, ok c = true -> old c = false -> ok' c = true) ->
  allChars ok s = true -> allChars ok' (replaceAll old new s) = true.
Proof.
  intros Hnew Hkeep. induction s as [|c s IH]; [reflexivity|].
  cbn [allChars replaceAll]. intros H. apply andb_true_iff in H.
  destruct H as [Hc H]. rewrite (IH H), andb_true_r.
  destruct (old c) eqn:E; [exact Hnew|auto].
Qed.

Lemma hasDotDot_cons (c : ascii) (rest : string) :
  hasDotDot (String c rest) = isChar 46 c && startsWithDot rest || hasDotDot rest.
Proof.
  destruct rest as [|d rest]; [|reflexivity].
  cbn [hasDotDot startsWithDot]. rewrite andb_false_r. reflexivity.
Qed.

Lemma replaceAll_dots (old : ascii -> bool) (new : ascii) (s : string) :
  isChar 46 new = false ->
  (forall c, old c = true -> isChar 46 c = false) ->
  hasDotDot (replaceAll old new s) = hasDotDot s
  /\ startsWithDot (replaceAll old new s) = startsWithDot s.
Proof.
  intros Hnew Hold.
  assert (Hc : forall c, isChar 46 (if old c then new else c) = isChar 46 c).
  { intros c. destruct (old c) eqn:E; [|reflexivity].
    rewrite Hnew, (Hold c E). reflexivity. }
  induction s as [|c s [IH1 IH2]]; [split; reflexivity|].
  cbn [replaceAll]. rewrite !hasDotDot_cons. cbn [startsWithDot].
  rewrite Hc, IH1, IH2. split; reflexivity.
Qed.

Lemma substring_spec (ok : ascii -> bool) (n : nat) :
  forall s,
    (String.length (String.substring 0 n s) <= n)%nat
    /\ (allChars ok s = true -> allChars ok (String.substring 0 n s) = true)
    /\ (hasDotDot s = false -> hasDotDot (String.substring 0 n s) = false)
    /\ (startsWithDot s = false -> startsWithDot (String.substring 0 n s) = false).
Proof.
  induction n as [|n IH]; intros s.
  { destruct s; cbn; repeat split; auto. }
  destruct s as [|c rest]; [cbn; repeat split; auto; lia|].
  cbn [String.substring String.length].
  destruct (IH rest) as (I1 & I2 & I3 & I4).
  split; [lia|]. split; [|split].
  - cbn [allChars]. intros H. apply andb_true_iff in H. destruct H as [Hc H].
    rewrite Hc, (I2 H). reflexivity.
  - destruct rest as [|d rest'].
    + intros _. destruct n; reflexivity.
    + intros H. cbn [hasDotDot] in H. apply orb_false_iff in H.
      destruct H as [Hcd H]. destruct n as [|n'].
      * reflexivity.
      * specialize (I3 H). cbn [String.substring] in *.
        cbn [hasDotDot]. rewrite Hcd. exact I3.
  - cbn [startsWithDot]. auto.
Qed.

(** X28: a sanitized file name is safe to use in one directory: what
    [sanitizeFilename] returns is at most 255 characters long, holds none
    of the forbidden characters, no slash and no backslash, has no two
    dots in a row and does not start with a dot; and it returns for
    every string but the empty one. *)
Theorem sanitized_filename_is_plain :
  forall (filename : string),
    (sanitizeFilename filename = None <-> filename = EmptyString)
    /\ forall out, sanitizeFilename filename = Some out ->
                   (String.length out <= 255)%nat
                   /\ allChars plain out = true
                   /\ hasDotDot out = false
                   /\ startsWithDot out = false.
Proof.
  intros filename. split.
  { destruct filename; cbn [sanitizeFilename]; split; auto; discriminate. }
  intros out H.
  assert (Hout : out = String.substring 0 255
                         (replaceAll (isChar 92) (ascii_of_N 45)
                            (replaceAll (isChar 47) (ascii_of_N 45)
                               (removeLeadingDot
                                  (removeDotDot (removeAll forbidden filename)))))).
  { destruct filename; [discriminate H|]. cbn [sanitizeFilename] in H.
    inversion H. reflexivity. }
  clear H. subst out.
  set (s1 := removeAll forbidden filename).
  set (s2 := removeDotDot s1).
  set (s3 := removeLeadingDot s2).
  set (s4 := replaceAll (isChar 47) (ascii_of_N 45) s3).
  set (s5 := replaceAll (isChar 92) (ascii_of_N 45) s4).
  pose proof (removeAll_all forbidden filename) as A1. fold s1 in A1.
  destruct (removeDotDot_spec (fun c => negb (forbidden c)) (String.length s1) s1
              (Nat.le_refl _)) as [A2 D2].
  fold s2 in A2, D2. specialize (A2 A1).
  destruct (removeLeadingDot_spec (fun c => negb (forbidden c)) s2) as [A3 D3].
  fold s3 in A3, D3. specialize (A3 A2). destruct (D3 D2) as [D3' L3].
  assert (Hsep : forall n c, isChar n c = true -> n <> 46%N -> isChar 46 c = false).
  { intros n c Hc Hn. unfold isChar in *. apply N.eqb_eq in Hc.
    apply N.eqb_neq. congruence. }
  destruct (replaceAll_dots (isChar 47) (ascii_of_N 45) s3 eq_refl) as [D4 L4].
  { intros c Hc. apply (Hsep 47%N c Hc). discriminate. }
  fold s4 in D4, L4.
  destruct (replaceAll_dots (isChar 92) (ascii_of_N 45) s4 eq_refl) as [D5 L5].
  { intros c Hc. apply (Hsep 92%N c Hc). discriminate. }
  fold s5 in D5, L5.
  assert (A4 : allChars (fun c => negb (forbidden c) && negb (isChar 47 c)) s4 = true).
  { apply (replaceAll_all (fun c => negb (forbidden c))); [reflexivity| |exact A3].
    intros c Hc Ho. rewrite Hc, Ho. reflexivity. }
  assert (A5 : allChars plain s5 = true).
  { apply (replaceAll_all (fun c => negb (forbidden c) && negb (isChar 47 c)));
      [reflexivity| |exact A4].
    intros c Hc Ho. unfold plain. rewrite Hc, Ho. reflexivity. }
  destruct (substring_spec plain 255 s5) as (S1 & S2 & S3 & S4).
  split; [exact S1|]. split; [exact (S2 A5)|]. split.
  - apply S3. rewrite D5, D4. exact D3'.
  - apply S4. rewrite L5, L4. exact L3.
Qed.

Lemma sanitized_filename_is_plain_witness :
  exists out, sanitizeFilename "../.ssh/id:rsa" = Some out
              /\ allChars plain out = true /\ hasDotDot out = false.
Proof.
  eexists. split; [vm_compute; reflexivity|].
  destruct (sanitized_filename_is_plain "../.ssh/id:rsa") as [_ H].
  destruct (H _ ltac:(vm_compute; reflexivity)) as (_ & H2 & H3 & _).
  auto.
Defined.

(** X29: [validateDeletionCount] accepts exactly the numbers from 0 to
    the limit, and its own refusal is never given: a count over the
    limit is refused by [validateNumber] before, as out of range, so the
    safety message is never the one thrown. *)
Theorem deletion_count_safety_never_thrown :
  forall (count : Value) (maxLimit : Q),
    validateDeletionCount count maxLimit <> inl Safety
    /\ (validateDeletionCount count maxLimit = inr true <->
        exists c, count = Number c /\ (0 <= c)%Q /\ (c <= maxLimit)%Q)
    /\ (forall c, count = Number c -> (maxLimit < c)%Q ->
                  validateDeletionCount count maxLimit = inl OutOfRange).
Proof.
  intros count maxLimit. unfold validateDeletionCount, validateNumber.
  destruct count as [| |c].
  - split; [discriminate|]. split; [|intros c H; discriminate H].
    split; [discriminate|]. intros (c & H & _). discriminate H.
  - split; [discriminate|]. split; [|intros c H; discriminate H].
    split; [discriminate|]. intros (c & H & _). discriminate H.
  - destruct (Qltb c 0) eqn:E0; cbn [orb].
    + apply Qltb_true in E0. split; [discriminate|]. split.
      * split; [discriminate|]. intros (x & Hx & H0 & _). inversion Hx; subst.
        exfalso. exact (Qlt_not_le _ _ E0 H0).
      * reflexivity.
    + apply Qltb_false in E0. destruct (Qltb maxLimit c) eqn:E1.
      * apply Qltb_true in E1. split; [discriminate|]. split.
        -- split; [discriminate|]. intros (x & Hx & _ & H1). inversion Hx; subst.
           exfalso. exact (Qlt_not_le _ _ E1 H1).
        -- reflexivity.
      * pose proof E1 as E1'. apply Qltb_false in E1'.
        split; [discriminate|]. split.
        -- split; [eauto|reflexivity].
        -- intros x Hx Hlt. inversion Hx; subst. apply Qltb_true in Hlt.
           congruence.
Qed.

End SecurityExtras.

(** ** Pruner: the reasons of a conservative preview *)

Module ReasonExtras.
Import JS JSFacts Monitor Host Pruner Preview StoreFacts Examples.

Lemma days_over (ms k : Z) :
  k * 86400000 < ms ->
  (inject_Z k < inject_Z ms / 3600000 / 24)%Q.
Proof.
  intros H. unfold Qlt, Qdiv, Qmult, Qinv, inject_Z. simpl. lia.
Qed.

Lemma Math_round_over (k : Z) (x : Q) : (inject_Z k < x)%Q -> k <= Math_round x.
Proof.
  intros H. unfold Math_round. rewrite <- (Qfloor_Z k). apply Qfloor_resp_le.
  lra.
Qed.

(** With a [maxSessionAge] that is not a whole number of days the days
    printed can be under it: with 1.4 days, a session that is 1.45 days
    old is listed as an old session of 1 days. *)
Lemma fractional_days_round_under :
  reasonFor (14 # 10) now0 staleSession = OldSession 1.
Proof. vm_compute. reflexivity. Qed.

(** X30: for a [maxSessionAge] that is a whole number of days, as a
    [Pruner.Config] holds it and as the default 7 is, the preview of the
    conservative strategy gives one reason only: every session it lists
    is listed as an old session, with a number of days that is at least
    [maxSessionAge]; the test on the age in [_getPruneReason] and the one
    in [_conservativePrune] agree. A [maxSessionAge] with a fraction is
    not covered: see [fractional_days_round_under]. *)
Theorem conservative_preview_reason_is_age :
  forall (mcfg : Monitor.Config) (config : Pruner.Config) (now : Z) (w : World),
    Forall (fun entry =>
              exists days, preview_reason entry = OldSession days
                           /\ maxSessionAge config <= days)
           (dry_sessions (dryRun mcfg config now "conservative" w)).
Proof.
  intros mcfg config now w. unfold dryRun. cbn [dry_sessions].
  rewrite Forall_forall. intros entry Hin.
  apply list_elem_of_In, in_map_iff in Hin. destruct Hin as (s & <- & Hs).
  apply conservative_selected in Hs. destruct Hs as (_ & _ & Hage).
  cbn [preview_reason]. unfold _getPruneReason, reasonFor.
  assert (Hover : (inject_Z (maxSessionAge config)
                   < inject_Z (now - lastActive s) / 3600000 / 24)%Q).
  { apply days_over. lia. }
  pose proof Hover as Hb. apply Qltb_true in Hb. rewrite Hb.
  eexists. split; [reflexivity|]. apply Math_round_over, Hover.
Qed.

End ReasonExtras.
